(** * Recreational islands: geocoding pipeline and map construction

    A shallow embedding of the three scripts of the repository,

      - [recreational_islands.py]  (module [RecreationalIslands]),
      - [islands2.py]              (module [Islands2]),
      - [showislands.py]           (module [ShowIslands]),

    followed by the properties of the resolution pipeline (query variants,
    pacing of the requests, centre of the map, markers, popups).

    Python values are modelled as the interpreter has them: [float] is an
    IEEE 754 binary64 number (the standard library's [spec_float] at
    precision 53), [str] is a [string] holding the UTF-8 encoding of the
    text, the decoded JSON body of a reply is a tree of lists and
    dictionaries.  What differs among the versions of CPython that run the
    scripts is a parameter, [Py.Interpreter].  The network, the console,
    the clock and the file system are observed through a trace of events. *)

From Stdlib Require Import ZArith List String Ascii Bool Lia DecimalString.
From Stdlib Require Import SpecFloat.
Import ListNotations.

Local Open Scope string_scope.
Local Open Scope Z_scope.

(* ===================================================================== *)
(** * Python built-ins used by the scripts *)
(* ===================================================================== *)

Module Py.

(** ** The interpreter

    Two built-ins the scripts use changed over the versions of CPython:
    [sum] adds floats one after the other, each addition rounded, before
    version 3.12 and with a running compensation of the rounding errors
    from 3.12 on; and [float] reads the decimal digits of the Unicode
    database the interpreter was built with, which grows from version to
    version.  [decimal_zeros] lists the code points of the digits zero of
    that database; the nine digits that follow each make up its run. *)
Class Interpreter : Type :=
  { compensated_sum : bool;
    decimal_zeros : list Z }.

(** ** Floating point: binary64 *)

Definition prec : Z := 53.
Definition emax : Z := 1024.

Definition float : Type := spec_float.

Definition fadd : float -> float -> float := SFadd prec emax.
Definition fsub : float -> float -> float := SFsub prec emax.
Definition fdiv : float -> float -> float := SFdiv prec emax.

Definition fzero : float := S754_zero false.

(** Structural equality; on the canonical representations the operations
    produce it is equality of the represented numbers with their sign. *)
Definition float_same (x y : float) : bool :=
  match x, y with
  | S754_zero a, S754_zero b => Bool.eqb a b
  | S754_infinity a, S754_infinity b => Bool.eqb a b
  | S754_nan, S754_nan => true
  | S754_finite a m e, S754_finite b n f =>
      Bool.eqb a b && Pos.eqb m n && Z.eqb e f
  | _, _ => false
  end.

(** [bool(x)] for a float: false exactly for [0.0] and [-0.0]; a NaN is
    true. *)
Definition float_truthy (x : float) : bool :=
  match x with
  | S754_zero _ => false
  | _ => true
  end.

(** [x == 0.0]: true for both zeros. *)
Definition is_zero (x : float) : bool :=
  match x with
  | S754_zero _ => true
  | _ => false
  end.

(** [math.isnan(x)] *)
Definition is_nan (x : float) : bool :=
  match x with
  | S754_nan => true
  | _ => false
  end.

(** The nearest binary64 number to the integer [z], ties to even
    (int-to-float conversion; an infinity when [z] is out of range). *)
Definition float_of_Z (z : Z) : float := binary_normalize prec emax z 0 false.

(** The nearest binary64 number to [(-1)^s * num / den], for [0 < den]. *)
Definition float_of_ratio (s : bool) (num den : Z) : float :=
  match num with
  | Z0 => S754_zero s
  | _ =>
      let '(q, e, l) := SFdiv_core_binary prec emax num 0 den 0 in
      binary_round_aux prec emax s q e l
  end.

(** The nearest binary64 number to [(-1)^s * d * 10^k], for [0 <= d]. *)
Definition float_of_decimal (s : bool) (d k : Z) : float :=
  if 0 <=? k
  then float_of_ratio s (d * 10 ^ k) 1
  else float_of_ratio s d (10 ^ (- k)).

(** *** Characters

    The characters of a [str] are code points; the [string] that stands
    for it holds them in UTF-8.  A byte that is part of no well-formed
    sequence is read as [stray], which is no character. *)

Definition byte (c : ascii) : Z := Z.of_nat (nat_of_ascii c).

Definition stray : Z := 1114112.

Definition continuation (b : Z) : bool := (128 <=? b) && (b <? 192).

Definition scalar (least cp : Z) : Z :=
  if (least <=? cp) && (cp <? 1114112)
     && negb ((55296 <=? cp) && (cp <? 57344))
  then cp else stray.

Fixpoint code_points (l : list Z) : list Z :=
  match l with
  | [] => []
  | b :: r =>
      if b <? 128 then b :: code_points r
      else if (194 <=? b) && (b <? 224) then
        match r with
        | c1 :: r1 =>
            if continuation c1
            then scalar 128 ((b - 192) * 64 + (c1 - 128)) :: code_points r1
            else stray :: code_points r
        | _ => stray :: code_points r
        end
      else if (224 <=? b) && (b <? 240) then
        match r with
        | c1 :: c2 :: r2 =>
            if continuation c1 && continuation c2
            then scalar 2048 ((b - 224) * 4096 + (c1 - 128) * 64 + (c2 - 128))
                   :: code_points r2
            else stray :: code_points r
        | _ => stray :: code_points r
        end
      else if (240 <=? b) && (b <? 245) then
        match r with
        | c1 :: c2 :: c3 :: r3 =>
            if continuation c1 && continuation c2 && continuation c3
            then scalar 65536 ((b - 240) * 262144 + (c1 - 128) * 4096
                               + (c2 - 128) * 64 + (c3 - 128))
                   :: code_points r3
            else stray :: code_points r
        | _ => stray :: code_points r
        end
      else stray :: code_points r
  end.

(** The number of bytes of the first character of a text. *)
Definition first_width (l : list Z) : nat :=
  match l with
  | [] => 0%nat
  | b :: r =>
      if (194 <=? b) && (b <? 224) then
        match r with
        | c1 :: _ => if continuation c1 then 2%nat else 1%nat
        | _ => 1%nat
        end
      else if (224 <=? b) && (b <? 240) then
        match r with
        | c1 :: c2 :: _ =>
            if continuation c1 && continuation c2 then 3%nat else 1%nat
        | _ => 1%nat
        end
      else if (240 <=? b) && (b <? 245) then
        match r with
        | c1 :: c2 :: c3 :: _ =>
            if continuation c1 && continuation c2 && continuation c3
            then 4%nat else 1%nat
        | _ => 1%nat
        end
      else 1%nat
  end.

(** [s[0]]: the first character of a text that is not empty. *)
Definition first_char (s : string) : string :=
  String.substring 0 (first_width (map byte (list_ascii_of_string s))) s.

(** [ch.isspace()] for a character outside ASCII. *)
Definition unicode_space (ch : Z) : bool :=
  (ch =? 133) || (ch =? 160) || (ch =? 5760)
  || ((8192 <=? ch) && (ch <=? 8202))
  || (ch =? 8232) || (ch =? 8233) || (ch =? 8239) || (ch =? 8287)
  || (ch =? 12288).

(** The value of a decimal digit of the interpreter's Unicode database. *)
Definition decimal_value {py : Interpreter} (ch : Z) : option Z :=
  match find (fun z => (z <=? ch) && (ch <=? z + 9)) decimal_zeros with
  | Some z => Some (ch - z)
  | None => None
  end.

(** *** [float(s)] for a string

    A text with a character outside ASCII is first brought to ASCII: a
    space of Unicode becomes a blank, a decimal digit of Unicode the ASCII
    digit of its value, and at the first other character outside ASCII the
    text is cut and ends in a question mark, so that it reads as no
    number.  Then surrounding white space is ignored, and what is left is
    an optional sign and either a decimal numeral (digits, an optional
    fraction, an optional exponent; single underscores between digits) or
    one of [inf], [infinity], [nan]. *)

Fixpoint to_ascii {py : Interpreter} (l : list Z) : list ascii :=
  match l with
  | [] => []
  | ch :: r =>
      if ch <? 127 then ascii_of_nat (Z.to_nat ch) :: to_ascii r
      else if unicode_space ch then " "%char :: to_ascii r
      else match decimal_value ch with
           | Some d => ascii_of_nat (48 + Z.to_nat d) :: to_ascii r
           | None => ["?"%char]
           end
  end.

Definition is_space (c : ascii) : bool :=
  let n := nat_of_ascii c in
  ((9 <=? n) && (n <=? 13) || (n =? 32))%nat.

Definition is_digit (c : ascii) : bool :=
  let n := nat_of_ascii c in ((48 <=? n) && (n <=? 57))%nat.

Definition digit_value (c : ascii) : Z := Z.of_nat (nat_of_ascii c) - 48.

Definition lower (c : ascii) : ascii :=
  let n := nat_of_ascii c in
  if ((65 <=? n) && (n <=? 90))%nat then ascii_of_nat (n + 32) else c.

Fixpoint drop_spaces (l : list ascii) : list ascii :=
  match l with
  | c :: r => if is_space c then drop_spaces r else l
  | [] => []
  end.

Definition strip (l : list ascii) : list ascii :=
  rev (drop_spaces (rev (drop_spaces l))).

(** Underscores are dropped when they stand between two digits and are an
    error anywhere else. *)
Fixpoint drop_underscores (prev : option ascii) (l : list ascii)
  : option (list ascii) :=
  match l with
  | [] => match prev with
          | Some "_"%char => None
          | _ => Some []
          end
  | c :: r =>
      if Ascii.eqb c "_" then
        match prev with
        | Some p => if is_digit p then drop_underscores (Some c) r else None
        | None => None
        end
      else
        match prev with
        | Some "_"%char =>
            if is_digit c
            then option_map (cons c) (drop_underscores (Some c) r)
            else None
        | _ => option_map (cons c) (drop_underscores (Some c) r)
        end
  end.

Fixpoint span_digits (l : list ascii) : list ascii * list ascii :=
  match l with
  | c :: r =>
      if is_digit c
      then let '(ds, rest) := span_digits r in (c :: ds, rest)
      else ([], l)
  | [] => ([], [])
  end.

Definition Z_of_digits (ds : list ascii) : Z :=
  fold_left (fun acc c => 10 * acc + digit_value c) ds 0.

Definition take_sign (l : list ascii) : bool * list ascii :=
  match l with
  | "-"%char :: r => (true, r)
  | "+"%char :: r => (false, r)
  | _ => (false, l)
  end.

Definition chars (s : string) : list ascii := list_ascii_of_string s.

Definition list_ascii_eqb (a b : list ascii) : bool :=
  String.eqb (string_of_list_ascii a) (string_of_list_ascii b).

(** [inf], [infinity] and [nan], in any case. *)
Definition parse_inf_nan (s : bool) (l : list ascii) : option float :=
  let w := map lower l in
  if list_ascii_eqb w (chars "inf") || list_ascii_eqb w (chars "infinity")
  then Some (S754_infinity s)
  else if list_ascii_eqb w (chars "nan") then Some S754_nan
  else None.

(** The exponent part [e[+-]digits]; the text must end there. *)
Definition parse_exponent (l : list ascii) : option Z :=
  match l with
  | [] => Some 0
  | c :: r =>
      if Ascii.eqb (lower c) "e" then
        let '(neg, r1) := take_sign r in
        let '(ds, rest) := span_digits r1 in
        match ds, rest with
        | _ :: _, [] => Some (if neg then - Z_of_digits ds else Z_of_digits ds)
        | _, _ => None
        end
      else None
  end.

Definition parse_decimal (s : bool) (l : list ascii) : option float :=
  let '(ip, r1) := span_digits l in
  let '(fp, r2) :=
    match r1 with
    | "."%char :: r => span_digits r
    | _ => ([], r1)
    end in
  match (ip ++ fp)%list with
  | [] => None
  | ds =>
      match parse_exponent r2 with
      | Some x =>
          Some (float_of_decimal s (Z_of_digits ds)
                  (x - Z.of_nat (List.length fp)))
      | None => None
      end
  end.

(** The text [float] reads: the text itself when it is ASCII. *)
Definition ascii_text {py : Interpreter} (s : string) : list ascii :=
  let cps := code_points (map byte (chars s)) in
  if forallb (fun ch => ch <? 128) cps then chars s else to_ascii cps.

(** [float(s)]: [None] stands for [ValueError]. *)
Definition float_of_string {py : Interpreter} (s : string) : option float :=
  match drop_underscores None (strip (ascii_text s)) with
  | None => None
  | Some l =>
      let '(sg, r) := take_sign l in
      match parse_decimal sg r with
      | Some x => Some x
      | None => parse_inf_nan sg r
      end
  end.

(** *** Decimal output *)

Definition string_of_nonneg (z : Z) : string :=
  NilZero.string_of_uint (N.to_uint (Z.to_N z)).

Definition decimal_length (z : Z) : Z :=
  Z.of_nat (String.length (string_of_nonneg z)).

Fixpoint zeros (n : nat) : string :=
  match n with
  | O => ""
  | S m => "0" ++ zeros m
  end.

(** [z] written with at least [n] digits. *)
Definition pad_left (n : nat) (z : Z) : string :=
  let s := string_of_nonneg z in
  zeros (n - String.length s) ++ s.

(** Rounding of the non-negative quotient [num / den] to an integer, ties
    to even. *)
Definition round_half_even (num den : Z) : Z :=
  let q := num / den in
  let r := num mod den in
  match Z.compare (2 * r) den with
  | Lt => q
  | Gt => q + 1
  | Eq => if Z.even q then q else q + 1
  end.

(** A positive finite float [m * 2^e] as a fraction. *)
Definition ratio_of (m : positive) (e : Z) : Z * Z :=
  if 0 <=? e then (Zpos m * 2 ^ e, 1) else (Zpos m, 2 ^ (- e)).

Definition sign_text (s : bool) : string := if s then "-" else "".

Definition digit_char (z : Z) : ascii := ascii_of_nat (48 + Z.to_nat (z mod 10)).

(** The last six decimal digits of [z]. *)
Definition six_digits (z : Z) : string :=
  String (digit_char (z / 100000))
    (String (digit_char (z / 10000))
       (String (digit_char (z / 1000))
          (String (digit_char (z / 100))
             (String (digit_char (z / 10))
                (String (digit_char z) ""))))).

(** [format(x, ".6f")]: fixed notation with exactly six digits after the
    point, correctly rounded. *)
Definition format_6f (x : float) : string :=
  match x with
  | S754_nan => "nan"
  | S754_infinity s => sign_text s ++ "inf"
  | S754_zero s => sign_text s ++ "0." ++ six_digits 0
  | S754_finite s m e =>
      let '(num, den) := ratio_of m e in
      let n := round_half_even (num * 1000000) den in
      sign_text s ++ string_of_nonneg (n / 1000000) ++ "."
        ++ six_digits (n mod 1000000)
  end.

(** The shortest decimal numeral that reads back as [m * 2^e], and among
    those of that length the nearest one: its digits as an integer [c] and
    the exponent [k], the numeral being [c * 10^k]. *)
Definition leading_exponent (num den : Z) : Z :=
  if den <=? num
  then decimal_length (num / den) - 1
  else - decimal_length (den / num).

Definition shortest_at (x : float) (num den : Z) (n : Z) : option (Z * Z) :=
  let k := leading_exponent num den - (n - 1) in
  let '(a, b) := if 0 <=? k then (num, den * 10 ^ k) else (num * 10 ^ (- k), den) in
  let lo := a / b in
  let r := a mod b in
  let hi := lo + 1 in
  let lo_ok := float_same (float_of_decimal false lo k) x in
  let hi_ok := float_same (float_of_decimal false hi k) x in
  match lo_ok, hi_ok with
  | true, true =>
      match Z.compare (2 * r) b with
      | Lt => Some (lo, k)
      | Gt => Some (hi, k)
      | Eq => Some (if Z.even lo then lo else hi, k)
      end
  | true, false => Some (lo, k)
  | false, true => Some (hi, k)
  | false, false => None
  end.

Fixpoint shortest_from (fuel : nat) (x : float) (num den : Z) (n : Z)
  : Z * Z :=
  match fuel with
  | O => (round_half_even num den, 0)
  | S f =>
      match shortest_at x num den n with
      | Some ck => ck
      | None => shortest_from f x num den (n + 1)
      end
  end.

Fixpoint strip_zeros (fuel : nat) (c k : Z) : Z * Z :=
  match fuel with
  | O => (c, k)
  | S f => if (c mod 10 =? 0) && (0 <? c) then strip_zeros f (c / 10) (k + 1)
           else (c, k)
  end.

Definition shortest_digits (m : positive) (e : Z) : Z * Z :=
  let '(num, den) := ratio_of m e in
  let '(c, k) := shortest_from 17 (S754_finite false m e) num den 1 in
  strip_zeros 17 c k.

Definition exponent_text (x : Z) : string :=
  (if x <? 0 then "-" else "+") ++ pad_left 2 (Z.abs x).

(** [repr(x)], which is also [str(x)] and what an f-string field without a
    format gives: the shortest digits, in exponent notation when the
    decimal point falls more than 16 places right or more than 3 places
    left of the first digit. *)
Definition float_repr (x : float) : string :=
  match x with
  | S754_nan => "nan"
  | S754_infinity s => sign_text s ++ "inf"
  | S754_zero s => sign_text s ++ "0.0"
  | S754_finite s m e =>
      let '(c, k) := shortest_digits m e in
      let ds := string_of_nonneg c in
      let nd := Z.of_nat (String.length ds) in
      let decpt := nd + k in
      sign_text s ++
      (if (decpt <=? -4) || (16 <? decpt) then
         String.substring 0 1 ds
           ++ (if 1 <? nd then "." ++ String.substring 1 (String.length ds - 1) ds
               else "")
           ++ "e" ++ exponent_text (decpt - 1)
       else if decpt <=? 0 then
         "0." ++ zeros (Z.to_nat (- decpt)) ++ ds
       else if nd <=? decpt then
         ds ++ zeros (Z.to_nat (decpt - nd)) ++ ".0"
       else
         String.substring 0 (Z.to_nat decpt) ds ++ "."
           ++ String.substring (Z.to_nat decpt) (Z.to_nat (nd - decpt)) ds)
  end.

End Py.

(* ===================================================================== *)
(** * Python objects, exceptions and effects *)
(* ===================================================================== *)

Module Obj.

Import Py.

(** What [response.json()] can return: [None], booleans, numbers, strings,
    lists and dictionaries with string keys.  A dictionary is the list of
    its items in insertion order, each key once.  A [str] is a [string],
    the UTF-8 encoding of its characters. *)
#[warnings="-register-all"]
Inductive value : Type :=
| VNone
| VBool (b : bool)
| VInt (z : Z)
| VFloat (x : float)
| VStr (s : string)
| VList (l : list value)
| VDict (d : list (string * value)).

Inductive Key : Type :=
| KInt (z : Z)
| KStr (s : string).

(** The subclasses of [requests.RequestException] a request can end in. *)
Inductive RequestError : Type :=
| ConnectionError
| Timeout
| HTTPError (status : Z)
| JSONDecodeError
| OtherRequestError.

Inductive Exn : Type :=
| RequestException (k : RequestError)
| KeyError (k : Key)
| IndexError
| TypeError
| ValueError
| OverflowError
| ZeroDivisionError.

(** [except requests.RequestException] *)
Definition is_RequestException (e : Exn) : bool :=
  match e with
  | RequestException _ => true
  | _ => false
  end.

(** [except Exception]: every exception of the model is one. *)
Definition is_Exception (e : Exn) : bool := true.

(** [bool(v)], the test of [if v:]. *)
Definition truthy (v : value) : bool :=
  match v with
  | VNone => false
  | VBool b => b
  | VInt z => negb (z =? 0)
  | VFloat x => float_truthy x
  | VStr s => negb (String.eqb s "")
  | VList l => match l with [] => false | _ => true end
  | VDict d => match d with [] => false | _ => true end
  end.

(** [bool(x)] for an [Optional[float]] attribute. *)
Definition truthy_opt (o : option float) : bool :=
  match o with
  | Some x => float_truthy x
  | None => false
  end.

Fixpoint dict_get (d : list (string * value)) (k : string) : option value :=
  match d with
  | [] => None
  | (k', v) :: r => if String.eqb k' k then Some v else dict_get r k
  end.

(** [v[0]] *)
Definition getitem_0 (v : value) : Exn + value :=
  match v with
  | VList (x :: _) => inr x
  | VList [] => inl IndexError
  | VStr "" => inl IndexError
  | VStr s => inr (VStr (first_char s))
  | VDict _ => inl (KeyError (KInt 0))
  | _ => inl TypeError
  end.

(** [v[k]] for a string [k] *)
Definition getitem (v : value) (k : string) : Exn + value :=
  match v with
  | VDict d =>
      match dict_get d k with
      | Some x => inr x
      | None => inl (KeyError (KStr k))
      end
  | _ => inl TypeError
  end.

(** [float(v)] *)
Definition to_float {py : Interpreter} (v : value) : Exn + float :=
  match v with
  | VStr s =>
      match float_of_string s with
      | Some x => inr x
      | None => inl ValueError
      end
  | VInt z =>
      match float_of_Z z with
      | S754_infinity _ => inl OverflowError
      | x => inr x
      end
  | VFloat x => inr x
  | VBool b => inr (float_of_Z (if b then 1 else 0))
  | _ => inl TypeError
  end.

(** *** [sum]

    Before CPython 3.12 the additions are done from left to right,
    starting from the integer [0], each one rounded. *)
Definition fsum_plain (xs : list float) : float := fold_left fadd xs fzero.

(** From CPython 3.12 on the first number is added to the integer [0] and
    the others to a running sum that is followed by a compensation of the
    rounding errors, added at the end when it is finite and not zero. *)
Definition fabs : float -> float := SFabs.
Definition fle (x y : float) : bool := SFleb x y.
Definition is_finite (x : float) : bool :=
  match x with
  | S754_zero _ | S754_finite _ _ _ => true
  | _ => false
  end.

Fixpoint fsum_compensated_from (f_result c : float) (xs : list float) : float :=
  match xs with
  | [] => if float_truthy c && is_finite c then fadd f_result c else f_result
  | x :: r =>
      let t := fadd f_result x in
      let c' := if fle (fabs x) (fabs f_result)
                then fadd c (fadd (fsub f_result t) x)
                else fadd c (fadd (fsub x t) f_result) in
      fsum_compensated_from t c' r
  end.

Definition fsum_compensated (xs : list float) : float :=
  match xs with
  | [] => fzero
  | x :: r => fsum_compensated_from (fadd fzero x) fzero r
  end.

(** [sum(xs)] over numbers, as the interpreter computes it. *)
Definition fsum {py : Interpreter} (xs : list float) : float :=
  if compensated_sum then fsum_compensated xs else fsum_plain xs.

(** The numbers of a list of attributes, when none of them is [None]. *)
Fixpoint numbers (xs : list (option float)) : option (list float) :=
  match xs with
  | [] => Some []
  | Some x :: r => option_map (cons x) (numbers r)
  | None :: _ => None
  end.

(** [sum(xs)] over attributes that may be [None]: adding [None] to a number
    is a [TypeError]. *)
Definition sum {py : Interpreter} (xs : list (option float)) : Exn + float :=
  match numbers xs with
  | Some ys => inr (fsum ys)
  | None => inl TypeError
  end.

(** [sum(xs) / len(xs)] over numbers, for a list that is not empty. *)
Definition fmean {py : Interpreter} (xs : list float) : float :=
  fdiv (fsum xs) (float_of_Z (Z.of_nat (List.length xs))).

(** [sum(xs) / len(xs)] *)
Definition sum_over_len {py : Interpreter} (xs : list (option float))
  : Exn + float :=
  match sum xs with
  | inl e => inl e
  | inr s =>
      match xs with
      | [] => inl ZeroDivisionError
      | _ => inr (fdiv s (float_of_Z (Z.of_nat (List.length xs))))
      end
  end.

(** [float(v[k])] *)
Definition float_field {py : Interpreter} (v : value) (k : string) : Exn + float :=
  match getitem v k with
  | inr x => to_float x
  | inl e => inl e
  end.

(** [format(x, ".6f")] for an attribute that may be [None]. *)
Definition format_6f_opt (o : option float) : Exn + string :=
  match o with
  | Some x => inr (format_6f x)
  | None => inl TypeError
  end.

Definition nl : string := String (ascii_of_nat 10) "".
Definition dq : string := String (ascii_of_nat 34) "".

Definition str_of_nat (n : nat) : string := string_of_nonneg (Z.of_nat n).

End Obj.

(** ** The map library

    folium is taken as the specification takes it, a builder of the map
    artifact: [Map], [Marker], [Popup] and [Icon] record their arguments and
    [save] writes the map.  Of what the library checks, the check of a
    location is modelled: [folium.Map] and [folium.Marker] raise
    [ValueError] when one of the two numbers of the location is a NaN.
    An infinite number passes.  What the library renders is not
    modelled. *)

Module Folium.

Import Obj.

Record Icon : Type :=
  { color : string; icon_name : string; prefix : string }.

Record Popup : Type :=
  { html : string; max_width : option Z }.

Record Marker : Type :=
  { location : Py.float * Py.float;
    popup : Popup;
    tooltip : option string;
    icon : Icon }.

(** A map with the markers added to it, in the order of the [add_to]
    calls. *)
Record Map : Type :=
  { map_location : Py.float * Py.float;
    zoom_start : Z;
    tiles : string;
    markers : list Marker }.

(** The test of [validate_location] on two numbers. *)
Definition accepts (loc : Py.float * Py.float) : bool :=
  negb (Py.is_nan (fst loc)) && negb (Py.is_nan (snd loc)).

(** [folium.Map(location=loc, zoom_start=zoom, tiles=t)] *)
Definition new_Map (loc : Py.float * Py.float) (zoom : Z) (t : string)
  : Exn + Map :=
  if accepts loc
  then inr {| map_location := loc; zoom_start := zoom; tiles := t; markers := [] |}
  else inl ValueError.

(** [folium.Marker(location=..., popup=..., tooltip=..., icon=...)], for
    the marker these arguments describe. *)
Definition new_Marker (mk : Marker) : Exn + Marker :=
  if accepts (location mk) then inr mk else inl ValueError.

Definition add_to (mk : Marker) (m : Map) : Map :=
  {| map_location := map_location m;
     zoom_start := zoom_start m;
     tiles := tiles m;
     markers := (markers m ++ [mk])%list |}.

(** [folium.Icon(color=c, icon=i)] has the prefix [glyphicon]. *)
Definition default_prefix : string := "glyphicon".

(** A plain string given as popup is shown with the default width. *)
Definition text_popup (s : string) : Popup := {| html := s; max_width := None |}.

End Folium.

(** ** Requests and responses *)

Module Wire.

Import Obj.

Record Request : Type :=
  { url : string;
    params : list (string * string);
    user_agent : string;
    timeout : Z }.

(** A received response: its status and what [json()] makes of its body
    ([None] when the body is not JSON). *)
Record Response : Type :=
  { status_code : Z;
    body : option value }.

Inductive Reply : Type :=
| Fails (e : RequestError)
| Answers (r : Response).

(** The geocoding service as the program sees it. *)
Definition Service : Type := Request -> Reply.

End Wire.

(** ** Effects

    A computation runs from a state and ends normally or by an exception,
    leaving a state and a trace of what it did.  Printing, sleeping and
    writing the file of the map are taken to succeed: what the console or
    the file system could refuse is outside the model. *)

Module Eff.

Import Obj.

Inductive Event : Type :=
| Print (s : string)
| PrintError (s : string) (e : Exn)
| HttpGet (r : Wire.Request)
| Sleep (secs : Z)
| SetLatitude (x : Py.float)
| SetLongitude (x : Py.float)
| SaveMap (file : string) (m : Folium.Map).

Inductive Outcome (A : Type) : Type :=
| Ok (a : A)
| Raise (e : Exn).
Arguments Ok {A} a.
Arguments Raise {A} e.

(** One run of a piece of program from a state: how it ended, the state it
    left (also when it ended by an exception) and what it did. *)
Record Run (S A : Type) : Type :=
  { outcome : Outcome A;
    final : S;
    trace : list Event }.
Arguments outcome {S A} r.
Arguments final {S A} r.
Arguments trace {S A} r.
Arguments Build_Run {S A} outcome final trace.

Definition M (S A : Type) : Type := S -> Run S A.

Definition ret {S A} (a : A) : M S A :=
  fun s => Build_Run (Ok a) s [].

Definition raise {S A} (e : Exn) : M S A :=
  fun s => Build_Run (Raise e) s [].

Definition bind {S A B} (m : M S A) (k : A -> M S B) : M S B :=
  fun s =>
    let r := m s in
    match outcome r with
    | Ok a =>
        let r' := k a (final r) in
        Build_Run (outcome r') (final r') (trace r ++ trace r')%list
    | Raise e => Build_Run (Raise e) (final r) (trace r)
    end.

Definition emit {S} (ev : Event) : M S unit :=
  fun s => Build_Run (Ok tt) s [ev].

Definition get {S} : M S S := fun s => Build_Run (Ok s) s [].

Definition modify {S} (f : S -> S) : M S unit :=
  fun s => Build_Run (Ok tt) (f s) [].

(** The result of evaluating an expression that may raise. *)
Definition eval {S A} (x : Exn + A) : M S A :=
  match x with
  | inr a => ret a
  | inl e => raise e
  end.

(** [try: body except <handles> as e: handler e] *)
Definition try_except {S A} (body : M S A) (handles : Exn -> bool)
  (handler : Exn -> M S A) : M S A :=
  fun s =>
    let r := body s in
    match outcome r with
    | Ok a => r
    | Raise e =>
        if handles e then
          let r' := handler e (final r) in
          Build_Run (outcome r') (final r') (trace r ++ trace r')%list
        else r
    end.

(** A computation that leaves the state as it found it. *)
Definition keeps_state {S A} (m : M S A) : Prop := forall s, final (m s) = s.

Definition print {S} (s : string) : M S unit := emit (Print s).
Definition sleep {S} (secs : Z) : M S unit := emit (Sleep secs).

Module Notations.
  Declare Scope eff_scope.
  Delimit Scope eff_scope with eff.
  Notation "x <- c ;; k" := (bind c (fun x => k))
    (at level 61, c at next level, right associativity) : eff_scope.
  Notation "c ;; k" := (bind c (fun _ => k))
    (at level 61, right associativity) : eff_scope.
End Notations.

End Eff.

(** ** The HTTP client library *)

Module Requests.

Import Obj Eff Wire.

(** [requests.get(url, params=..., headers={"User-Agent": ...},
    timeout=...)], and [session.get] of a session with that header: the
    service answers, or the call raises one of the exceptions of the
    library, all of them [RequestException]s. *)
Definition get {S} (service : Service) (u : string)
  (ps : list (string * string)) (agent : string) (t : Z) : M S Response :=
  fun s =>
    let rq := {| url := u; params := ps; user_agent := agent; timeout := t |} in
    match service rq with
    | Answers r => Build_Run (Ok r) s [HttpGet rq]
    | Fails e => Build_Run (Raise (RequestException e)) s [HttpGet rq]
    end.

(** [response.raise_for_status()] *)
Definition raise_for_status {S} (r : Response) : M S unit :=
  if (400 <=? status_code r) && (status_code r <? 600)
  then raise (RequestException (HTTPError (status_code r)))
  else ret tt.

(** [response.json()].  A body that is not JSON raises
    [requests.exceptions.JSONDecodeError], which is a [RequestException]
    (as in requests 2.27 and later). *)
Definition json {S} (r : Response) : M S value :=
  match body r with
  | Some v => ret v
  | None => raise (RequestException JSONDecodeError)
  end.

End Requests.

(* ===================================================================== *)
(** * recreational_islands.py *)
(* ===================================================================== *)

Module RecreationalIslands.

Import Py Obj Eff Eff.Notations.
Local Open Scope eff_scope.

(** ** class Island *)

Record Island : Type :=
  { name : string;
    city : string;
    notes : string;
    latitude : option float;
    longitude : option float }.

(** [Island(name, city, notes)] *)
Definition Island_init (n c t : string) : Island :=
  {| name := n; city := c; notes := t; latitude := None; longitude := None |}.

(** [island.latitude = x] and [island.longitude = x] *)
Definition set_latitude (x : float) : M Island unit :=
  fun i =>
    Build_Run (Ok tt)
      {| name := name i; city := city i; notes := notes i;
         latitude := Some x; longitude := longitude i |}
      [SetLatitude x].

Definition set_longitude (x : float) : M Island unit :=
  fun i =>
    Build_Run (Ok tt)
      {| name := name i; city := city i; notes := notes i;
         latitude := latitude i; longitude := Some x |}
      [SetLongitude x].

(** [self.latitude and self.longitude], as a condition *)
Definition has_coordinates (island : Island) : bool :=
  truthy_opt (latitude island) && truthy_opt (longitude island).

(** [Island.__str__] *)
Definition Island_str {S} (self : Island) : M S string :=
  if has_coordinates self then
    lat <- eval (format_6f_opt (latitude self)) ;;
    lon <- eval (format_6f_opt (longitude self)) ;;
    ret (name self ++ ", " ++ city self ++ nl
         ++ "  Notes: " ++ notes self ++ nl
         ++ "  Coordinates: " ++ lat ++ ", " ++ lon)
  else
    ret (name self ++ ", " ++ city self ++ nl
         ++ "  Notes: " ++ notes self ++ nl
         ++ "  Coordinates: Not found").

(** ** class NominatimGeocoder *)

Record NominatimGeocoder : Type := { user_agent : string }.

Definition BASE_URL : string := "https://nominatim.openstreetmap.org/search".

(** [NominatimGeocoder()] *)
Definition NominatimGeocoder_init : NominatimGeocoder :=
  {| user_agent := "RecreationalIslandsFinder/1.0" |}.

Definition geocode_params (query : string) : list (string * string) :=
  [("q", query); ("format", "json"); ("limit", "1"); ("countrycodes", "fi")].

Section Program.

Context {py : Interpreter}.
Variable service : Wire.Service.

(** [NominatimGeocoder.geocode] *)
Definition geocode {S} (self : NominatimGeocoder) (query : string)
  : M S value :=
  try_except
    (response <- Requests.get service BASE_URL (geocode_params query)
                   (user_agent self) 10 ;;
     Requests.raise_for_status response ;;
     results <- Requests.json response ;;
     if truthy results then eval (getitem_0 results) else ret VNone)
    is_RequestException
    (fun e =>
       emit (PrintError ("Error geocoding '" ++ query ++ "': ") e) ;;
       ret VNone).

(** The query formats of [find_coordinates], in the order they are tried. *)
Definition queries (island : Island) : list string :=
  [ name island ++ ", " ++ city island ++ ", Finland";
    name island ++ ", " ++ city island;
    name island ++ " Finland" ].

(** The loop [for query in queries] of [find_coordinates] and what follows
    it. *)
Fixpoint try_queries (self : NominatimGeocoder) (qs : list string)
  : M Island bool :=
  match qs with
  | [] =>
      print "  ✗ Not found" ;;
      ret false
  | query :: rest =>
      print ("Searching for: " ++ query) ;;
      result <- geocode self query ;;
      if truthy result then
        lat <- eval (float_field result "lat") ;;
        set_latitude lat ;;
        lon <- eval (float_field result "lon") ;;
        set_longitude lon ;;
        island <- get ;;
        la <- eval (format_6f_opt (latitude island)) ;;
        lo <- eval (format_6f_opt (longitude island)) ;;
        print ("  ✓ Found: " ++ la ++ ", " ++ lo) ;;
        ret true
      else
        sleep 1 ;;
        try_queries self rest
  end.

(** [NominatimGeocoder.find_coordinates]; the island is the state. *)
Definition find_coordinates (self : NominatimGeocoder) : M Island bool :=
  island <- get ;;
  try_queries self (queries island).

End Program.

(** ** create_map *)

Definition default_output_file : string := "recreational_islands_map.html".

(** The f-string [popup_html]. *)
Definition popup_html {S} (island : Island) : M S string :=
  lat <- eval (format_6f_opt (latitude island)) ;;
  lon <- eval (format_6f_opt (longitude island)) ;;
  ret (nl
    ++ "        <div style=" ++ dq ++ "font-family: Arial; width: 200px;" ++ dq ++ ">" ++ nl
    ++ "            <h4 style=" ++ dq ++ "margin: 0 0 10px 0; color: #2c3e50;" ++ dq ++ ">"
    ++ name island ++ "</h4>" ++ nl
    ++ "            <p style=" ++ dq ++ "margin: 5px 0;" ++ dq ++ "><b>City:</b> "
    ++ city island ++ "</p>" ++ nl
    ++ "            <p style=" ++ dq ++ "margin: 5px 0;" ++ dq ++ "><b>Notes:</b> "
    ++ notes island ++ "</p>" ++ nl
    ++ "            <p style=" ++ dq ++ "margin: 5px 0; font-size: 0.9em; color: #666;" ++ dq ++ ">" ++ nl
    ++ "                <b>Coordinates:</b><br>" ++ nl
    ++ "                " ++ lat ++ ", " ++ lon ++ nl
    ++ "            </p>" ++ nl
    ++ "        </div>" ++ nl
    ++ "        ").

(** An attribute used where a number is needed. *)
Definition as_number (o : option float) : Exn + float :=
  match o with
  | Some x => inr x
  | None => inl TypeError
  end.

(** One turn of the loop [for island in islands_with_coords]. *)
Definition add_marker {S} (island : Island) (map_obj : Folium.Map)
  : M S Folium.Map :=
  html <- popup_html island ;;
  lat <- eval (as_number (latitude island)) ;;
  lon <- eval (as_number (longitude island)) ;;
  marker <- eval (Folium.new_Marker
                    {| Folium.location := (lat, lon);
                       Folium.popup := {| Folium.html := html;
                                          Folium.max_width := Some 300 |};
                       Folium.tooltip := Some (name island);
                       Folium.icon := {| Folium.color := "blue";
                                         Folium.icon_name := "anchor";
                                         Folium.prefix := "fa" |} |}) ;;
  ret (Folium.add_to marker map_obj).

Fixpoint add_markers {S} (islands : list Island) (map_obj : Folium.Map)
  : M S Folium.Map :=
  match islands with
  | [] => ret map_obj
  | island :: rest =>
      map_obj' <- add_marker island map_obj ;;
      add_markers rest map_obj'
  end.

(** [create_map(islands, output_file)] *)
Definition create_map {S} {py : Interpreter} (islands : list Island)
  (output_file : string) : M S unit :=
  let islands_with_coords := filter has_coordinates islands in
  match islands_with_coords with
  | [] => print "No islands with coordinates to display on map."
  | _ =>
      avg_lat <- eval (sum_over_len (map latitude islands_with_coords)) ;;
      avg_lon <- eval (sum_over_len (map longitude islands_with_coords)) ;;
      map_obj <- eval (Folium.new_Map (avg_lat, avg_lon) 10 "OpenStreetMap") ;;
      map_obj <- add_markers islands_with_coords map_obj ;;
      emit (SaveMap output_file map_obj) ;;
      print (nl ++ "✓ Map saved to: " ++ output_file) ;;
      print "  Open the file in your browser to view the interactive map."
  end.

(** ** main *)

Definition catalog : list Island :=
  [ Island_init "Sipoonranta" "Sipoo" "Kayaking base";
    Island_init "Kaunissaari" "Sipoo" "Beautiful islands with services";
    Island_init "Pirttisaari" "Porvoo" "Old artillery base";
    Island_init "Majakkasaari" "Porvoo" "Lighthouse island";
    Island_init "Luotsisaari" "Porvoo" "Old pilot base";
    Island_init "Eestiluoto" "Sipoo" "Nice islands far away" ].

(** ["=" * 70] *)
Definition rule : string := String.concat "" (repeat "=" 70).

Section Main.

Context {py : Interpreter}.
Variable service : Wire.Service.

(** The loop [for i, island in enumerate(islands, 1)]: the islands still to
    visit are the state; [i] is the number of the next one and
    [found_count] the count so far. *)
Fixpoint find_all (geocoder : NominatimGeocoder) (total i found_count : nat)
  (islands : list Island) : Run (list Island) nat :=
  match islands with
  | [] => Build_Run (Ok found_count) [] []
  | island :: rest =>
      let r :=
        (print (nl ++ "[" ++ str_of_nat i ++ "/" ++ str_of_nat total
                ++ "] Processing " ++ name island ++ "...") ;;
         find_coordinates service geocoder) island in
      match outcome r with
      | Ok found =>
          let r' := find_all geocoder total (S i)
                      (if found then S found_count else found_count) rest in
          Build_Run (outcome r') (final r :: final r') (trace r ++ trace r')%list
      | Raise e => Build_Run (Raise e) (final r :: rest) (trace r)
      end
  end.

(** The loop [for island in islands: print(island); print()]. *)
Fixpoint print_all {S} (islands : list Island) : M S unit :=
  match islands with
  | [] => ret tt
  | island :: rest =>
      text <- Island_str island ;;
      print text ;;
      print "" ;;
      print_all rest
  end.

(** The body of [main] after the list of islands is built; the list is the
    state. *)
Definition main_on : M (list Island) unit :=
  print rule ;;
  print "RECREATIONAL ISLANDS COORDINATE FINDER" ;;
  print rule ;;
  print "" ;;
  let geocoder := NominatimGeocoder_init in
  islands <- get ;;
  found_count <- find_all geocoder (List.length islands) 1 0 ;;
  print (nl ++ rule) ;;
  print "RESULTS" ;;
  print rule ;;
  print "" ;;
  islands <- get ;;
  print_all islands ;;
  print ("Successfully found coordinates for " ++ str_of_nat found_count
         ++ "/" ++ str_of_nat (List.length islands) ++ " islands.") ;;
  if (0 <? found_count)%nat then
    print (nl ++ rule) ;;
    print "CREATING MAP" ;;
    print rule ;;
    create_map islands default_output_file
  else ret tt.

Definition main : Run (list Island) unit := main_on catalog.

End Main.

End RecreationalIslands.

(* ===================================================================== *)
(** * islands2.py *)
(* ===================================================================== *)

Module Islands2.

Import Py Obj Eff Eff.Notations.
Local Open Scope eff_scope.

(** An entry of the list [islands]: a dictionary with the keys [name],
    [city] and [notes]. *)
Record Island : Type :=
  { name : string; city : string; notes : string }.

(** An entry of the list [coordinates]: [{**island, "lat": lat, "lon":
    lon}]. *)
Record Located : Type :=
  { island : Island; lat : float; lon : float }.

Definition islands : list Island :=
  [ {| name := "Sipoonranta"; city := "Sipoo"; notes := "Kayaking base" |};
    {| name := "Kaunissaari"; city := "Sipoo"; notes := "Beautiful islands with services" |};
    {| name := "Pirttisaari"; city := "Porvoo"; notes := "Old artillery base" |};
    {| name := "Majakkasaari"; city := "Porvoo"; notes := "Lighthouse island" |};
    {| name := "Luotsisaari"; city := "Porvoo"; notes := "Old pilot base" |};
    {| name := "Eestiluoto"; city := "Sipoo"; notes := "Nice islands far away" |} ].

Definition base_url : string := "https://nominatim.openstreetmap.org/search".

Definition output_file : string := "sipoo_islands_map.html".

Section Program.

Context {py : Interpreter}.
Variable service : Wire.Service.

(** [get_coordinates(name, city)] *)
Definition get_coordinates {S} (n c : string)
  : M S (option float * option float) :=
  let query := n ++ ", " ++ c in
  try_except
    (response <- Requests.get service base_url
                   [("q", query); ("format", "json"); ("limit", "1")]
                   "IslandLocator" 10 ;;
     Requests.raise_for_status response ;;
     data <- Requests.json response ;;
     if truthy data then
       first <- eval (getitem_0 data) ;;
       la <- eval (float_field first "lat") ;;
       first <- eval (getitem_0 data) ;;
       lo <- eval (float_field first "lon") ;;
       ret (Some la, Some lo)
     else ret (None, None))
    is_Exception
    (fun e =>
       emit (PrintError ("Error fetching coordinates for " ++ query ++ ": ") e) ;;
       ret (None, None)).

(** The loop [for island in islands]; the list [coordinates] is the
    state.  [if lat and lon] holds when both are numbers other than zero. *)
Fixpoint resolve (todo : list Island) : M (list Located) unit :=
  match todo with
  | [] => ret tt
  | i :: rest =>
      ll <- get_coordinates (name i) (city i) ;;
      match ll with
      | (Some la, Some lo) =>
          if float_truthy la && float_truthy lo
          then modify (fun cs => cs ++ [{| island := i; lat := la; lon := lo |}])%list
          else print (name i ++ " (" ++ city i ++ "): Location not found")
      | _ => print (name i ++ " (" ++ city i ++ "): Location not found")
      end ;;
      sleep 1 ;;
      resolve rest
  end.

(** The f-string [popup_text]. *)
Definition popup_text (item : Located) : string :=
  name (island item) ++ ", " ++ city (island item) ++ "<br>"
  ++ notes (island item) ++ "<br>Lat: " ++ float_repr (lat item)
  ++ "<br>Lon: " ++ float_repr (lon item).

Definition marker (item : Located) : Folium.Marker :=
  {| Folium.location := (lat item, lon item);
     Folium.popup := Folium.text_popup (popup_text item);
     Folium.tooltip := None;
     Folium.icon := {| Folium.color := "blue"; Folium.icon_name := "info-sign";
                       Folium.prefix := Folium.default_prefix |} |}.

(** The loop [for item in coordinates]. *)
Fixpoint add_markers {S} (items : list Located) (m : Folium.Map)
  : M S Folium.Map :=
  match items with
  | [] => ret m
  | item :: rest =>
      mk <- eval (Folium.new_Marker (marker item)) ;;
      add_markers rest (Folium.add_to mk m)
  end.

(** The part [if coordinates: ... else: ...]. *)
Definition build_map : M (list Located) unit :=
  coordinates <- get ;;
  match coordinates with
  | [] => print "No coordinates found. Map not created."
  | _ =>
      let avg_lat := fmean (map lat coordinates) in
      let avg_lon := fmean (map lon coordinates) in
      m <- eval (Folium.new_Map (avg_lat, avg_lon) 11 "OpenStreetMap") ;;
      m <- add_markers coordinates m ;;
      emit (SaveMap output_file m) ;;
      print "Map saved as sipoo_islands_map.html"
  end.

(** The script, for a list of islands. *)
Definition script_on (catalog : list Island) : Run (list Located) unit :=
  (resolve catalog ;; build_map) [].

Definition script : Run (list Located) unit := script_on islands.

End Program.

End Islands2.

(* ===================================================================== *)
(** * showislands.py *)
(* ===================================================================== *)

Module ShowIslands.

Import Py Obj Eff Eff.Notations.
Local Open Scope eff_scope.

Definition islands : list string :=
  [ "Sipoonranta Sipoo"; "Kaunissaari Sipoo"; "Pirttisaari Porvoo";
    "Majakkasaari Porvoo"; "Luotsisaari Porvoo"; "Eestiluoto Sipoo" ].

Definition base_url : string := "https://nominatim.openstreetmap.org/search".

Definition output_file : string := "sipoo_islands_map.html".

(** The dictionary [coordinates], as the list of its items in insertion
    order. *)
Definition Coordinates : Type := list (string * (float * float)).

(** [coordinates[k] = v]: a key already there keeps its place. *)
Fixpoint dict_set (k : string) (v : float * float) (d : Coordinates)
  : Coordinates :=
  match d with
  | [] => [(k, v)]
  | (k', v') :: r =>
      if String.eqb k' k then (k, v) :: r else (k', v') :: dict_set k v r
  end.

Section Program.

Context {py : Interpreter}.
Variable service : Wire.Service.

(** [get_coordinates(place)] *)
Definition get_coordinates {S} (place : string)
  : M S (option float * option float) :=
  try_except
    (response <- Requests.get service base_url
                   [("q", place); ("format", "json"); ("limit", "1")]
                   "GeoCoderApp" 10 ;;
     Requests.raise_for_status response ;;
     data <- Requests.json response ;;
     if truthy data then
       first <- eval (getitem_0 data) ;;
       la <- eval (float_field first "lat") ;;
       first <- eval (getitem_0 data) ;;
       lo <- eval (float_field first "lon") ;;
       ret (Some la, Some lo)
     else ret (None, None))
    is_RequestException
    (fun e =>
       emit (PrintError ("Error fetching coordinates for " ++ place ++ ": ") e) ;;
       ret (None, None)).

(** The loop [for island in islands]; the dictionary is the state. *)
Fixpoint resolve (todo : list string) : M Coordinates unit :=
  match todo with
  | [] => ret tt
  | island :: rest =>
      ll <- get_coordinates island ;;
      match ll with
      | (Some la, Some lo) =>
          if float_truthy la && float_truthy lo
          then
            modify (dict_set island (la, lo)) ;;
            print (island ++ ": Latitude " ++ float_repr la
                   ++ ", Longitude " ++ float_repr lo)
          else print (island ++ ": Location not found")
      | _ => print (island ++ ": Location not found")
      end ;;
      sleep 1 ;;
      resolve rest
  end.

Definition marker (item : string * (float * float)) : Folium.Marker :=
  let '(island, (la, lo)) := item in
  {| Folium.location := (la, lo);
     Folium.popup :=
       Folium.text_popup
         (island ++ "<br>Lat: " ++ float_repr la ++ "<br>Lon: " ++ float_repr lo);
     Folium.tooltip := None;
     Folium.icon := {| Folium.color := "blue"; Folium.icon_name := "info-sign";
                       Folium.prefix := Folium.default_prefix |} |}.

(** The loop [for island, (lat, lon) in coordinates.items()]. *)
Fixpoint add_markers {S} (items : Coordinates) (m : Folium.Map)
  : M S Folium.Map :=
  match items with
  | [] => ret m
  | item :: rest =>
      mk <- eval (Folium.new_Marker (marker item)) ;;
      add_markers rest (Folium.add_to mk m)
  end.

Definition build_map : M Coordinates unit :=
  coordinates <- get ;;
  match coordinates with
  | [] => print "No coordinates found. Map not created."
  | _ =>
      let avg_lat := fmean (map (fun kv => fst (snd kv)) coordinates) in
      let avg_lon := fmean (map (fun kv => snd (snd kv)) coordinates) in
      m <- eval (Folium.new_Map (avg_lat, avg_lon) 11 "OpenStreetMap") ;;
      m <- add_markers coordinates m ;;
      emit (SaveMap output_file m) ;;
      print "Map saved as sipoo_islands_map.html"
  end.

Definition script_on (catalog : list string) : Run Coordinates unit :=
  (resolve catalog ;; build_map) [].

Definition script : Run Coordinates unit := script_on islands.

End Program.

End ShowIslands.

(* ===================================================================== *)
(** * Vocabulary of the properties *)
(* ===================================================================== *)

(** ** The service as a test double describes it *)

Module Mock.

Import Py Obj Wire.

Section WithInterpreter.

Context {py : Interpreter}.

Definition error_status (a : Response) : bool :=
  (400 <=? status_code a) && (status_code a <? 600).

(** The reply brings no result: the request failed in transport, the status
    is an error, the body is not JSON, or the list of matches is empty. *)
Definition no_match (r : Reply) : bool :=
  match r with
  | Fails _ => true
  | Answers a =>
      error_status a
      || match body a with
         | None => true
         | Some (VList []) => true
         | Some _ => false
         end
  end.

(** The first match of a reply, when it has one. *)
Definition first_match (r : Reply) : option value :=
  match r with
  | Fails _ => None
  | Answers a =>
      if error_status a then None
      else match body a with
           | Some (VList (m :: _)) => Some m
           | _ => None
           end
  end.

(** The coordinate a reply gives: its first match is a dictionary whose
    fields [lat] and [lon] convert to numbers. *)
Definition coordinate_of (r : Reply) : option (float * float) :=
  match first_match r with
  | Some (VDict d) =>
      match float_field (VDict d) "lat", float_field (VDict d) "lon" with
      | inr la, inr lo => Some (la, lo)
      | _, _ => None
      end
  | _ => None
  end.

(** What reading the two numbers off a reply comes to: the body of the
    [try] statement of [get_coordinates] in islands2.py and
    showislands.py, without its effects. *)
Definition parse (r : Reply) : Eff.Outcome (option float * option float) :=
  match r with
  | Fails e => Eff.Raise (RequestException e)
  | Answers a =>
      if error_status a
      then Eff.Raise (RequestException (HTTPError (status_code a)))
      else match body a with
           | None => Eff.Raise (RequestException JSONDecodeError)
           | Some data =>
               if truthy data then
                 match getitem_0 data with
                 | inl e => Eff.Raise e
                 | inr first =>
                     match float_field first "lat" with
                     | inl e => Eff.Raise e
                     | inr la =>
                         match float_field first "lon" with
                         | inl e => Eff.Raise e
                         | inr lo => Eff.Ok (Some la, Some lo)
                         end
                     end
                 end
               else Eff.Ok (None, None)
           end
  end.

(** What [get_coordinates] of islands2.py returns for a reply. *)
Definition answer_of (r : Reply) : option float * option float :=
  match coordinate_of r with
  | Some (la, lo) => (Some la, Some lo)
  | None => (None, None)
  end.

(** A reply with status 200 and the given decoded body. *)
Definition ok_reply (v : value) : Reply :=
  Answers {| status_code := 200; body := Some v |}.

(** A reply with one match at the given coordinate. *)
Definition found (la lo : string) : Reply :=
  ok_reply (VList [VDict [("lat", VStr la); ("lon", VStr lo)]]).

Definition not_found : Reply := ok_reply (VList []).

(** The query of a request. *)
Definition query_of (rq : Request) : string :=
  match params rq with
  | (_, q) :: _ => q
  | [] => ""
  end.


End WithInterpreter.

End Mock.

(** ** What a trace shows *)

Module Observe.

Import Eff.

(** The requests sent, in order. *)
Fixpoint requests (t : list Event) : list Wire.Request :=
  match t with
  | [] => []
  | HttpGet rq :: r => rq :: requests r
  | _ :: r => requests r
  end.

(** The maps written to files, in order. *)
Fixpoint saved (t : list Event) : list (string * Folium.Map) :=
  match t with
  | [] => []
  | SaveMap f m :: r => (f, m) :: saved r
  | _ :: r => saved r
  end.

(** Every request but the first comes after sleeps of at least [interval]
    seconds in total since the request before it.  [elapsed] is the time
    slept since the last request, [None] before the first one. *)
Fixpoint paced_since (interval : Z) (elapsed : option Z) (t : list Event)
  : bool :=
  match t with
  | [] => true
  | HttpGet _ :: r =>
      match elapsed with
      | None => true
      | Some e => interval <=? e
      end && paced_since interval (Some 0) r
  | Sleep n :: r => paced_since interval (option_map (Z.add n) elapsed) r
  | _ :: r => paced_since interval elapsed r
  end.

Definition paced (interval : Z) (t : list Event) : bool :=
  paced_since interval None t.

Definition is_print (ev : Event) : bool :=
  match ev with
  | Print _ | PrintError _ _ => true
  | _ => false
  end.

(** Nothing but console output. *)
Definition quiet (t : list Event) : bool := forallb is_print t.

(** A trace made of turns, one per request: the request, console output,
    and a sleep of one second. *)
Inductive turns : list Wire.Request -> list Event -> Prop :=
| turns_nil : turns [] []
| turns_cons rq rqs u rest :
    quiet u = true ->
    turns rqs rest ->
    turns (rq :: rqs) (HttpGet rq :: u ++ Sleep 1 :: rest).

(** [sub] occurs in [s]. *)
Definition occurs_in (sub s : string) : Prop :=
  exists pre post, s = pre ++ sub ++ post.


(** The sleeps, in order. *)
Fixpoint sleeps (t : list Event) : list Z :=
  match t with
  | [] => []
  | Sleep n :: r => n :: sleeps r
  | _ :: r => sleeps r
  end.

(** The same as a test. *)
Fixpoint occursb (sub s : string) : bool :=
  String.prefix sub s
  || match s with
     | EmptyString => false
     | String _ r => occursb sub r
     end.
End Observe.

(** ** recreational_islands.py *)

Module RecreationalIslandsSpec.

Import Py Obj Eff RecreationalIslands.

Section WithInterpreter.

Context {py : Interpreter}.

(** The request [geocode] sends for a query. *)
Definition request (self : NominatimGeocoder) (query : string) : Wire.Request :=
  {| Wire.url := BASE_URL;
     Wire.params := geocode_params query;
     Wire.user_agent := user_agent self;
     Wire.timeout := 10 |}.

(** What [geocode] prints for a reply that is a transport error. *)
Definition report (query : string) (r : Wire.Reply) : list Event :=
  let say k := [PrintError ("Error geocoding '" ++ query ++ "': ")
                  (RequestException k)] in
  match r with
  | Wire.Fails k => say k
  | Wire.Answers a =>
      if Mock.error_status a then say (HTTPError (Wire.status_code a))
      else match Wire.body a with
           | None => say JSONDecodeError
           | Some _ => []
           end
  end.

(** What one fruitless attempt of [find_coordinates] does. *)
Definition attempt (service : Wire.Service) (self : NominatimGeocoder)
  (query : string) : list Event :=
  (Print ("Searching for: " ++ query) :: HttpGet (request self query)
     :: report query (service (request self query)) ++ [Sleep 1])%list.

Definition with_coordinates (i : Island) (la lo : float) : Island :=
  {| name := name i; city := city i; notes := notes i;
     latitude := Some la; longitude := Some lo |}.

(** The coordinate pairs of the islands that [create_map] keeps. *)
Definition coordinates_of (i : Island) : list (float * float) :=
  match latitude i, longitude i with
  | Some la, Some lo =>
      if float_truthy la && float_truthy lo then [(la, lo)] else []
  | _, _ => []
  end.

Definition located (islands : list Island) : list (float * float) :=
  flat_map coordinates_of islands.

(** Both fields set, or both absent. *)
Definition consistent (i : Island) : bool :=
  match latitude i, longitude i with
  | Some _, Some _ => true
  | None, None => true
  | _, _ => false
  end.




(** The popup of an island at the coordinate [(la, lo)]. *)
Definition popup_text (i : Island) (la lo : float) : string :=
  nl
  ++ "        <div style=" ++ dq ++ "font-family: Arial; width: 200px;" ++ dq ++ ">" ++ nl
  ++ "            <h4 style=" ++ dq ++ "margin: 0 0 10px 0; color: #2c3e50;" ++ dq ++ ">"
  ++ name i ++ "</h4>" ++ nl
  ++ "            <p style=" ++ dq ++ "margin: 5px 0;" ++ dq ++ "><b>City:</b> "
  ++ city i ++ "</p>" ++ nl
  ++ "            <p style=" ++ dq ++ "margin: 5px 0;" ++ dq ++ "><b>Notes:</b> "
  ++ notes i ++ "</p>" ++ nl
  ++ "            <p style=" ++ dq ++ "margin: 5px 0; font-size: 0.9em; color: #666;" ++ dq ++ ">" ++ nl
  ++ "                <b>Coordinates:</b><br>" ++ nl
  ++ "                " ++ format_6f la ++ ", " ++ format_6f lo ++ nl
  ++ "            </p>" ++ nl
  ++ "        </div>" ++ nl
  ++ "        ".

(** The marker of an island at the coordinate [(la, lo)]. *)
Definition marker_at (i : Island) (la lo : float) : Folium.Marker :=
  {| Folium.location := (la, lo);
     Folium.popup := {| Folium.html := popup_text i la lo;
                        Folium.max_width := Some 300 |};
     Folium.tooltip := Some (name i);
     Folium.icon := {| Folium.color := "blue"; Folium.icon_name := "anchor";
                       Folium.prefix := "fa" |} |}.

Definition marker_of (i : Island) : list Folium.Marker :=
  match latitude i, longitude i with
  | Some la, Some lo =>
      if float_truthy la && float_truthy lo then [marker_at i la lo] else []
  | _, _ => []
  end.

(** The mean of the kept latitudes and the mean of the kept longitudes. *)
Definition centre (islands : list Island) : float * float :=
  (fmean (map fst (located islands)), fmean (map snd (located islands))).

(** The map of a list of islands: centred on the mean of the kept
    latitudes and the mean of the kept longitudes, one marker per kept
    island. *)
Definition the_map (islands : list Island) : Folium.Map :=
  {| Folium.map_location := centre islands;
     Folium.zoom_start := 10;
     Folium.tiles := "OpenStreetMap";
     Folium.markers := flat_map marker_of islands |}.

(** How [create_map] ends: by the [ValueError] of [folium.Map] when
    islands are kept and a mean is a NaN. *)
Definition create_outcome (islands : list Island) : Outcome unit :=
  match filter has_coordinates islands with
  | [] => Ok tt
  | _ => if Folium.accepts (centre islands) then Ok tt else Raise ValueError
  end.

(** What [create_map] does. *)
Definition create_trace (islands : list Island) (file : string) : list Event :=
  match filter has_coordinates islands with
  | [] => [Print "No islands with coordinates to display on map."]
  | _ =>
      if Folium.accepts (centre islands) then
        [ SaveMap file (the_map islands);
          Print (nl ++ "✓ Map saved to: " ++ file);
          Print "  Open the file in your browser to view the interactive map." ]
      else []
  end.

(** The island with a latitude assigned. *)
Definition with_latitude (i : Island) (la : float) : Island :=
  {| name := name i; city := city i; notes := notes i;
     latitude := Some la; longitude := longitude i |}.

(** What [find_coordinates] does with a result of [geocode] that is true:
    lines 96 to 99. *)
Definition store (result : value) (i : Island) : Run Island bool :=
  match float_field result "lat" with
  | inl e => Build_Run (Raise e) i []
  | inr la =>
      match float_field result "lon" with
      | inl e => Build_Run (Raise e) (with_latitude i la) [SetLatitude la]
      | inr lo =>
          Build_Run (Ok true) (with_coordinates i la lo)
            [ SetLatitude la; SetLongitude lo;
              Print ("  ✓ Found: " ++ format_6f la ++ ", " ++ format_6f lo) ]
      end
  end.

(** What [Island.__str__] returns. *)
Definition island_text (i : Island) : string :=
  match latitude i, longitude i with
  | Some la, Some lo =>
      if float_truthy la && float_truthy lo then
        name i ++ ", " ++ city i ++ nl
        ++ "  Notes: " ++ notes i ++ nl
        ++ "  Coordinates: " ++ format_6f la ++ ", " ++ format_6f lo
      else
        name i ++ ", " ++ city i ++ nl
        ++ "  Notes: " ++ notes i ++ nl
        ++ "  Coordinates: Not found"
  | _, _ =>
      name i ++ ", " ++ city i ++ nl
      ++ "  Notes: " ++ notes i ++ nl
      ++ "  Coordinates: Not found"
  end.

(** What [main] prints before and after the resolution loop. *)
Definition header : list Event :=
  [ Print rule; Print "RECREATIONAL ISLANDS COORDINATE FINDER"; Print rule;
    Print "" ].

Definition results (islands : list Island) (found_count : nat) : list Event :=
  ([ Print (nl ++ rule); Print "RESULTS"; Print rule; Print "" ]
   ++ flat_map (fun i => [Print (island_text i); Print ""]) islands
   ++ [ Print ("Successfully found coordinates for " ++ str_of_nat found_count
                ++ "/" ++ str_of_nat (List.length islands) ++ " islands.") ])%list.

Definition map_part (islands : list Island) (found_count : nat) : list Event :=
  if (0 <? found_count)%nat then
    ([ Print (nl ++ rule); Print "CREATING MAP"; Print rule ]
     ++ create_trace islands default_output_file)%list
  else [].

(** How [main] ends once its loop has run to the end. *)
Definition map_outcome (islands : list Island) (found_count : nat)
  : Outcome unit :=
  if (0 <? found_count)%nat then create_outcome islands else Ok tt.

(** What never changes in an island. *)
Definition identity (i : Island) : string * string * string :=
  (name i, city i, notes i).

(** An island as [Island(...)] makes it: no coordinate yet. *)
Definition fresh (i : Island) : bool :=
  match latitude i, longitude i with
  | None, None => true
  | _, _ => false
  end.

(** The latitude is set. *)
Definition has_latitude (i : Island) : bool :=
  match latitude i with
  | Some _ => true
  | None => false
  end.

(** The last line of the results of [main]. *)
Definition tally (found_count total : nat) : string :=
  "Successfully found coordinates for " ++ str_of_nat found_count
  ++ "/" ++ str_of_nat total ++ " islands.".



End WithInterpreter.

End RecreationalIslandsSpec.

(** ** islands2.py *)

Module Islands2Spec.

Import Py Obj Eff Islands2.

Section WithInterpreter.

Context {py : Interpreter}.

(** The request [get_coordinates] sends for an island. *)
Definition request (i : Island) : Wire.Request :=
  {| Wire.url := base_url;
     Wire.params := [("q", name i ++ ", " ++ city i); ("format", "json"); ("limit", "1")];
     Wire.user_agent := "IslandLocator";
     Wire.timeout := 10 |}.

(** The coordinate the resolution loop keeps for an island: the one the
    reply gives, unless one of its two numbers is zero. *)
Definition lookup (service : Wire.Service) (i : Island) : option (float * float) :=
  match Mock.coordinate_of (service (request i)) with
  | Some (la, lo) =>
      if float_truthy la && float_truthy lo then Some (la, lo) else None
  | None => None
  end.

Definition entry (service : Wire.Service) (i : Island) : list Located :=
  match lookup service i with
  | Some (la, lo) => [{| island := i; lat := la; lon := lo |}]
  | None => []
  end.

(** The islands that resolve, in the order of the catalog. *)
Definition resolved (service : Wire.Service) (catalog : list Island)
  : list Located :=
  flat_map (entry service) catalog.

(** The mean of the latitudes and the mean of the longitudes of the list
    [coordinates]. *)
Definition centre (cs : list Located) : float * float :=
  (fmean (map lat cs), fmean (map lon cs)).

(** What the last part of the script does with the list [coordinates]. *)
Definition the_map (cs : list Located) : Folium.Map :=
  {| Folium.map_location := centre cs;
     Folium.zoom_start := 11;
     Folium.tiles := "OpenStreetMap";
     Folium.markers := map marker cs |}.

(** How the last part ends: by the [ValueError] of [folium.Map] when a
    mean is a NaN. *)
Definition build_outcome (cs : list Located) : Outcome unit :=
  match cs with
  | [] => Ok tt
  | _ => if Folium.accepts (centre cs) then Ok tt else Raise ValueError
  end.

Definition build_trace (cs : list Located) : list Event :=
  match cs with
  | [] => [Print "No coordinates found. Map not created."]
  | _ =>
      if Folium.accepts (centre cs) then
        [SaveMap output_file (the_map cs);
         Print "Map saved as sipoo_islands_map.html"]
      else []
  end.


(** The island resolves. *)
Definition resolves (service : Wire.Service) (i : Island) : bool :=
  match lookup service i with
  | Some _ => true
  | None => false
  end.

End WithInterpreter.

End Islands2Spec.

(** ** showislands.py *)

Module ShowIslandsSpec.

Import Py Obj Eff ShowIslands.

Section WithInterpreter.

Context {py : Interpreter}.

(** The request [get_coordinates] sends for a place. *)
Definition request (place : string) : Wire.Request :=
  {| Wire.url := base_url;
     Wire.params := [("q", place); ("format", "json"); ("limit", "1")];
     Wire.user_agent := "GeoCoderApp";
     Wire.timeout := 10 |}.

(** The coordinate the resolution loop keeps for a place. *)
Definition lookup (service : Wire.Service) (place : string)
  : option (float * float) :=
  match Mock.coordinate_of (service (request place)) with
  | Some (la, lo) =>
      if float_truthy la && float_truthy lo then Some (la, lo) else None
  | None => None
  end.

(** The place resolves. *)
Definition resolves (service : Wire.Service) (place : string) : bool :=
  match lookup service place with
  | Some _ => true
  | None => false
  end.


(** The mean of the latitudes and the mean of the longitudes of the
    dictionary. *)
Definition centre (cs : Coordinates) : float * float :=
  (fmean (map (fun kv => fst (snd kv)) cs),
   fmean (map (fun kv => snd (snd kv)) cs)).

Definition the_map (cs : Coordinates) : Folium.Map :=
  {| Folium.map_location := centre cs;
     Folium.zoom_start := 11;
     Folium.tiles := "OpenStreetMap";
     Folium.markers := map marker cs |}.

(** How the last part ends: by the [ValueError] of [folium.Map] when a
    mean is a NaN. *)
Definition build_outcome (cs : Coordinates) : Outcome unit :=
  match cs with
  | [] => Ok tt
  | _ => if Folium.accepts (centre cs) then Ok tt else Raise ValueError
  end.

Definition build_trace (cs : Coordinates) : list Event :=
  match cs with
  | [] => [Print "No coordinates found. Map not created."]
  | _ =>
      if Folium.accepts (centre cs) then
        [SaveMap output_file (the_map cs);
         Print "Map saved as sipoo_islands_map.html"]
      else []
  end.


End WithInterpreter.

End ShowIslandsSpec.

(** ** Test doubles

    Services, places and two interpreters for the examples.  The examples
    that accompany the properties are run under [cpython_3_11]; the
    properties themselves hold for every interpreter. *)

Module Examples.

Import Py Obj Wire.

(** The digits zero outside ASCII of Unicode 14.0, the database of
    CPython 3.11: Arabic-Indic, Devanagari, fullwidth and the others, down
    to the five runs of mathematical digits. *)
Definition unicode_14_zeros : list Z :=
  [ 1632; 1776; 1984; 2406; 2534; 2662; 2790; 2918; 3046; 3174; 3302; 3430;
    3558; 3664; 3792; 3872; 4160; 4240; 6112; 6160; 6470; 6608; 6784; 6800;
    6992; 7088; 7232; 7248; 42528; 43216; 43264; 43472; 43504; 43600;
    44016; 65296; 66720; 68912; 69734; 69872; 69942; 70096; 70384; 70736;
    70864; 71248; 71360; 71472; 71904; 72016; 72784; 73040; 73120; 92768;
    92864; 93008; 120782; 120792; 120802; 120812; 120822; 123200; 123632;
    125264; 130032 ].

(** CPython 3.11. *)
Definition cpython_3_11 : Interpreter :=
  {| compensated_sum := false; decimal_zeros := unicode_14_zeros |}.

(** CPython 3.12: the compensated sum, and Unicode 15.0, which added the
    digits of Kawi and of Nag Mundari. *)
Definition cpython_3_12 : Interpreter :=
  {| compensated_sum := true;
     decimal_zeros := (unicode_14_zeros ++ [73552; 124144])%list |}.

Section WithInterpreter.

Context {py : Interpreter}.

(** A service answering from a table of queries; any other query has no
    match. *)
Fixpoint answer (table : list (string * Reply)) (q : string) : Reply :=
  match table with
  | [] => Mock.not_found
  | (q', r) :: rest => if String.eqb q' q then r else answer rest q
  end.

Definition table_service (table : list (string * Reply)) : Service :=
  fun rq => answer table (Mock.query_of rq).

(** A service that finds every place at the same coordinate. *)
Definition everywhere (la lo : string) : Service :=
  fun _ => Mock.found la lo.

(** A service that finds nothing. *)
Definition nowhere : Service := fun _ => Mock.not_found.


(** The number a decimal numeral denotes. *)
Definition number (s : string) : float :=
  match float_of_string s with
  | Some x => x
  | None => S754_nan
  end.

(** An island already resolved to the coordinate written [(la, lo)]. *)
Definition island_at (n c t la lo : string) : RecreationalIslands.Island :=
  {| RecreationalIslands.name := n;
     RecreationalIslands.city := c;
     RecreationalIslands.notes := t;
     RecreationalIslands.latitude := Some (number la);
     RecreationalIslands.longitude := Some (number lo) |}.

(** A service whose replies have status 200 and a JSON object as body. *)
Definition object_body : Service :=
  fun _ => Mock.ok_reply (VDict [("error", VStr "Unable to geocode")]).

(** A service whose matches carry no coordinate. *)
Definition match_without_coordinate : Service :=
  fun _ => Mock.ok_reply (VList [VDict [("display_name", VStr "Somewhere")]]).

(** A service whose matches carry a latitude only. *)
Definition match_without_longitude : Service :=
  fun _ => Mock.ok_reply (VList [VDict [("lat", VStr "60.1")]]).

(** An entry of the catalog of islands2.py. *)
Definition island2 (n c t : string) : Islands2.Island :=
  {| Islands2.name := n; Islands2.city := c; Islands2.notes := t |}.

(** An entry of [coordinates] in islands2.py, at the coordinate written
    [(la, lo)]. *)
Definition located_at (n c t la lo : string) : Islands2.Located :=
  {| Islands2.island := {| Islands2.name := n; Islands2.city := c;
                           Islands2.notes := t |};
     Islands2.lat := number la;
     Islands2.lon := number lo |}.

End WithInterpreter.

End Examples.

(* ===================================================================== *)
(** * Properties of the effects *)
(* ===================================================================== *)

Module EffFacts.

Import Obj Eff.

Lemma bind_ok {S A B} (m : M S A) (k : A -> M S B) s a s' t :
  m s = Build_Run (Ok a) s' t ->
  bind m k s
  = Build_Run (outcome (k a s')) (final (k a s')) (t ++ trace (k a s')).
Proof. intros H. unfold bind. rewrite H. reflexivity. Qed.

Lemma bind_raise {S A B} (m : M S A) (k : A -> M S B) s e s' t :
  m s = Build_Run (Raise e) s' t ->
  bind m k s = Build_Run (Raise e) s' t.
Proof. intros H. unfold bind. rewrite H. reflexivity. Qed.

Lemma run_eta {S A} (r : Run S A) :
  Build_Run (outcome r) (final r) (trace r) = r.
Proof. destruct r. reflexivity. Qed.

Lemma keeps_ret {S A} (a : A) : keeps_state (@ret S A a).
Proof. intros s. reflexivity. Qed.

Lemma keeps_emit {S} ev : keeps_state (@emit S ev).
Proof. intros s. reflexivity. Qed.

Lemma keeps_get {S} : keeps_state (@get S).
Proof. intros s. reflexivity. Qed.

Lemma keeps_eval {S A} (x : Exn + A) : keeps_state (@eval S A x).
Proof. intros s. destruct x; reflexivity. Qed.

Lemma keeps_bind {S A B} (m : M S A) (k : A -> M S B) :
  keeps_state m -> (forall a, keeps_state (k a)) -> keeps_state (bind m k).
Proof.
  intros Hm Hk s. unfold bind. specialize (Hm s).
  destruct (m s) as [[a | e] f t]; cbn in *; subst.
  - apply Hk.
  - reflexivity.
Qed.

Lemma final_bind_keeps {S A B} (m : M S A) (k : A -> M S B) s :
  (forall a, keeps_state (k a)) -> final (bind m k s) = final (m s).
Proof.
  intros Hk. unfold bind.
  destruct (m s) as [[a | e] f t]; cbn; [apply Hk | reflexivity].
Qed.

Ltac keeps :=
  solve [ repeat first
            [ apply keeps_ret | apply keeps_emit | apply keeps_eval
            | apply keeps_get | apply keeps_bind; [| intro] ] ].

Section WithInterpreter.

Context {py : Py.Interpreter}.

Lemma final_bind_emit {S B} ev (k : unit -> M S B) s :
  final (bind (emit ev) k s) = final (k tt s).
Proof. reflexivity. Qed.

Lemma final_bind_get {S B} (k : S -> M S B) s :
  final (bind get k s) = final (k s s).
Proof. reflexivity. Qed.

Lemma final_bind_print {S B} text (k : unit -> M S B) s :
  final (bind (print text) k s) = final (k tt s).
Proof. reflexivity. Qed.


Lemma try_except_ok {S A} (body : M S A) handles handler s a s' t :
  body s = Build_Run (Ok a) s' t ->
  try_except body handles handler s = Build_Run (Ok a) s' t.
Proof. intros H. unfold try_except. rewrite H. reflexivity. Qed.

Lemma try_except_caught {S A} (body : M S A) handles handler s e s' t :
  body s = Build_Run (Raise e) s' t ->
  handles e = true ->
  try_except body handles handler s
  = Build_Run (outcome (handler e s')) (final (handler e s'))
      (t ++ trace (handler e s')).
Proof. intros H He. unfold try_except. rewrite H. cbn. rewrite He. reflexivity. Qed.

Lemma try_except_passed {S A} (body : M S A) handles handler s e s' t :
  body s = Build_Run (Raise e) s' t ->
  handles e = false ->
  try_except body handles handler s = Build_Run (Raise e) s' t.
Proof. intros H He. unfold try_except. rewrite H. cbn. rewrite He. reflexivity. Qed.

(** The three calls every lookup starts with: the request, the check of
    the status, the decoding of the body. *)
Lemma fetch_run {S B} service u ps agent t (k : value -> M S B) (s : S) :
  let rq := {| Wire.url := u; Wire.params := ps; Wire.user_agent := agent;
               Wire.timeout := t |} in
  bind (Requests.get service u ps agent t)
    (fun response =>
       bind (Requests.raise_for_status response)
         (fun _ => bind (Requests.json response) k)) s
  = match service rq with
    | Wire.Fails e => Build_Run (Raise (RequestException e)) s [HttpGet rq]
    | Wire.Answers a =>
        if (400 <=? Wire.status_code a) && (Wire.status_code a <? 600)
        then Build_Run (Raise (RequestException (HTTPError (Wire.status_code a))))
               s [HttpGet rq]
        else match Wire.body a with
             | None => Build_Run (Raise (RequestException JSONDecodeError)) s
                         [HttpGet rq]
             | Some v =>
                 Build_Run (outcome (k v s)) (final (k v s))
                   (HttpGet rq :: trace (k v s))
             end
    end.
Proof.
  intros rq. unfold bind at 1. unfold Requests.get. fold rq.
  destruct (service rq) as [e | a]; cbn [outcome final trace]; [reflexivity |].
  unfold bind at 1. unfold Requests.raise_for_status.
  destruct ((400 <=? Wire.status_code a) && (Wire.status_code a <? 600));
    cbn [raise ret outcome final trace]; [reflexivity |].
  unfold bind at 1. unfold Requests.json.
  destruct (Wire.body a) as [v |]; cbn [raise ret outcome final trace];
    reflexivity.
Qed.

(** The part of [get_coordinates] that reads the two numbers of the first
    match. *)
Lemma read_match_run {S} (data : value) (s : S) :
  bind (eval (getitem_0 data))
    (fun first =>
       bind (eval (float_field first "lat"))
         (fun la =>
            bind (eval (getitem_0 data))
              (fun first =>
                 bind (eval (float_field first "lon"))
                   (fun lo => ret (Some la, Some lo))))) s
  = match getitem_0 data with
    | inl e => Build_Run (Raise e) s []
    | inr first =>
        match float_field first "lat" with
        | inl e => Build_Run (Raise e) s []
        | inr la =>
            match float_field first "lon" with
            | inl e => Build_Run (Raise e) s []
            | inr lo => Build_Run (Ok (Some la, Some lo)) s []
            end
        end
    end.
Proof.
  destruct (getitem_0 data) as [e | first]; [reflexivity |].
  cbv beta iota zeta delta [bind eval ret raise outcome final trace].
  destruct (float_field first "lat") as [e | la]; [reflexivity |].
  destruct (float_field first "lon") as [e | lo]; reflexivity.
Qed.

End WithInterpreter.

End EffFacts.

(* ===================================================================== *)
(** * Properties of traces *)
(* ===================================================================== *)

Module TraceFacts.

Import Eff.

Lemma requests_app t u :
  Observe.requests (t ++ u) = (Observe.requests t ++ Observe.requests u)%list.
Proof.
  induction t as [| ev t IH]; [reflexivity |].
  destruct ev; cbn; rewrite ?IH; reflexivity.
Qed.

Lemma quiet_app t u : Observe.quiet (t ++ u) = Observe.quiet t && Observe.quiet u.
Proof. apply forallb_app. Qed.

Lemma paced_since_quiet interval e u rest :
  Observe.quiet u = true ->
  Observe.paced_since interval e (u ++ rest) = Observe.paced_since interval e rest.
Proof.
  induction u as [| ev u IH]; intros H; [reflexivity |].
  cbn in H. apply andb_prop in H as [Hev Hu].
  destruct ev; try discriminate; cbn; apply IH, Hu.
Qed.

Lemma paced_since_no_requests interval e t :
  Observe.requests t = [] -> Observe.paced_since interval e t = true.
Proof.
  revert e. induction t as [| ev t IH]; intros e H; [reflexivity |].
  destruct ev; cbn in *; try discriminate; apply IH, H.
Qed.

Lemma paced_since_app interval t u :
  Observe.requests u = [] ->
  forall e, Observe.paced_since interval e (t ++ u) = Observe.paced_since interval e t.
Proof.
  intros Hu. induction t as [| ev t IH]; intros e.
  - cbn. rewrite (paced_since_no_requests _ _ _ Hu). reflexivity.
  - destruct ev; cbn; rewrite ?IH; reflexivity.
Qed.

Lemma turns_paced rqs t :
  Observe.turns rqs t ->
  forall e, match e with None => True | Some z => 1 <= z end ->
  Observe.paced_since 1 e t = true.
Proof.
  induction 1 as [| rq rqs u rest Hu _ IH]; intros e He; [reflexivity |].
  cbn [Observe.paced_since].
  rewrite (paced_since_quiet _ _ _ _ Hu). cbn [Observe.paced_since option_map].
  rewrite IH by (cbn; lia).
  destruct e as [z |]; [| reflexivity].
  apply Z.leb_le in He. rewrite He. reflexivity.
Qed.

Lemma saved_app t u :
  Observe.saved (t ++ u) = (Observe.saved t ++ Observe.saved u)%list.
Proof.
  induction t as [| ev t IH]; [reflexivity |].
  destruct ev; cbn; rewrite ?IH; reflexivity.
Qed.

Lemma saved_quiet u : Observe.quiet u = true -> Observe.saved u = [].
Proof.
  induction u as [| ev u IH]; intros H; [reflexivity |].
  cbn in H. apply andb_prop in H as [Hev Hu].
  destruct ev; try discriminate; cbn; apply IH, Hu.
Qed.

Lemma turns_saved rqs t : Observe.turns rqs t -> Observe.saved t = [].
Proof.
  induction 1 as [| rq rqs u rest Hu _ IH]; [reflexivity |].
  cbn [Observe.saved]. rewrite saved_app, (saved_quiet _ Hu). cbn. exact IH.
Qed.


End TraceFacts.

(* ===================================================================== *)
(** * Properties of the sums *)
(* ===================================================================== *)

Module NumberFacts.

Import Py Obj.

Lemma forallb_mapped {A B} (f : A -> B) (p : B -> bool) l :
  forallb p (map f l) = forallb (fun a => p (f a)) l.
Proof.
  induction l as [| a l IH]; [reflexivity |]. cbn. rewrite IH. reflexivity.
Qed.

Lemma is_nan_eq x : is_nan x = true -> x = S754_nan.
Proof. destruct x; [discriminate | discriminate | reflexivity | discriminate]. Qed.

Lemma fadd_nan_l y : fadd S754_nan y = S754_nan.
Proof. reflexivity. Qed.

Lemma fadd_nan_r x : fadd x S754_nan = S754_nan.
Proof. destruct x; reflexivity. Qed.

Lemma fdiv_nan_l y : fdiv S754_nan y = S754_nan.
Proof. reflexivity. Qed.

(** A NaN among the numbers makes the plain sum a NaN. *)
Lemma fold_fadd_nan xs : fold_left fadd xs S754_nan = S754_nan.
Proof. induction xs as [| x xs IH]; [reflexivity | exact IH]. Qed.

Lemma fold_fadd_has_nan xs :
  forall acc, existsb is_nan xs = true -> fold_left fadd xs acc = S754_nan.
Proof.
  induction xs as [| x xs IH]; intros acc H; [discriminate |].
  cbn in H. cbn [fold_left]. destruct (is_nan x) eqn:Hx.
  - rewrite (is_nan_eq x Hx), fadd_nan_r. apply fold_fadd_nan.
  - apply IH, H.
Qed.

(** And the compensated sum as well: the compensation is not added to a
    running sum that is a NaN. *)
Lemma compensated_from_nan xs :
  forall c, fsum_compensated_from S754_nan c xs = S754_nan.
Proof.
  induction xs as [| x xs IH]; intros c.
  - cbn. destruct (float_truthy c && is_finite c); reflexivity.
  - cbn [fsum_compensated_from]. rewrite fadd_nan_l. cbv zeta. apply IH.
Qed.

Lemma compensated_from_has_nan xs :
  forall f c, existsb is_nan xs = true -> fsum_compensated_from f c xs = S754_nan.
Proof.
  induction xs as [| x xs IH]; intros f c H; [discriminate |].
  cbn in H. cbn [fsum_compensated_from]. cbv zeta. destruct (is_nan x) eqn:Hx.
  - rewrite (is_nan_eq x Hx), fadd_nan_r. apply compensated_from_nan.
  - apply IH, H.
Qed.

Lemma fsum_compensated_has_nan xs :
  existsb is_nan xs = true -> fsum_compensated xs = S754_nan.
Proof.
  destruct xs as [| x xs]; [discriminate |]. intros H. cbn in H.
  unfold fsum_compensated. destruct (is_nan x) eqn:Hx.
  - rewrite (is_nan_eq x Hx), fadd_nan_r. apply compensated_from_nan.
  - apply compensated_from_has_nan, H.
Qed.

Section WithInterpreter.

Context {py : Interpreter}.

Lemma fsum_has_nan xs : existsb is_nan xs = true -> fsum xs = S754_nan.
Proof.
  intros H. unfold fsum, fsum_plain. destruct compensated_sum.
  - apply fsum_compensated_has_nan, H.
  - apply fold_fadd_has_nan, H.
Qed.

(** The mean of numbers one of which is a NaN is a NaN. *)
Lemma fmean_has_nan xs : existsb is_nan xs = true -> fmean xs = S754_nan.
Proof. intros H. unfold fmean. rewrite (fsum_has_nan xs H). reflexivity. Qed.

(** So a mean that is a number is the mean of numbers. *)
Lemma fmean_number xs : is_nan (fmean xs) = false -> existsb is_nan xs = false.
Proof.
  intros H. destruct (existsb is_nan xs) eqn:E; [| reflexivity].
  rewrite (fmean_has_nan xs E) in H. discriminate.
Qed.

Lemma numbers_some xs : numbers (map Some xs) = Some xs.
Proof.
  induction xs as [| x xs IH]; [reflexivity |]. cbn. rewrite IH. reflexivity.
Qed.

Lemma sum_over_len_numbers xs :
  xs <> [] -> sum_over_len (map Some xs) = inr (fmean xs).
Proof.
  intros H. unfold sum_over_len, Obj.sum. rewrite numbers_some, length_map.
  destruct xs as [| x xs]; [contradiction |]. reflexivity.
Qed.

(** A location is accepted when neither of its numbers is a NaN. *)
Lemma accepts_pairs (cs : list (float * float)) :
  Folium.accepts (fmean (map fst cs), fmean (map snd cs)) = true ->
  forallb Folium.accepts cs = true.
Proof.
  unfold Folium.accepts at 1. cbn [fst snd]. intros H.
  apply andb_prop in H as [H1 H2].
  apply negb_true_iff in H1, H2.
  apply fmean_number in H1, H2.
  induction cs as [| [a b] cs IH]; [reflexivity |].
  cbn in H1, H2. apply orb_false_elim in H1 as [Ha H1], H2 as [Hb H2].
  cbn [forallb]. unfold Folium.accepts at 1. cbn [fst snd].
  rewrite Ha, Hb. cbn. apply IH; assumption.
Qed.

End WithInterpreter.

End NumberFacts.

(* ===================================================================== *)
(** * Properties of recreational_islands.py: resolution of one place *)
(* ===================================================================== *)

Module RecreationalIslandsFacts.

Import Py Obj Eff RecreationalIslands RecreationalIslandsSpec EffFacts TraceFacts.
Import NumberFacts.
Import Eff.Notations.

Section WithInterpreter.

Context {py : Interpreter}.

(** ** [geocode] *)

Lemma geocode_no_match {S} service self query (s : S) :
  Mock.no_match (service (request self query)) = true ->
  geocode service self query s
  = Build_Run (Ok VNone) s
      (HttpGet (request self query) :: report query (service (request self query))).
Proof.
  intros H. unfold geocode, try_except, Requests.get, bind, report.
  fold (request self query).
  destruct (service (request self query)) as [k | a]; cbn.
  - reflexivity.
  - unfold Mock.no_match in H. unfold Requests.raise_for_status.
    fold (Mock.error_status a).
    destruct (Mock.error_status a); cbn.
    + reflexivity.
    + unfold Requests.json. destruct (Wire.body a) as [v |]; cbn.
      * destruct v as [ | | | | | l | ]; try discriminate.
        destruct l; try discriminate. reflexivity.
      * reflexivity.
Qed.

Lemma geocode_first_match {S} service self query (s : S) m :
  Mock.first_match (service (request self query)) = Some m ->
  geocode service self query s
  = Build_Run (Ok m) s [HttpGet (request self query)].
Proof.
  intros H. unfold geocode, try_except, Requests.get, bind.
  fold (request self query).
  destruct (service (request self query)) as [k | a]; cbn in *; [discriminate |].
  unfold Requests.raise_for_status. fold (Mock.error_status a).
  destruct (Mock.error_status a); [discriminate |]. cbn.
  unfold Requests.json.
  destruct (Wire.body a) as [v |]; [| discriminate].
  destruct v as [ | | | | | l | ]; try discriminate.
  destruct l as [| m' l]; [discriminate |].
  injection H as ->. reflexivity.
Qed.

(** ** One step of the loop over the variants, for any reply *)

(** [geocode] sends one request and prints at most an error; it touches no
    state. *)
Lemma geocode_run service self query :
  exists o t,
    Observe.quiet t = true
    /\ forall S (s : S),
         geocode service self query s
         = Build_Run o s (HttpGet (request self query) :: t).
Proof.
  unfold geocode, try_except, Requests.get, bind.
  fold (request self query).
  destruct (service (request self query)) as [k | a]; cbn.
  { do 2 eexists; split; [| intros; reflexivity]. reflexivity. }
  unfold Requests.raise_for_status.
  destruct ((400 <=? Wire.status_code a) && (Wire.status_code a <? 600)); cbn.
  { do 2 eexists; split; [| intros; reflexivity]. reflexivity. }
  unfold Requests.json. destruct (Wire.body a) as [v |]; cbn.
  2: { do 2 eexists; split; [| intros; reflexivity]. reflexivity. }
  destruct (truthy v); cbn.
  - destruct (getitem_0 v) as [e | x]; cbn.
    + destruct e; cbn; do 2 eexists; (split; [| intros; reflexivity]); reflexivity.
    + do 2 eexists; split; [| intros; reflexivity]. reflexivity.
  - do 2 eexists; split; [| intros; reflexivity]. reflexivity.
Qed.

Lemma store_run result (i : Island) :
  (lat <- eval (float_field result "lat") ;;
   set_latitude lat ;;
   lon <- eval (float_field result "lon") ;;
   set_longitude lon ;;
   island <- get ;;
   la <- eval (format_6f_opt (latitude island)) ;;
   lo <- eval (format_6f_opt (longitude island)) ;;
   print ("  ✓ Found: " ++ la ++ ", " ++ lo) ;;
   ret true)%eff i
  = store result i.
Proof.
  unfold store. 
  destruct (float_field result "lat") as [e | la]; [reflexivity |].
  destruct (float_field result "lon") as [e | lo]; reflexivity.
Qed.

(** The loop, one variant at a time. *)
Lemma try_queries_step service self query rest (i : Island) o t :
  (forall S (s : S),
      geocode service self query s
      = Build_Run o s (HttpGet (request self query) :: t)) ->
  try_queries service self (query :: rest) i
  = match o with
    | Raise e =>
        Build_Run (Raise e) i
          (Print ("Searching for: " ++ query) :: HttpGet (request self query) :: t)
    | Ok result =>
        if truthy result then
          let r := store result i in
          Build_Run (outcome r) (final r)
            (Print ("Searching for: " ++ query) :: HttpGet (request self query)
               :: t ++ trace r)
        else
          let r := try_queries service self rest i in
          Build_Run (outcome r) (final r)
            (Print ("Searching for: " ++ query) :: HttpGet (request self query)
               :: t ++ Sleep 1 :: trace r)
    end.
Proof.
  intros Hg. cbn [try_queries].
  rewrite (bind_ok _ _ i tt i [Print ("Searching for: " ++ query)] eq_refl).
  destruct o as [result | e].
  - rewrite (bind_ok _ _ _ _ _ _ (Hg _ i)).
    destruct (truthy result).
    + rewrite store_run. cbn [outcome final trace app]. reflexivity.
    + rewrite (bind_ok _ _ i tt i [Sleep 1] eq_refl).
      cbn [outcome final trace app]. reflexivity.
  - rewrite (bind_raise _ _ _ _ _ _ (Hg _ i)). reflexivity.
Qed.

Lemma try_queries_miss service self query rest (i : Island) :
  Mock.no_match (service (request self query)) = true ->
  try_queries service self (query :: rest) i
  = let r := try_queries service self rest i in
    Build_Run (outcome r) (final r) (attempt service self query ++ trace r).
Proof.
  intros H.
  rewrite (try_queries_step service self query rest i (Ok VNone)
             (report query (service (request self query))))
    by (intros S s; apply geocode_no_match, H).
  cbn [truthy]. unfold attempt. cbv zeta. cbn [app].
  rewrite <- app_assoc. reflexivity.
Qed.

Lemma try_queries_hit service self query rest (i : Island) la lo :
  Mock.coordinate_of (service (request self query)) = Some (la, lo) ->
  try_queries service self (query :: rest) i
  = Build_Run (Ok true) (with_coordinates i la lo)
      [ Print ("Searching for: " ++ query);
        HttpGet (request self query);
        SetLatitude la;
        SetLongitude lo;
        Print ("  ✓ Found: " ++ format_6f la ++ ", " ++ format_6f lo) ].
Proof.
  intros H. unfold Mock.coordinate_of in H.
  destruct (Mock.first_match (service (request self query))) as [m |] eqn:Hm;
    [| discriminate].
  destruct m as [ | | | | | | d]; try discriminate.
  destruct (float_field (VDict d) "lat") as [| la'] eqn:Hla; [discriminate |].
  destruct (float_field (VDict d) "lon") as [| lo'] eqn:Hlo; [discriminate |].
  injection H as -> ->.
  assert (Ht : truthy (VDict d) = true).
  { destruct d; [discriminate | reflexivity]. }
  rewrite (try_queries_step service self query rest i (Ok (VDict d)) [])
    by (intros S s; apply geocode_first_match, Hm).
  rewrite Ht. unfold store. rewrite Hla, Hlo. reflexivity.
Qed.

(** ** Requests in a trace *)

Lemma requests_report query r : Observe.requests (report query r) = [].
Proof.
  unfold report. destruct r as [k | a]; [reflexivity |].
  destruct (Mock.error_status a); [reflexivity |].
  destruct (Wire.body a); reflexivity.
Qed.

Lemma requests_attempt service self query :
  Observe.requests (attempt service self query) = [request self query].
Proof.
  unfold attempt. cbn [Observe.requests]. rewrite requests_app, requests_report.
  reflexivity.
Qed.

Lemma requests_attempts service self qs :
  Observe.requests (flat_map (attempt service self) qs) = map (request self) qs.
Proof.
  induction qs as [| q qs IH]; [reflexivity |].
  cbn [flat_map map]. rewrite requests_app, requests_attempt, IH. reflexivity.
Qed.

(** ** The loop over the query variants *)

Lemma try_queries_all_miss service self qs (i : Island) :
  Forall (fun q => Mock.no_match (service (request self q)) = true) qs ->
  try_queries service self qs i
  = Build_Run (Ok false) i
      (flat_map (attempt service self) qs ++ [Print "  ✗ Not found"]).
Proof.
  induction 1 as [| q qs Hq _ IH]; [reflexivity |].
  rewrite (try_queries_miss _ _ _ _ _ Hq), IH.
  cbn [outcome final trace flat_map]. rewrite <- app_assoc. reflexivity.
Qed.

Lemma try_queries_first_hit service self pre query post (i : Island) la lo :
  Forall (fun q => Mock.no_match (service (request self q)) = true) pre ->
  Mock.coordinate_of (service (request self query)) = Some (la, lo) ->
  try_queries service self (pre ++ query :: post) i
  = Build_Run (Ok true) (with_coordinates i la lo)
      (flat_map (attempt service self) pre
       ++ [ Print ("Searching for: " ++ query);
            HttpGet (request self query);
            SetLatitude la;
            SetLongitude lo;
            Print ("  ✓ Found: " ++ format_6f la ++ ", " ++ format_6f lo) ]).
Proof.
  intros Hpre Hq. induction Hpre as [| q pre Hm _ IH].
  - apply try_queries_hit. exact Hq.
  - cbn [app]. rewrite (try_queries_miss _ _ _ _ _ Hm), IH.
    cbn [outcome final trace flat_map]. rewrite <- app_assoc. reflexivity.
Qed.

Lemma find_coordinates_unfold service self (i : Island) :
  find_coordinates service self i = try_queries service self (queries i) i.
Proof.
  unfold find_coordinates, bind, get. cbn [outcome final trace app].
  destruct (try_queries service self (queries i) i) as [o f t]. reflexivity.
Qed.

(** C1. When the variants before [query] bring no result and [query]
    brings the coordinate [(la, lo)], [find_coordinates] returns [True],
    leaves exactly that coordinate on the island and has sent requests for
    the variants up to [query] and for none after it; the variants are
    tried from the most specific one to the least specific one. *)
Theorem find_coordinates_first_match service self island pre query post la lo :
  queries island = (pre ++ query :: post)%list ->
  Forall (fun q => Mock.no_match (service (request self q)) = true) pre ->
  Mock.coordinate_of (service (request self query)) = Some (la, lo) ->
  let r := find_coordinates service self island in
  outcome r = Ok true
  /\ final r = with_coordinates island la lo
  /\ Observe.requests (trace r) = map (request self) (pre ++ [query])%list
  /\ queries island
     = [ name island ++ ", " ++ city island ++ ", Finland";
         name island ++ ", " ++ city island;
         name island ++ " Finland" ].
Proof.
  intros Hq Hpre Hhit r. subst r.
  rewrite find_coordinates_unfold, Hq.
  rewrite (try_queries_first_hit _ _ _ _ _ _ _ _ Hpre Hhit).
  cbn [outcome final trace]. repeat split.
  - rewrite requests_app, requests_attempts, map_app. reflexivity.
  - rewrite <- Hq. reflexivity.
Qed.

End WithInterpreter.

Section Witness.

Existing Instance Examples.cpython_3_11.

(** A concrete run: the first variant has no match, the second one has. *)
Lemma find_coordinates_first_match_witness :
  let service := Examples.table_service [("A, X", Mock.found "61.0" "24.0")] in
  let self := NominatimGeocoder_init in
  let island := Island_init "A" "X" "n" in
  let la := float_of_decimal false 61 0 in
  let lo := float_of_decimal false 24 0 in
  let r := find_coordinates service self island in
  outcome r = Ok true
  /\ final r = with_coordinates island la lo
  /\ Observe.requests (trace r)
     = map (request self) (["A, X, Finland"] ++ ["A, X"])%list
  /\ queries island = ["A, X, Finland"; "A, X"; "A Finland"].
Proof.
  intros service self island la lo.
  apply (find_coordinates_first_match service self island
           ["A, X, Finland"] "A, X" ["A Finland"] la lo).
  - reflexivity.
  - repeat constructor.
  - vm_compute. reflexivity.
Defined.

End Witness.

Section WithInterpreter.

Context {py : Interpreter}.

(** ** Computations that leave the state alone *)

Lemma keeps_Island_str {S} i : keeps_state (@Island_str S i).
Proof. unfold Island_str. destruct (has_coordinates i); keeps. Qed.

Lemma keeps_print_all {S} islands : keeps_state (@print_all S islands).
Proof.
  induction islands as [| i rest IH]; cbn [print_all]; [keeps |].
  apply keeps_bind; [apply keeps_Island_str | intro].
  unfold print. repeat (apply keeps_bind; [keeps | intro]). exact IH.
Qed.

Lemma keeps_popup_html {S} i : keeps_state (@popup_html S i).
Proof. unfold popup_html. keeps. Qed.

Lemma keeps_add_markers {S} islands m : keeps_state (@add_markers S islands m).
Proof.
  revert m. induction islands as [| i rest IH]; intro m; cbn [add_markers];
    [keeps |].
  apply keeps_bind; [| intro; apply IH].
  unfold add_marker. apply keeps_bind; [apply keeps_popup_html | intro]. keeps.
Qed.

Lemma keeps_create_map {S} islands file :
  keeps_state (@create_map S py islands file).
Proof.
  unfold create_map. destruct (filter has_coordinates islands) as [| i l].
  - unfold print. keeps.
  - apply keeps_bind; [keeps | intro]. apply keeps_bind; [keeps | intro].
    apply keeps_bind; [keeps | intro].
    apply keeps_bind; [apply keeps_add_markers | intro]. unfold print. keeps.
Qed.

(** The state [main] ends in is the one the resolution loop leaves. *)
Lemma final_main_on service islands :
  final (main_on service islands)
  = final (find_all service NominatimGeocoder_init (List.length islands) 1 0 islands).
Proof.
  unfold main_on, print.
  rewrite !final_bind_emit, final_bind_get.
  apply final_bind_keeps. intro found.
  repeat (apply keeps_bind; [keeps | intro]).
  apply keeps_bind; [apply keeps_print_all | intro].
  apply keeps_bind; [keeps | intro].
  destruct (0 <? found)%nat; [| keeps].
  repeat (apply keeps_bind; [keeps | intro]).
  apply keeps_create_map.
Qed.

(** ** A place no variant resolves *)

Lemma find_coordinates_all_miss service self (i : Island) :
  Forall (fun q => Mock.no_match (service (request self q)) = true) (queries i) ->
  find_coordinates service self i
  = Build_Run (Ok false) i
      (flat_map (attempt service self) (queries i) ++ [Print "  ✗ Not found"]).
Proof.
  intros H. rewrite find_coordinates_unfold. apply try_queries_all_miss, H.
Qed.

(** After the loop of [main], whether it ran to its end or was cut short
    by an exception, an island whose variants all bring nothing is as it
    was before. *)
Lemma find_all_keeps_unresolved service self total :
  forall islands n found k i,
    nth_error islands k = Some i ->
    Forall (fun q => Mock.no_match (service (request self q)) = true) (queries i) ->
    nth_error (final (find_all service self total n found islands)) k = Some i.
Proof.
  induction islands as [| h rest IH]; intros n found k i Hk Hq.
  - destruct k; discriminate.
  - cbn [find_all].
    set (r := bind (print _) (fun _ => find_coordinates service self) h).
    destruct k as [| k]; cbn [nth_error] in Hk.
    + injection Hk as ->.
      assert (Hr : r = Build_Run (Ok false) i (trace r)).
      { subst r. unfold bind, print, emit. cbn [outcome final trace].
        rewrite (find_coordinates_all_miss _ _ _ Hq). reflexivity. }
      rewrite Hr. reflexivity.
    + destruct (outcome r) as [b | e]; cbn [final nth_error].
      * apply IH; assumption.
      * exact Hk.
Qed.


(** ** [create_map] *)

Lemma has_coordinates_inv i :
  has_coordinates i = true ->
  exists la lo,
    latitude i = Some la /\ longitude i = Some lo
    /\ float_truthy la && float_truthy lo = true.
Proof.
  unfold has_coordinates, truthy_opt.
  destruct (latitude i) as [la |]; [| discriminate].
  destruct (longitude i) as [lo |]; [| rewrite andb_false_r; discriminate].
  intros H. exists la, lo. auto.
Qed.

Lemma coordinates_of_kept i :
  has_coordinates i = true ->
  exists la lo,
    latitude i = Some la /\ longitude i = Some lo
    /\ coordinates_of i = [(la, lo)] /\ marker_of i = [marker_at i la lo].
Proof.
  intros H. destruct (has_coordinates_inv i H) as [la [lo [Hla [Hlo Ht]]]].
  exists la, lo. unfold coordinates_of, marker_of. rewrite Hla, Hlo, Ht. auto.
Qed.

Lemma coordinates_of_dropped i :
  has_coordinates i = false -> coordinates_of i = [] /\ marker_of i = [].
Proof.
  unfold has_coordinates, truthy_opt, coordinates_of, marker_of.
  destruct (latitude i) as [la |]; [| auto].
  destruct (longitude i) as [lo |]; [| auto].
  intros ->. auto.
Qed.

Lemma located_filter islands :
  located (filter has_coordinates islands) = located islands.
Proof.
  unfold located. induction islands as [| i rest IH]; [reflexivity |].
  cbn [filter flat_map]. destruct (has_coordinates i) eqn:H.
  - cbn [flat_map]. rewrite IH. reflexivity.
  - rewrite IH. destruct (coordinates_of_dropped i H) as [-> _]. reflexivity.
Qed.

Lemma markers_filter islands :
  flat_map marker_of (filter has_coordinates islands) = flat_map marker_of islands.
Proof.
  induction islands as [| i rest IH]; [reflexivity |].
  cbn [filter flat_map]. destruct (has_coordinates i) eqn:H.
  - cbn [flat_map]. rewrite IH. reflexivity.
  - rewrite IH. destruct (coordinates_of_dropped i H) as [_ ->]. reflexivity.
Qed.

Lemma forallb_filter {A} (f : A -> bool) l : forallb f (filter f l) = true.
Proof.
  induction l as [| a l IH]; [reflexivity |].
  cbn. destruct (f a) eqn:H; [cbn; rewrite H |]; exact IH.
Qed.

Lemma latitudes_kept l :
  forallb has_coordinates l = true ->
  map latitude l = map Some (map fst (located l))
  /\ map longitude l = map Some (map snd (located l)).
Proof.
  unfold located. induction l as [| i rest IH]; intros H; [split; reflexivity |].
  cbn in H. apply andb_prop in H as [Hi Hrest].
  destruct (coordinates_of_kept i Hi) as [la [lo [Hla [Hlo [Hc _]]]]].
  destruct (IH Hrest) as [IH1 IH2].
  cbn [map flat_map]. rewrite Hc, Hla, Hlo, IH1, IH2. split; reflexivity.
Qed.

Lemma popup_html_kept {S} i la lo (s : S) :
  latitude i = Some la -> longitude i = Some lo ->
  popup_html i s = Build_Run (Ok (popup_text i la lo)) s [].
Proof.
  intros Hla Hlo. unfold popup_html, bind. rewrite Hla, Hlo. reflexivity.
Qed.

(** One turn of the marker loop: the marker is added, unless its location
    holds a NaN. *)
Lemma add_marker_run {S} i la lo m (s : S) :
  latitude i = Some la -> longitude i = Some lo ->
  add_marker i m s
  = match Folium.new_Marker (marker_at i la lo) with
    | inr mk => Build_Run (Ok (Folium.add_to mk m)) s []
    | inl e => Build_Run (Raise e) s []
    end.
Proof.
  intros Hla Hlo. unfold add_marker.
  rewrite (bind_ok _ _ _ _ _ _ (popup_html_kept i la lo s Hla Hlo)).
  rewrite Hla, Hlo. unfold Folium.new_Marker, marker_at.
  cbv beta iota zeta delta [bind eval ret raise as_number outcome final trace
                            app Folium.location].
  destruct (Folium.accepts (la, lo)); reflexivity.
Qed.

Lemma add_markers_kept {S} l (s : S) :
  forallb has_coordinates l = true ->
  forallb Folium.accepts (located l) = true ->
  forall m,
    add_markers l m s
    = Build_Run
        (Ok {| Folium.map_location := Folium.map_location m;
               Folium.zoom_start := Folium.zoom_start m;
               Folium.tiles := Folium.tiles m;
               Folium.markers := (Folium.markers m ++ flat_map marker_of l)%list |})
        s [].
Proof.
  induction l as [| i rest IH]; intros H Hacc m.
  - cbn. rewrite app_nil_r. destruct m; reflexivity.
  - cbn in H. apply andb_prop in H as [Hi Hrest].
    destruct (coordinates_of_kept i Hi) as [la [lo [Hla [Hlo [Hc Hm]]]]].
    unfold located in Hacc. cbn [flat_map] in Hacc. rewrite Hc in Hacc.
    cbn [app forallb] in Hacc. apply andb_prop in Hacc as [Hhere Hacc].
    cbn [add_markers flat_map]. rewrite Hm.
    assert (Hone : add_marker i m s
                   = Build_Run (Ok (Folium.add_to (marker_at i la lo) m)) s []).
    { rewrite (add_marker_run i la lo m s Hla Hlo).
      unfold Folium.new_Marker, marker_at. cbn [Folium.location].
      rewrite Hhere. reflexivity. }
    rewrite (bind_ok _ _ _ _ _ _ Hone), (IH Hrest Hacc).
    cbn [outcome final trace app Folium.add_to
      Folium.map_location Folium.zoom_start Folium.tiles Folium.markers].
    rewrite <- app_assoc. reflexivity.
Qed.

(** [create_map] leaves the state alone.  With no island to show it only
    says so; with a mean that is a NaN it ends by the [ValueError] of
    [folium.Map], having done nothing; otherwise it saves the map of the
    kept islands. *)
Lemma create_map_run {S} islands file (s : S) :
  create_map islands file s
  = Build_Run (create_outcome islands) s (create_trace islands file).
Proof.
  unfold create_map, create_outcome, create_trace.
  pose proof (forallb_filter has_coordinates islands) as Hall.
  pose proof (located_filter islands) as Hloc.
  pose proof (markers_filter islands) as Hmk.
  destruct (filter has_coordinates islands) as [| i kept] eqn:Hf; [reflexivity |].
  destruct (latitudes_kept _ Hall) as [Hlat Hlon].
  assert (Hne : located (i :: kept) <> []).
  { unfold located. cbn [flat_map]. cbn in Hall. apply andb_prop in Hall as [Hi _].
    destruct (coordinates_of_kept i Hi) as [la [lo [_ [_ [-> _]]]]]. discriminate. }
  rewrite Hlat, Hlon.
  rewrite !sum_over_len_numbers
    by (intro E; apply Hne; destruct (located (i :: kept)); [reflexivity | discriminate]).
  unfold centre. rewrite <- Hloc.
  cbv beta iota zeta delta [bind eval ret outcome final trace].
  unfold Folium.new_Map.
  destruct (Folium.accepts (fmean (map fst (located (i :: kept))),
                            fmean (map snd (located (i :: kept))))) eqn:Hacc;
    [| reflexivity].
  cbn [outcome final trace app].
  rewrite (add_markers_kept _ s Hall (accepts_pairs _ Hacc)).
  cbn [outcome final trace app emit print raise
       Folium.map_location Folium.zoom_start Folium.tiles Folium.markers].
  unfold the_map, centre. rewrite <- Hloc, <- Hmk. reflexivity.
Qed.

(** Every run of the loop over the variants is built in one of four ways;
    a property of the runs that the four ways keep holds of them all. *)
Lemma try_queries_runs (P : Island -> Run Island bool -> Prop) :
  (forall i, P i (Build_Run (Ok false) i [Print "  ✗ Not found"])) ->
  (forall i rq text t e,
      Observe.quiet t = true ->
      P i (Build_Run (Raise e) i (Print text :: HttpGet rq :: t))) ->
  (forall i rq text t result,
      Observe.quiet t = true ->
      truthy result = true ->
      P i (Build_Run (outcome (store result i)) (final (store result i))
             (Print text :: HttpGet rq :: t ++ trace (store result i)))) ->
  (forall i rq text t r,
      Observe.quiet t = true ->
      P i r ->
      P i (Build_Run (outcome r) (final r)
             (Print text :: HttpGet rq :: t ++ Sleep 1 :: trace r))) ->
  forall service self qs i, P i (try_queries service self qs i).
Proof.
  intros Hnone Hraise Hstore Hnext service self qs i.
  induction qs as [| q rest IH]; [apply Hnone |].
  destruct (geocode_run service self q) as [o [t [Hq Hg]]].
  rewrite (try_queries_step _ _ _ _ _ _ _ Hg).
  destruct o as [result | e].
  - destruct (truthy result) eqn:Ht.
    + apply Hstore; assumption.
    + apply Hnext; assumption.
  - apply Hraise; assumption.
Qed.

Lemma saved_store result i : Observe.saved (trace (store result i)) = [].
Proof.
  unfold store. destruct (float_field result "lat"); [reflexivity |].
  destruct (float_field result "lon"); reflexivity.
Qed.

(** [find_coordinates] writes no file. *)
Lemma saved_find_coordinates service self i :
  Observe.saved (trace (find_coordinates service self i)) = [].
Proof.
  rewrite find_coordinates_unfold.
  apply (try_queries_runs (fun _ r => Observe.saved (trace r) = [])).
  - reflexivity.
  - intros. cbn. apply saved_quiet. assumption.
  - intros. cbn. rewrite saved_app, saved_store, (saved_quiet _ H). reflexivity.
  - intros. cbn. rewrite saved_app, (saved_quiet _ H). cbn. assumption.
Qed.





(** What a call of [find_coordinates] that returns leaves behind. *)
Lemma find_coordinates_returns service self i :
  match outcome (find_coordinates service self i) with
  | Ok true =>
      exists la lo,
        final (find_coordinates service self i) = with_coordinates i la lo
  | Ok false => final (find_coordinates service self i) = i
  | Raise _ => True
  end.
Proof.
  rewrite find_coordinates_unfold.
  apply (try_queries_runs
           (fun i r => match outcome r with
                       | Ok true => exists la lo, final r = with_coordinates i la lo
                       | Ok false => final r = i
                       | Raise _ => True
                       end)).
  - reflexivity.
  - intros. exact I.
  - intros. cbn [outcome final]. unfold store.
    destruct (float_field result "lat"); [exact I |].
    destruct (float_field result "lon"); [exact I |].
    cbn. eauto.
  - intros. cbn [outcome final]. assumption.
Qed.

(** ** The loop over the islands and [main] *)

Lemma visit_run service self text (i : Island) :
  bind (print text) (fun _ => find_coordinates service self) i
  = Build_Run (outcome (find_coordinates service self i))
      (final (find_coordinates service self i))
      (Print text :: trace (find_coordinates service self i)).
Proof. reflexivity. Qed.

Lemma saved_find_all service self total :
  forall islands n found,
    Observe.saved (trace (find_all service self total n found islands)) = [].
Proof.
  induction islands as [| i rest IH]; intros n found; [reflexivity |].
  cbn [find_all]. rewrite visit_run. cbn [outcome final trace].
  destruct (outcome (find_coordinates service self i)) as [b | e];
    cbn [trace]; rewrite ?saved_app; cbn [Observe.saved];
    rewrite ?IH, saved_find_coordinates; reflexivity.
Qed.

Lemma consistent_with_coordinates i la lo : consistent (with_coordinates i la lo) = true.
Proof. reflexivity. Qed.


Lemma Island_str_run {S} i (s : S) :
  Island_str i s = Build_Run (Ok (island_text i)) s [].
Proof.
  unfold Island_str, island_text.
  destruct (has_coordinates i) eqn:H.
  - destruct (has_coordinates_inv i H) as [la [lo [Hla [Hlo Ht]]]].
    rewrite Hla, Hlo, Ht. reflexivity.
  - unfold has_coordinates, truthy_opt in H.
    destruct (latitude i) as [la |]; [| reflexivity].
    destruct (longitude i) as [lo |]; [| reflexivity].
    rewrite H. reflexivity.
Qed.

Lemma print_all_run {S} islands (s : S) :
  print_all islands s
  = Build_Run (Ok tt) s
      (flat_map (fun i => [Print (island_text i); Print ""]) islands).
Proof.
  induction islands as [| i rest IH]; [reflexivity |].
  cbn [print_all flat_map].
  rewrite (bind_ok _ _ _ _ _ _ (Island_str_run i s)).
  cbv beta iota zeta delta [bind print emit outcome final trace].
  rewrite IH. reflexivity.
Qed.

(** [main] as a whole: an exception of the loop ends the run; otherwise
    the results are printed and, when something was found, the map is
    built, which can end by the [ValueError] of [folium.Map]. *)
Lemma main_on_run service islands :
  let r := find_all service NominatimGeocoder_init (List.length islands) 1 0 islands in
  main_on service islands
  = match outcome r with
    | Raise e => Build_Run (Raise e) (final r) (header ++ trace r)
    | Ok found =>
        Build_Run (map_outcome (final r) found) (final r)
          (header ++ trace r ++ results (final r) found ++ map_part (final r) found)
    end.
Proof.
  intros r. unfold main_on.
  cbv beta iota zeta delta [bind print emit get outcome final trace].
  fold (@print (list Island)). fold r.
  destruct r as [[found | e] f t]; [| reflexivity].
  rewrite print_all_run. unfold results, map_part, map_outcome.
  destruct (0 <? found)%nat.
  - rewrite create_map_run. cbn [app]. rewrite <- !app_assoc. reflexivity.
  - cbn [app]. rewrite <- !app_assoc, app_nil_r. reflexivity.
Qed.

End WithInterpreter.

End RecreationalIslandsFacts.

(* ===================================================================== *)
(** * Properties of islands2.py *)
(* ===================================================================== *)

Module Islands2Facts.

Import Py Obj Eff Islands2 Islands2Spec EffFacts TraceFacts.

Section WithInterpreter.

Context {py : Interpreter}.

(** [get_coordinates] sends one request, never raises, and returns the
    coordinate of the reply or [(None, None)]. *)
Lemma islands2_get_coordinates_run {S} service i (s : S) :
  exists t,
    get_coordinates service (name i) (city i) s
    = Build_Run (Ok (Mock.answer_of (service (request i)))) s (HttpGet (request i) :: t)
    /\ (t = [] \/ exists text e, t = [PrintError text e]).
Proof.
  unfold get_coordinates, try_except. rewrite fetch_run. fold (request i).
  unfold Mock.answer_of, Mock.coordinate_of, Mock.first_match, Mock.error_status.
  assert (Hend : forall (v : option float * option float) (u : list Event),
             u = [] \/ (exists text e, u = [PrintError text e]) ->
             exists t,
               Build_Run (Ok v) s (HttpGet (request i) :: u)
               = Build_Run (Ok v) s (HttpGet (request i) :: t)
               /\ (t = [] \/ exists text e, t = [PrintError text e])).
  { intros v u Hu. exists u. split; [reflexivity | exact Hu]. }
  pose (silent := fun u : list Event => u = [] \/ exists text e, u = [PrintError text e]).
  assert (Hl : silent []) by (left; reflexivity).
  assert (Hr : forall text e, silent [PrintError text e]) by (right; eauto).
  destruct (service (request i)) as [k | a].
  { cbn. apply Hend, Hr. }
  destruct ((400 <=? Wire.status_code a) && (Wire.status_code a <? 600)).
  { cbn. apply Hend, Hr. }
  destruct (Wire.body a) as [v |].
  2: { cbn. apply Hend, Hr. }
  destruct (truthy v) eqn:Hv.
  2: { destruct v as [ | | | | | [| m l] | ]; try discriminate; cbn; apply Hend, Hl. }
  rewrite read_match_run.
  destruct v as [ | b | z | x | [| c str] | [| m l] | [| kv d] ];
    try discriminate; try (cbn; apply Hend, Hr).
  cbn [getitem_0].
  destruct m as [ | | | | | | d ]; try (cbn; apply Hend, Hr).
  destruct (float_field (VDict d) "lat") as [e | la]; [cbn; apply Hend, Hr |].
  destruct (float_field (VDict d) "lon") as [e | lo]; [cbn; apply Hend, Hr |].
  cbn. apply Hend, Hl.
Qed.

(** ** The resolution loop *)

(** The loop appends the islands that resolve, in order, never raises, and
    its trace is one turn per island. *)
Lemma islands2_resolve_run service todo :
  forall cs, exists t,
    resolve service todo cs
    = Build_Run (Ok tt) (cs ++ resolved service todo)%list t
    /\ Observe.turns (map request todo) t.
Proof.
  induction todo as [| i rest IH]; intros cs.
  - exists []. cbn. rewrite app_nil_r. split; [reflexivity | constructor].
  - cbn [resolve map resolved flat_map].
    destruct (islands2_get_coordinates_run service i cs) as [u [Hrun Hu]].
    unfold bind at 1. rewrite Hrun. cbn [outcome final trace].
    unfold entry, lookup, Mock.answer_of.
    destruct (Mock.coordinate_of (service (request i))) as [[la lo] |].
    + destruct (float_truthy la && float_truthy lo).
      * destruct (IH (cs ++ [{| island := i; lat := la; lon := lo |}])%list)
          as [t [Ht Hturns]].
        exists (HttpGet (request i) :: u ++ Sleep 1 :: t)%list.
        cbv beta iota zeta delta [bind modify sleep emit outcome final trace].
        rewrite Ht. cbn [outcome final trace app].
        rewrite <- !app_assoc. split; [reflexivity |].
        constructor; [| exact Hturns].
        destruct Hu as [-> | [text [e ->]]]; reflexivity.
      * destruct (IH cs) as [t [Ht Hturns]].
        exists (HttpGet (request i)
                  :: (u ++ [Print (name i ++ " (" ++ city i ++ "): Location not found")])
                  ++ Sleep 1 :: t)%list.
        cbv beta iota zeta delta [bind print sleep emit outcome final trace].
        rewrite Ht. cbn [outcome final trace app].
        rewrite <- !app_assoc. split; [reflexivity |].
        rewrite app_assoc.
        constructor; [| exact Hturns].
        destruct Hu as [-> | [text [e ->]]]; reflexivity.
    + destruct (IH cs) as [t [Ht Hturns]].
      exists (HttpGet (request i)
                :: (u ++ [Print (name i ++ " (" ++ city i ++ "): Location not found")])
                ++ Sleep 1 :: t)%list.
      cbv beta iota zeta delta [bind print sleep emit outcome final trace].
      rewrite Ht. cbn [outcome final trace app].
      rewrite <- !app_assoc. split; [reflexivity |].
      rewrite app_assoc.
      constructor; [| exact Hturns].
      destruct Hu as [-> | [text [e ->]]]; reflexivity.
Qed.

(** ** The map *)

Lemma islands2_add_markers_run {S} items (s : S) :
  forallb (fun c => Folium.accepts (lat c, lon c)) items = true ->
  forall m,
    add_markers items m s
    = Build_Run
        (Ok {| Folium.map_location := Folium.map_location m;
               Folium.zoom_start := Folium.zoom_start m;
               Folium.tiles := Folium.tiles m;
               Folium.markers := (Folium.markers m ++ map marker items)%list |})
        s [].
Proof.
  induction items as [| item rest IH]; intros H m.
  - cbn. rewrite app_nil_r. destruct m; reflexivity.
  - cbn [forallb] in H. apply andb_prop in H as [Hhere Hrest].
    cbn [add_markers map]. unfold Folium.new_Marker at 1.
    cbn [marker Folium.location]. rewrite Hhere.
    cbv beta iota zeta delta [bind eval ret outcome final trace].
    rewrite (IH Hrest).
    cbn [outcome final trace app Folium.add_to
      Folium.map_location Folium.zoom_start Folium.tiles Folium.markers].
    rewrite <- app_assoc. reflexivity.
Qed.

(** A centre that is accepted is the centre of locations that are. *)
Lemma islands2_accepted cs :
  Folium.accepts (centre cs) = true ->
  forallb (fun c => Folium.accepts (lat c, lon c)) cs = true.
Proof.
  intros H.
  pose proof (NumberFacts.accepts_pairs (map (fun c => (lat c, lon c)) cs)) as Hp.
  rewrite !map_map in Hp. cbn [fst snd] in Hp. specialize (Hp H).
  rewrite NumberFacts.forallb_mapped in Hp. exact Hp.
Qed.

(** The last part of the script: with an empty list it only says so; with
    a mean that is a NaN it ends by the [ValueError] of [folium.Map],
    having done nothing; otherwise it saves the map. *)
Lemma islands2_build_map_run cs :
  build_map cs = Build_Run (build_outcome cs) cs (build_trace cs).
Proof.
  unfold build_map, build_outcome, build_trace, bind, get.
  cbn [outcome final trace app].
  destruct cs as [| c cs]; [reflexivity |].
  fold (centre (c :: cs)). unfold Folium.new_Map.
  destruct (Folium.accepts (centre (c :: cs))) eqn:Hacc; [| reflexivity].
  cbv beta iota zeta delta [bind eval ret outcome final trace app].
  rewrite (islands2_add_markers_run _ _ (islands2_accepted _ Hacc)).
  reflexivity.
Qed.

(** The whole script: its loop never raises, its state at the end is the
    list of the islands that resolve, and its trace is one turn per island
    followed by the construction of the map. *)
Lemma islands2_script_on_run service catalog :
  exists t,
    Observe.turns (map request catalog) t
    /\ script_on service catalog
       = Build_Run (build_outcome (resolved service catalog))
           (resolved service catalog)
           (t ++ build_trace (resolved service catalog)).
Proof.
  destruct (islands2_resolve_run service catalog []) as [t [Hrun Hturns]].
  exists t. split; [exact Hturns |].
  unfold script_on, bind. rewrite Hrun. cbn [outcome final trace app].
  rewrite islands2_build_map_run. reflexivity.
Qed.


Lemma islands2_build_requests cs : Observe.requests (build_trace cs) = [].
Proof.
  unfold build_trace. destruct cs; [reflexivity |].
  destruct (Folium.accepts _); reflexivity.
Qed.


Lemma no_match_no_coordinate r :
  Mock.no_match r = true -> Mock.coordinate_of r = None.
Proof.
  unfold Mock.no_match, Mock.coordinate_of, Mock.first_match.
  destruct r as [k | a]; [reflexivity |].
  destruct (Mock.error_status a); [reflexivity |]. cbn [orb].
  destruct (Wire.body a) as [v |]; [| reflexivity].
  destruct v as [ | | | | | l | ]; try reflexivity.
  destruct l; [reflexivity | discriminate].
Qed.

Lemma in_resolved service catalog c :
  In c (resolved service catalog) ->
  In (island c) catalog /\ lookup service (island c) = Some (lat c, lon c).
Proof.
  unfold resolved. rewrite in_flat_map. intros [i [Hi Hc]].
  unfold entry in Hc. destruct (lookup service i) as [[la lo] |] eqn:Hl.
  - destruct Hc as [<- | []]. cbn. split; assumption.
  - destruct Hc.
Qed.


End WithInterpreter.

End Islands2Facts.

(* ===================================================================== *)
(** * Properties of showislands.py *)
(* ===================================================================== *)

Module ShowIslandsFacts.

Import Py Obj Eff ShowIslands ShowIslandsSpec EffFacts TraceFacts.

Section WithInterpreter.

Context {py : Interpreter}.

(** The body of the [try] statement sends one request and ends as
    [Mock.parse] says. *)
Lemma lookup_body_run {S} service u ps agent t (s : S) :
  let rq := {| Wire.url := u; Wire.params := ps; Wire.user_agent := agent;
               Wire.timeout := t |} in
  bind (Requests.get service u ps agent t)
    (fun response =>
       bind (Requests.raise_for_status response)
         (fun _ =>
            bind (Requests.json response)
              (fun data =>
                 if truthy data
                 then
                   bind (eval (getitem_0 data))
                     (fun first =>
                        bind (eval (float_field first "lat"))
                          (fun la =>
                             bind (eval (getitem_0 data))
                               (fun first0 =>
                                  bind (eval (float_field first0 "lon"))
                                    (fun lo => ret (Some la, Some lo)))))
                 else ret (None, None)))) s
  = Build_Run (Mock.parse (service rq)) s [HttpGet rq].
Proof.
  intros rq. rewrite fetch_run. fold rq. unfold Mock.parse, Mock.error_status.
  destruct (service rq) as [e | a]; [reflexivity |].
  destruct ((400 <=? Wire.status_code a) && (Wire.status_code a <? 600));
    [reflexivity |].
  destruct (Wire.body a) as [data |]; [| reflexivity].
  destruct (truthy data); [| reflexivity].
  rewrite read_match_run.
  destruct (getitem_0 data) as [e | first]; [reflexivity |].
  destruct (float_field first "lat") as [e | la]; [reflexivity |].
  destruct (float_field first "lon") as [e | lo]; reflexivity.
Qed.

(** What reading a reply comes to, against the coordinate it gives. *)
Lemma parse_answer r :
  match Mock.parse r with
  | Ok v => v = Mock.answer_of r
  | Raise _ => Mock.coordinate_of r = None
  end.
Proof.
  unfold Mock.parse, Mock.answer_of, Mock.coordinate_of, Mock.first_match.
  destruct r as [e | a]; [reflexivity |].
  destruct (Mock.error_status a); [reflexivity |].
  destruct (Wire.body a) as [data |]; [| reflexivity].
  destruct data as [ | b | z | x | [| c str] | [| m l] | [| kv d] ];
    try reflexivity.
  - destruct b; reflexivity.
  - cbn [truthy]. destruct (negb (z =? 0)); reflexivity.
  - cbn [truthy]. destruct (float_truthy x); reflexivity.
  - cbn [truthy getitem_0].
    destruct m as [ | | | | | | d ]; try reflexivity.
    destruct (float_field (VDict d) "lat") as [e | la]; [reflexivity |].
    destruct (float_field (VDict d) "lon") as [e | lo]; reflexivity.
Qed.

(** [get_coordinates]: one request; a transport error is printed and
    gives [(None, None)]; any other exception goes on to the caller. *)
Lemma showislands_get_coordinates_run {S} service place (s : S) :
  get_coordinates service place s
  = match Mock.parse (service (request place)) with
    | Ok v => Build_Run (Ok v) s [HttpGet (request place)]
    | Raise e =>
        if is_RequestException e
        then Build_Run (Ok (None, None)) s
               [ HttpGet (request place);
                 PrintError ("Error fetching coordinates for " ++ place ++ ": ") e ]
        else Build_Run (Raise e) s [HttpGet (request place)]
    end.
Proof.
  unfold get_coordinates.
  pose proof (lookup_body_run service base_url
                [("q", place); ("format", "json"); ("limit", "1")]
                "GeoCoderApp" 10 s) as Hb.
  cbv zeta in Hb. fold (request place) in Hb.
  destruct (Mock.parse (service (request place))) as [v | e].
  - apply (try_except_ok _ _ _ _ _ _ _ Hb).
  - destruct (is_RequestException e) eqn:He.
    + rewrite (try_except_caught _ _ _ _ _ _ _ Hb He). reflexivity.
    + apply (try_except_passed _ _ _ _ _ _ _ Hb He).
Qed.


Lemma lookup_answer service place :
  forall la lo,
    Mock.answer_of (service (request place)) = (Some la, Some lo) ->
    float_truthy la && float_truthy lo = true ->
    lookup service place = Some (la, lo).
Proof.
  intros la lo. unfold Mock.answer_of, lookup.
  destruct (Mock.coordinate_of (service (request place))) as [[a b] |];
    [| discriminate].
  intros H. injection H as -> ->. intros ->. reflexivity.
Qed.

(** Every run of the resolution loop is built in one of four ways: no
    place left; an exception that is not a transport error; a place
    entered in the dictionary; a place passed over. *)
Lemma resolve_runs service (P : Coordinates -> Run Coordinates unit -> Prop) :
  (forall d, P d (Build_Run (Ok tt) d [])) ->
  (forall d rq e, P d (Build_Run (Raise e) d [HttpGet rq])) ->
  (forall d place c rq u r,
      Observe.quiet u = true ->
      lookup service place = Some c ->
      P (dict_set place c d) r ->
      P d (Build_Run (outcome r) (final r)
             (HttpGet rq :: u ++ Sleep 1 :: trace r))) ->
  (forall d rq u r,
      Observe.quiet u = true ->
      P d r ->
      P d (Build_Run (outcome r) (final r)
             (HttpGet rq :: u ++ Sleep 1 :: trace r))) ->
  forall todo d, P d (resolve service todo d).
Proof.
  intros Hnil Hraise Hset Hskip.
  induction todo as [| place rest IH]; intros d; [apply Hnil |].
  cbn [resolve].
  pose proof (showislands_get_coordinates_run service place d) as Hg.
  pose proof (parse_answer (service (request place))) as Hp.
  destruct (Mock.parse (service (request place))) as [v | e].
  - rewrite (bind_ok _ _ _ _ _ _ Hg). subst v.
    destruct (Mock.answer_of (service (request place))) as [[la |] [lo |]] eqn:Ha.
    + destruct (float_truthy la && float_truthy lo) eqn:Ht.
      * specialize (Hset d place (la, lo) (request place)
                      [Print (place ++ ": Latitude " ++ float_repr la
                              ++ ", Longitude " ++ float_repr lo)]
                      (resolve service rest (dict_set place (la, lo) d))
                      eq_refl (lookup_answer _ _ _ _ Ha Ht) (IH _)).
        cbv beta iota zeta delta [bind modify print sleep emit outcome final trace].
        cbn [app] in *. exact Hset.
      * specialize (Hskip d (request place)
                      [Print (place ++ ": Location not found")]
                      (resolve service rest d) eq_refl (IH _)).
        cbv beta iota zeta delta [bind modify print sleep emit outcome final trace].
        cbn [app] in *. exact Hskip.
    + specialize (Hskip d (request place)
                    [Print (place ++ ": Location not found")]
                    (resolve service rest d) eq_refl (IH _)).
      cbv beta iota zeta delta [bind modify print sleep emit outcome final trace].
      cbn [app] in *. exact Hskip.
    + specialize (Hskip d (request place)
                    [Print (place ++ ": Location not found")]
                    (resolve service rest d) eq_refl (IH _)).
      cbv beta iota zeta delta [bind modify print sleep emit outcome final trace].
      cbn [app] in *. exact Hskip.
    + specialize (Hskip d (request place)
                    [Print (place ++ ": Location not found")]
                    (resolve service rest d) eq_refl (IH _)).
      cbv beta iota zeta delta [bind modify print sleep emit outcome final trace].
      cbn [app] in *. exact Hskip.
  - destruct (is_RequestException e).
    + rewrite (bind_ok _ _ _ _ _ _ Hg).
      specialize (Hskip d (request place)
                    [PrintError ("Error fetching coordinates for " ++ place ++ ": ") e;
                     Print (place ++ ": Location not found")]
                    (resolve service rest d) eq_refl (IH _)).
      cbv beta iota zeta delta [bind modify print sleep emit outcome final trace].
      cbn [app] in *. exact Hskip.
    + rewrite (bind_raise _ _ _ _ _ _ Hg). apply Hraise.
Qed.

Lemma in_dict_set k v place c d :
  In (k, v) (dict_set place c d) -> (k, v) = (place, c) \/ In (k, v) d.
Proof.
  induction d as [| [k' v'] d IH]; cbn.
  - intros [H | []]. left. symmetry. exact H.
  - destruct (String.eqb k' place).
    + intros [H | H]; [left; symmetry; exact H | right; right; exact H].
    + intros [H | H]; [right; left; exact H |].
      destruct (IH H) as [E | E]; [left; exact E | right; right; exact E].
Qed.

Lemma keys_dict_set place c d :
  map fst (dict_set place c d)
  = if existsb (String.eqb place) (map fst d) then map fst d
    else (map fst d ++ [place])%list.
Proof.
  induction d as [| [k' v'] d IH]; [reflexivity |].
  cbn [dict_set map fst existsb].
  rewrite (String.eqb_sym place k').
  destruct (String.eqb k' place) eqn:E.
  - apply String.eqb_eq in E. subst. reflexivity.
  - cbn [map fst orb]. rewrite IH.
    destruct (existsb (String.eqb place) (map fst d)); reflexivity.
Qed.

Lemma nodup_dict_set place c d :
  NoDup (map fst d) -> NoDup (map fst (dict_set place c d)).
Proof.
  intros H. rewrite keys_dict_set.
  destruct (existsb (String.eqb place) (map fst d)) eqn:E; [exact H |].
  apply NoDup_app; [exact H | repeat constructor; intros [] |].
  intros k Hk [Ek | []]. subst k.
  assert (existsb (String.eqb place) (map fst d) = true).
  { apply existsb_exists. exists place. split; [exact Hk | apply String.eqb_refl]. }
  congruence.
Qed.

(** An entry of the dictionary at the end was there at the start or is the
    coordinate kept for its place. *)
Lemma resolve_entries service todo d k v :
  In (k, v) (final (resolve service todo d)) ->
  In (k, v) d \/ lookup service k = Some v.
Proof.
  revert k v.
  apply (resolve_runs service
           (fun d r => forall k v, In (k, v) (final r) ->
                                   In (k, v) d \/ lookup service k = Some v)).
  - intros d0 k v H. left. exact H.
  - intros d0 rq e k v H. left. exact H.
  - intros d0 place c rq u r _ Hl IH k v H. cbn [final] in H.
    destruct (IH k v H) as [Hin | Hlk]; [| right; exact Hlk].
    destruct (in_dict_set _ _ _ _ _ Hin) as [E | Hd]; [| left; exact Hd].
    injection E as -> ->. right. exact Hl.
  - intros d0 rq u r _ IH k v H. apply IH, H.
Qed.

(** The keys of the dictionary stay distinct. *)
Lemma resolve_nodup service todo d :
  NoDup (map fst d) -> NoDup (map fst (final (resolve service todo d))).
Proof.
  apply (resolve_runs service
           (fun d r => NoDup (map fst d) -> NoDup (map fst (final r)))).
  - intros d0 H. exact H.
  - intros d0 rq e H. exact H.
  - intros d0 place c rq u r _ _ IH H. apply IH, nodup_dict_set, H.
  - intros d0 rq u r _ IH H. apply IH, H.
Qed.

Lemma resolve_saved service todo d :
  Observe.saved (trace (resolve service todo d)) = [].
Proof.
  apply (resolve_runs service (fun _ r => Observe.saved (trace r) = [])).
  - reflexivity.
  - reflexivity.
  - intros d0 place c rq u r Hu _ IH. cbn [trace Observe.saved].
    rewrite saved_app, (saved_quiet _ Hu). cbn. exact IH.
  - intros d0 rq u r Hu IH. cbn [trace Observe.saved].
    rewrite saved_app, (saved_quiet _ Hu). cbn. exact IH.
Qed.

Lemma showislands_add_markers_run {S} items (s : S) :
  forallb (fun kv => Folium.accepts (snd kv)) items = true ->
  forall m,
    add_markers items m s
    = Build_Run
        (Ok {| Folium.map_location := Folium.map_location m;
               Folium.zoom_start := Folium.zoom_start m;
               Folium.tiles := Folium.tiles m;
               Folium.markers := (Folium.markers m ++ map marker items)%list |})
        s [].
Proof.
  induction items as [| [k [la lo]] rest IH]; intros H m.
  - cbn. rewrite app_nil_r. destruct m; reflexivity.
  - cbn [forallb snd] in H. apply andb_prop in H as [Hhere Hrest].
    cbn [add_markers map]. unfold Folium.new_Marker at 1.
    cbn [marker Folium.location]. rewrite Hhere.
    cbv beta iota zeta delta [bind eval ret outcome final trace].
    rewrite (IH Hrest).
    cbn [outcome final trace app Folium.add_to
      Folium.map_location Folium.zoom_start Folium.tiles Folium.markers].
    rewrite <- app_assoc. reflexivity.
Qed.

(** A centre that is accepted is the centre of locations that are. *)
Lemma showislands_accepted cs :
  Folium.accepts (centre cs) = true ->
  forallb (fun kv => Folium.accepts (snd kv)) cs = true.
Proof.
  intros H.
  pose proof (NumberFacts.accepts_pairs (map snd cs)) as Hp.
  rewrite !map_map in Hp. specialize (Hp H).
  rewrite NumberFacts.forallb_mapped in Hp. exact Hp.
Qed.

(** The last part of the script: with an empty dictionary it only says so;
    with a mean that is a NaN it ends by the [ValueError] of [folium.Map],
    having done nothing; otherwise it saves the map. *)
Lemma showislands_build_map_run cs :
  build_map cs = Build_Run (build_outcome cs) cs (build_trace cs).
Proof.
  unfold build_map, build_outcome, build_trace, bind, get.
  cbn [outcome final trace app].
  destruct cs as [| c cs]; [reflexivity |].
  fold (centre (c :: cs)). unfold Folium.new_Map.
  destruct (Folium.accepts (centre (c :: cs))) eqn:Hacc; [| reflexivity].
  cbv beta iota zeta delta [bind eval ret outcome final trace app].
  rewrite (showislands_add_markers_run _ _ (showislands_accepted _ Hacc)).
  reflexivity.
Qed.

Lemma showislands_build_requests cs : Observe.requests (build_trace cs) = [].
Proof.
  unfold build_trace. destruct cs; [reflexivity |].
  destruct (Folium.accepts _); reflexivity.
Qed.

(** The whole script: when the loop ends by an exception so does the
    script; otherwise the last part runs on the dictionary. *)
Lemma showislands_script_on_run service catalog :
  let r := resolve service catalog [] in
  script_on service catalog
  = match outcome r with
    | Ok _ => Build_Run (build_outcome (final r)) (final r)
                (trace r ++ build_trace (final r))
    | Raise e => Build_Run (Raise e) (final r) (trace r)
    end.
Proof.
  intros r. unfold script_on, bind. fold r.
  destruct r as [[[] | e] f t]; cbn [outcome final trace]; [| reflexivity].
  rewrite showislands_build_map_run. reflexivity.
Qed.

(** Every run of the resolution loop, with the places it was given. *)
Lemma resolve_runs_over service
  (P : list string -> ShowIslands.Coordinates
       -> Run ShowIslands.Coordinates unit -> Prop) :
  (forall d, P [] d (Build_Run (Ok tt) d [])) ->
  (forall place rest d e,
      is_RequestException e = false ->
      P (place :: rest) d
        (Build_Run (Raise e) d [HttpGet (ShowIslandsSpec.request place)])) ->
  (forall place rest d c u r,
      Observe.quiet u = true ->
      ShowIslandsSpec.lookup service place = Some c ->
      P rest (ShowIslands.dict_set place c d) r ->
      P (place :: rest) d
        (Build_Run (outcome r) (final r)
           (HttpGet (ShowIslandsSpec.request place) :: u ++ Sleep 1 :: trace r))) ->
  (forall place rest d u r,
      Observe.quiet u = true ->
      ShowIslandsSpec.lookup service place = None ->
      P rest d r ->
      P (place :: rest) d
        (Build_Run (outcome r) (final r)
           (HttpGet (ShowIslandsSpec.request place) :: u ++ Sleep 1 :: trace r))) ->
  forall todo d, P todo d (ShowIslands.resolve service todo d).
Proof.
  intros Hnil Hraise Hset Hskip.
  induction todo as [| place rest IH]; intros d; [apply Hnil |].
  cbn [ShowIslands.resolve].
  pose proof (showislands_get_coordinates_run service place d) as Hg.
  pose proof (parse_answer (service (ShowIslandsSpec.request place)))
    as Hp.
  assert (Hmiss : forall u,
             Observe.quiet u = true ->
             ShowIslandsSpec.lookup service place = None ->
             P (place :: rest) d
               (Build_Run (outcome (ShowIslands.resolve service rest d))
                  (final (ShowIslands.resolve service rest d))
                  (HttpGet (ShowIslandsSpec.request place)
                   :: u ++ Sleep 1 :: trace (ShowIslands.resolve service rest d)))).
  { intros u Hu Hl. apply Hskip; [exact Hu | exact Hl | apply IH]. }
  destruct (Mock.parse (service (ShowIslandsSpec.request place))) as [v | e].
  - rewrite (bind_ok _ _ _ _ _ _ Hg). subst v.
    unfold Mock.answer_of.
    destruct (Mock.coordinate_of (service (ShowIslandsSpec.request place)))
      as [[la lo] |] eqn:Hc.
    + destruct (float_truthy la && float_truthy lo) eqn:Ht.
      * assert (Hl : ShowIslandsSpec.lookup service place = Some (la, lo)).
        { unfold ShowIslandsSpec.lookup. rewrite Hc, Ht. reflexivity. }
        specialize (Hset place rest d (la, lo)
                      [Print (place ++ ": Latitude " ++ float_repr la
                              ++ ", Longitude " ++ float_repr lo)]
                      (ShowIslands.resolve service rest
                         (ShowIslands.dict_set place (la, lo) d))
                      eq_refl Hl (IH _)).
        cbv beta iota zeta delta [bind modify print sleep emit outcome final trace].
        cbn [app] in *. exact Hset.
      * assert (Hl : ShowIslandsSpec.lookup service place = None).
        { unfold ShowIslandsSpec.lookup. rewrite Hc, Ht. reflexivity. }
        specialize (Hmiss [Print (place ++ ": Location not found")] eq_refl Hl).
        cbv beta iota zeta delta [bind modify print sleep emit outcome final trace].
        cbn [app] in *. exact Hmiss.
    + assert (Hl : ShowIslandsSpec.lookup service place = None).
      { unfold ShowIslandsSpec.lookup. rewrite Hc. reflexivity. }
      specialize (Hmiss [Print (place ++ ": Location not found")] eq_refl Hl).
      cbv beta iota zeta delta [bind modify print sleep emit outcome final trace].
      cbn [app] in *. exact Hmiss.
  - assert (Hl : ShowIslandsSpec.lookup service place = None).
    { unfold ShowIslandsSpec.lookup. rewrite Hp. reflexivity. }
    destruct (is_RequestException e) eqn:He.
    + rewrite (bind_ok _ _ _ _ _ _ Hg).
      specialize (Hmiss
                    [PrintError ("Error fetching coordinates for " ++ place ++ ": ") e;
                     Print (place ++ ": Location not found")]
                    eq_refl Hl).
      cbv beta iota zeta delta [bind modify print sleep emit outcome final trace].
      cbn [app] in *. exact Hmiss.
    + rewrite (bind_raise _ _ _ _ _ _ Hg). apply Hraise. exact He.
Qed.


End WithInterpreter.

End ShowIslandsFacts.

(* ===================================================================== *)
(** * The resolution pass *)
(* ===================================================================== *)

Module Resolution.

Import Py Obj Eff TraceFacts.

Section WithInterpreter.

Context {py : Interpreter}.

(** C2. A place whose query variants all bring nothing (no match, or a
    transport error) is not resolved: [find_coordinates] returns [False]
    and leaves the island as it was; after the whole run of [main], also
    one cut short by an exception, its latitude and longitude are still
    [None]; and in islands2.py it never enters the list [coordinates]. *)
Theorem unresolved_place_stays_absent :
  (forall service self i,
      Forall (fun q => Mock.no_match
                         (service (RecreationalIslandsSpec.request self q)) = true)
        (RecreationalIslands.queries i) ->
      outcome (RecreationalIslands.find_coordinates service self i) = Ok false
      /\ final (RecreationalIslands.find_coordinates service self i) = i)
  /\ (forall service islands k i,
         nth_error islands k = Some i ->
         RecreationalIslands.latitude i = None ->
         RecreationalIslands.longitude i = None ->
         Forall (fun q => Mock.no_match
                            (service (RecreationalIslandsSpec.request
                                        RecreationalIslands.NominatimGeocoder_init q))
                          = true)
           (RecreationalIslands.queries i) ->
         exists i',
           nth_error (final (RecreationalIslands.main_on service islands)) k = Some i'
           /\ RecreationalIslands.latitude i' = None
           /\ RecreationalIslands.longitude i' = None)
  /\ (forall service catalog i,
         Mock.no_match (service (Islands2Spec.request i)) = true ->
         ~ In i (map Islands2.island (final (Islands2.script_on service catalog)))).
Proof.
  split; [| split].
  - intros service self i H.
    rewrite (RecreationalIslandsFacts.find_coordinates_all_miss _ _ _ H).
    split; reflexivity.
  - intros service islands k i Hk Hla Hlo H. exists i.
    rewrite RecreationalIslandsFacts.final_main_on.
    rewrite (RecreationalIslandsFacts.find_all_keeps_unresolved _ _ _ _ _ _ _ _ Hk H).
    auto.
  - intros service catalog i H Hin.
    destruct (Islands2Facts.islands2_script_on_run service catalog) as [t [_ Hrun]].
    rewrite Hrun in Hin. cbn [final] in Hin.
    apply in_map_iff in Hin as [c [<- Hc]].
    apply Islands2Facts.in_resolved in Hc as [_ Hl].
    unfold Islands2Spec.lookup in Hl.
    rewrite (Islands2Facts.no_match_no_coordinate _ H) in Hl. discriminate.
Qed.

End WithInterpreter.

Section Witness.

Existing Instance Examples.cpython_3_11.

(** A run in which nothing is found. *)
Lemma unresolved_place_stays_absent_witness :
  let service := Examples.nowhere in
  let self := RecreationalIslands.NominatimGeocoder_init in
  let i := RecreationalIslands.Island_init "B" "Y" "n" in
  let j := {| Islands2.name := "B"; Islands2.city := "Y"; Islands2.notes := "n" |} in
  (outcome (RecreationalIslands.find_coordinates service self i) = Ok false
   /\ final (RecreationalIslands.find_coordinates service self i) = i)
  /\ (exists i',
         nth_error (final (RecreationalIslands.main_on service [i])) 0 = Some i'
         /\ RecreationalIslands.latitude i' = None
         /\ RecreationalIslands.longitude i' = None)
  /\ ~ In j (map Islands2.island (final (Islands2.script_on service [j]))).
Proof.
  intros service self i j.
  destruct unresolved_place_stays_absent as [H1 [H2 H3]].
  split; [| split].
  - apply H1. repeat constructor.
  - apply (H2 service [i] 0%nat i); try reflexivity. repeat constructor.
  - apply H3. reflexivity.
Defined.

End Witness.

Section WithInterpreter.

Context {py : Interpreter}.

Lemma zero_not_truthy la lo :
  is_zero la || is_zero lo = true -> float_truthy la && float_truthy lo = false.
Proof. destruct la, lo; cbn; intros H; try reflexivity; discriminate. Qed.

(** C10. A reply whose latitude or longitude converts to [0.0] leaves the
    place unresolved.  In recreational_islands.py [find_coordinates]
    stores the pair and returns [True], but the island does not pass the
    test of [create_map]: it gets no marker, takes no part in the centre,
    and alone it gives no map.  In islands2.py and showislands.py the
    resolution loop itself drops the pair. *)
Theorem zero_coordinate_is_unresolved :
  (forall service self island pre query post la lo,
      RecreationalIslands.queries island = (pre ++ query :: post)%list ->
      Forall (fun q => Mock.no_match
                         (service (RecreationalIslandsSpec.request self q)) = true)
        pre ->
      Mock.coordinate_of (service (RecreationalIslandsSpec.request self query))
      = Some (la, lo) ->
      is_zero la || is_zero lo = true ->
      let r := RecreationalIslands.find_coordinates service self island in
      outcome r = Ok true
      /\ RecreationalIslands.latitude (final r) = Some la
      /\ RecreationalIslands.longitude (final r) = Some lo
      /\ RecreationalIslands.has_coordinates (final r) = false
      /\ RecreationalIslandsSpec.marker_of (final r) = []
      /\ RecreationalIslandsSpec.coordinates_of (final r) = []
      /\ forall S file (s : S),
           RecreationalIslands.create_map [final r] file s
           = Build_Run (Ok tt) s
               [Print "No islands with coordinates to display on map."])
  /\ (forall service catalog i la lo,
         Mock.coordinate_of (service (Islands2Spec.request i)) = Some (la, lo) ->
         is_zero la || is_zero lo = true ->
         ~ In i (map Islands2.island (final (Islands2.script_on service catalog))))
  /\ (forall service catalog place la lo,
         Mock.coordinate_of (service (ShowIslandsSpec.request place)) = Some (la, lo) ->
         is_zero la || is_zero lo = true ->
         ~ In place (map fst (final (ShowIslands.script_on service catalog)))).
Proof.
  split; [| split].
  - intros service self island pre query post la lo Hq Hpre Hhit Hz r.
    assert (Hrun : r = Build_Run (Ok true)
                         (RecreationalIslandsSpec.with_coordinates island la lo)
                         (trace r)).
    { subst r. rewrite RecreationalIslandsFacts.find_coordinates_unfold, Hq.
      rewrite (RecreationalIslandsFacts.try_queries_first_hit
                 _ _ _ _ _ _ _ _ Hpre Hhit).
      reflexivity. }
    assert (Ho : outcome r = Ok true) by (rewrite Hrun; reflexivity).
    assert (Hf : final r = RecreationalIslandsSpec.with_coordinates island la lo)
      by (rewrite Hrun; reflexivity).
    rewrite Hf.
    pose proof (zero_not_truthy la lo Hz) as Ht.
    assert (Hh : RecreationalIslands.has_coordinates
                   (RecreationalIslandsSpec.with_coordinates island la lo) = false).
    { exact Ht. }
    destruct (RecreationalIslandsFacts.coordinates_of_dropped _ Hh) as [Hc Hm].
    repeat (split; [first [exact Ho | reflexivity | assumption] |]).
    intros S file s.
    rewrite RecreationalIslandsFacts.create_map_run.
    unfold RecreationalIslandsSpec.create_outcome,
      RecreationalIslandsSpec.create_trace.
    cbn [filter]. rewrite Hh. reflexivity.
  - intros service catalog i la lo Hc Hz Hin.
    destruct (Islands2Facts.islands2_script_on_run service catalog) as [t [_ Hrun]].
    rewrite Hrun in Hin. cbn [final] in Hin.
    apply in_map_iff in Hin as [c [<- Hin]].
    apply Islands2Facts.in_resolved in Hin as [_ Hl].
    unfold Islands2Spec.lookup in Hl. rewrite Hc, (zero_not_truthy _ _ Hz) in Hl.
    discriminate.
  - intros service catalog place la lo Hc Hz Hin.
    assert (Hf : final (ShowIslands.script_on service catalog)
                 = final (ShowIslands.resolve service catalog [])).
    { rewrite ShowIslandsFacts.showislands_script_on_run. cbv zeta.
      destruct (outcome (ShowIslands.resolve service catalog [])); reflexivity. }
    rewrite Hf in Hin. apply in_map_iff in Hin as [[k v] [Hk Hin]].
    cbn in Hk. subst k.
    destruct (ShowIslandsFacts.resolve_entries _ _ _ _ _ Hin) as [[] | Hl].
    unfold ShowIslandsSpec.lookup in Hl. rewrite Hc, (zero_not_truthy _ _ Hz) in Hl.
    discriminate.
Qed.

End WithInterpreter.

Section Witness.

Existing Instance Examples.cpython_3_11.

(** A service that places everything at latitude zero. *)
Lemma zero_coordinate_is_unresolved_witness :
  let service := Examples.everywhere "0.0" "25.4" in
  let self := RecreationalIslands.NominatimGeocoder_init in
  let island := RecreationalIslands.Island_init "A" "X" "n" in
  let j := {| Islands2.name := "A"; Islands2.city := "X"; Islands2.notes := "n" |} in
  let r := RecreationalIslands.find_coordinates service self island in
  (outcome r = Ok true
   /\ RecreationalIslands.latitude (final r) = Some (Examples.number "0.0")
   /\ RecreationalIslands.has_coordinates (final r) = false
   /\ RecreationalIslandsSpec.marker_of (final r) = [])
  /\ ~ In j (map Islands2.island (final (Islands2.script_on service [j])))
  /\ ~ In "A X" (map fst (final (ShowIslands.script_on service ["A X"]))).
Proof.
  intros service self island j r.
  destruct zero_coordinate_is_unresolved as [H1 [H2 H3]].
  destruct (H1 service self island [] "A, X, Finland" ["A, X"; "A Finland"]
              (Examples.number "0.0") (Examples.number "25.4"))
    as [Ho [Hla [_ [Hh [Hm _]]]]];
    [reflexivity | constructor | reflexivity | reflexivity |].
  split; [repeat split; assumption |].
  split.
  - apply (H2 service [j] j (Examples.number "0.0") (Examples.number "25.4"));
      reflexivity.
  - apply (H3 service ["A X"] "A X" (Examples.number "0.0") (Examples.number "25.4"));
      reflexivity.
Defined.

End Witness.

Section Witness.

Existing Instance Examples.cpython_3_11.


End Witness.

Section WithInterpreter.

Context {py : Interpreter}.


End WithInterpreter.

Section Witness.

Existing Instance Examples.cpython_3_11.


End Witness.

End Resolution.

(* ===================================================================== *)
(** * The map *)
(* ===================================================================== *)

Module MapBuild.

Import Py Obj Eff EffFacts TraceFacts.

Section WithInterpreter.

Context {py : Interpreter}.

Lemma located_nil_iff islands :
  filter RecreationalIslands.has_coordinates islands = []
  <-> RecreationalIslandsSpec.located islands = [].
Proof.
  rewrite <- (RecreationalIslandsFacts.located_filter islands).
  pose proof (RecreationalIslandsFacts.forallb_filter
                RecreationalIslands.has_coordinates islands) as Hall.
  destruct (filter RecreationalIslands.has_coordinates islands) as [| i kept].
  - split; reflexivity.
  - split; [discriminate |].
    cbn in Hall. apply andb_prop in Hall as [Hi _].
    destruct (RecreationalIslandsFacts.coordinates_of_kept i Hi)
      as [la [lo [_ [_ [Hc _]]]]].
    unfold RecreationalIslandsSpec.located. cbn [flat_map]. rewrite Hc. discriminate.
Qed.



Lemma create_run_none islands file :
  RecreationalIslandsSpec.located islands = [] ->
  RecreationalIslandsSpec.create_outcome islands = Ok tt
  /\ RecreationalIslandsSpec.create_trace islands file
     = [Print "No islands with coordinates to display on map."].
Proof.
  intros H.
  unfold RecreationalIslandsSpec.create_outcome, RecreationalIslandsSpec.create_trace.
  apply located_nil_iff in H. rewrite H. split; reflexivity.
Qed.


End WithInterpreter.

Section Witness.

Existing Instance Examples.cpython_3_11.

(** C4 as stated fails for a place resolved to a NaN, which the programs
    keep, a NaN being true as a condition: the set of resolved places is
    not empty and there is no map, hence no centre.  [create_map] ends by
    the [ValueError] of [folium.Map] and writes nothing; so does the run
    of [main] with a service that gives the text [nan] as latitude, and
    so does islands2.py. *)
Lemma no_centre_for_nan :
  RecreationalIslandsSpec.located [Examples.island_at "A" "X" "a" "nan" "25.0"]
  = [(S754_nan, Examples.number "25.0")]
  /\ RecreationalIslands.create_map
       [Examples.island_at "A" "X" "a" "nan" "25.0"] "map.html" tt
     = Build_Run (Raise ValueError) tt []
  /\ (let r := RecreationalIslands.main_on (Examples.everywhere "nan" "25.0")
                 [RecreationalIslands.Island_init "A" "X" "a"] in
      outcome r = Raise ValueError
      /\ RecreationalIslandsSpec.located (final r)
         = [(S754_nan, Examples.number "25.0")]
      /\ Observe.saved (trace r) = [])
  /\ (let r := Islands2.script_on (Examples.everywhere "nan" "25.0")
                 [Examples.island2 "A" "X" "a"] in
      outcome r = Raise ValueError
      /\ map (fun c => (Islands2.lat c, Islands2.lon c)) (final r)
         = [(S754_nan, Examples.number "25.0")]
      /\ Observe.saved (trace r) = []).
Proof. vm_compute. repeat split. Qed.

End Witness.

Section WithInterpreter.

Context {py : Interpreter}.


End WithInterpreter.

Section Witness.

Existing Instance Examples.cpython_3_11.


End Witness.

Section WithInterpreter.

Context {py : Interpreter}.

Lemma saved_results islands found :
  Observe.saved (RecreationalIslandsSpec.results islands found) = [].
Proof.
  unfold RecreationalIslandsSpec.results. cbn [app Observe.saved].
  rewrite saved_app. cbn [Observe.saved]. rewrite app_nil_r.
  induction islands as [| i rest IH]; [reflexivity | exact IH].
Qed.

(** C5. When no place has coordinates, no map is built and no file is
    written, and this is an ordinary end: [create_map] only prints that
    there is nothing to display; a run of [main] that leaves no place with
    coordinates writes no file, and ends normally whenever its resolution
    loop did; islands2.py prints that no map was created and ends
    normally without writing a file. *)
Theorem no_map_without_coordinates :
  (forall S islands file (s : S),
      RecreationalIslandsSpec.located islands = [] ->
      RecreationalIslands.create_map islands file s
      = Build_Run (Ok tt) s
          [Print "No islands with coordinates to display on map."])
  /\ (forall service islands,
         RecreationalIslandsSpec.located
           (final (RecreationalIslands.main_on service islands)) = [] ->
         Observe.saved (trace (RecreationalIslands.main_on service islands)) = []
         /\ (forall count,
                outcome (RecreationalIslands.find_all service
                           RecreationalIslands.NominatimGeocoder_init
                           (List.length islands) 1 0 islands) = Ok count ->
                outcome (RecreationalIslands.main_on service islands) = Ok tt))
  /\ (forall service catalog,
         final (Islands2.script_on service catalog) = [] ->
         outcome (Islands2.script_on service catalog) = Ok tt
         /\ Observe.saved (trace (Islands2.script_on service catalog)) = []
         /\ exists t,
              trace (Islands2.script_on service catalog)
              = (t ++ [Print "No coordinates found. Map not created."])%list).
Proof.
  split; [| split].
  - intros S islands file s H.
    rewrite RecreationalIslandsFacts.create_map_run.
    destruct (create_run_none islands file H) as [-> ->]. reflexivity.
  - intros service islands.
    rewrite (RecreationalIslandsFacts.main_on_run service islands).
    cbv zeta.
    pose proof (RecreationalIslandsFacts.saved_find_all service
                  RecreationalIslands.NominatimGeocoder_init
                  (List.length islands) islands 1%nat 0%nat) as Hs.
    destruct (RecreationalIslands.find_all service
                RecreationalIslands.NominatimGeocoder_init
                (List.length islands) 1 0 islands) as [[found | e] f t];
      cbn [outcome final trace] in *; intros H.
    + unfold RecreationalIslandsSpec.map_outcome, RecreationalIslandsSpec.map_part.
      destruct (create_run_none f RecreationalIslands.default_output_file H)
        as [Ho Ht].
      split.
      * rewrite !saved_app, Hs, saved_results.
        destruct (0 <? found)%nat; [| reflexivity].
        rewrite Ht. reflexivity.
      * intros count _. destruct (0 <? found)%nat; [exact Ho | reflexivity].
    + split; [| discriminate].
      rewrite saved_app, Hs. reflexivity.
  - intros service catalog.
    destruct (Islands2Facts.islands2_script_on_run service catalog) as [t [Hturns ->]].
    cbn [outcome final trace]. intros ->.
    split; [reflexivity | split].
    + rewrite saved_app, (turns_saved _ _ Hturns). reflexivity.
    + exists t. reflexivity.
Qed.

End WithInterpreter.

Section Witness.

Existing Instance Examples.cpython_3_11.

(** A run in which nothing is found. *)
Lemma no_map_without_coordinates_witness :
  let service := Examples.nowhere in
  let i := RecreationalIslands.Island_init "B" "Y" "n" in
  let j := {| Islands2.name := "B"; Islands2.city := "Y"; Islands2.notes := "n" |} in
  RecreationalIslands.create_map [i] "map.html" tt
  = Build_Run (Ok tt) tt [Print "No islands with coordinates to display on map."]
  /\ Observe.saved (trace (RecreationalIslands.main_on service [i])) = []
  /\ outcome (RecreationalIslands.main_on service [i]) = Ok tt
  /\ outcome (Islands2.script_on service [j]) = Ok tt
  /\ Observe.saved (trace (Islands2.script_on service [j])) = [].
Proof.
  intros service i j.
  destruct no_map_without_coordinates as [H1 [H2 H3]].
  split; [apply H1; reflexivity |].
  destruct (H2 service [i]) as [Hs Ho]; [reflexivity |].
  destruct (H3 service [j]) as [Ho2 [Hs2 _]]; [reflexivity |].
  split; [exact Hs |].
  split; [apply (Ho 0%nat); reflexivity |].
  split; [exact Ho2 | exact Hs2].
Defined.

End Witness.

End MapBuild.

(* ===================================================================== *)
(** * Pacing of the requests *)
(* ===================================================================== *)

Module Pacing.

Import Py Obj Eff EffFacts TraceFacts.

Section WithInterpreter.

Context {py : Interpreter}.

(** In islands2.py every request but the first comes after a sleep of one
    second, whatever the service answers. *)
Lemma islands2_paced service catalog :
  Observe.paced 1 (trace (Islands2.script_on service catalog)) = true.
Proof.
  destruct (Islands2Facts.islands2_script_on_run service catalog) as [t [Hturns ->]].
  cbn [trace]. unfold Observe.paced.
  rewrite paced_since_app.
  - apply (turns_paced _ _ Hturns). exact I.
  - apply Islands2Facts.islands2_build_requests.
Qed.

(** In recreational_islands.py a variant that brings a coordinate is
    followed by no sleep: [find_coordinates] returns at once. *)
Lemma find_coordinates_hit_no_sleep service self island la lo :
  Mock.coordinate_of
    (service (RecreationalIslandsSpec.request self
                (RecreationalIslands.name island ++ ", "
                 ++ RecreationalIslands.city island ++ ", Finland")))
  = Some (la, lo) ->
  Observe.sleeps (trace (RecreationalIslands.find_coordinates service self island)) = [].
Proof.
  intros H. rewrite RecreationalIslandsFacts.find_coordinates_unfold.
  unfold RecreationalIslands.queries.
  rewrite (RecreationalIslandsFacts.try_queries_hit _ _ _ _ _ _ _ H).
  reflexivity.
Qed.

End WithInterpreter.

(** C3, where the code departs from it.  With a service that finds every
    place at its first variant, the run of [main] over the catalog sends
    its six requests, one per island, without a single sleep: the requests
    for successive islands are not one second apart.  This is so under
    every interpreter. *)
Theorem main_requests_without_pause {py : Interpreter} :
  let r := RecreationalIslands.main (Examples.everywhere "60.2" "25.4") in
  outcome r = Ok tt
  /\ map Mock.query_of (Observe.requests (trace r))
     = [ "Sipoonranta, Sipoo, Finland"; "Kaunissaari, Sipoo, Finland";
         "Pirttisaari, Porvoo, Finland"; "Majakkasaari, Porvoo, Finland";
         "Luotsisaari, Porvoo, Finland"; "Eestiluoto, Sipoo, Finland" ]
  /\ Observe.sleeps (trace r) = []
  /\ Observe.paced 1 (trace r) = false.
Proof. destruct py as [[|] zeros]; vm_compute; repeat split. Qed.

End Pacing.

(* ===================================================================== *)
(** * Replies of an unexpected shape *)
(* ===================================================================== *)

Module Failures.

Import Py Obj Eff EffFacts TraceFacts.

Section WithInterpreter.

Context {py : Interpreter}.

(** [geocode] returns, without raising, for a transport failure, an error
    status, a body that is not JSON, and a body that is a list. *)
Lemma geocode_returns_on_list {S} service self query (s : S) :
  match service (RecreationalIslandsSpec.request self query) with
  | Wire.Fails _ => True
  | Wire.Answers a =>
      Mock.error_status a = true
      \/ Wire.body a = None
      \/ exists l, Wire.body a = Some (VList l)
  end ->
  exists v, outcome (RecreationalIslands.geocode service self query s) = Ok v.
Proof.
  unfold RecreationalIslands.geocode, try_except, Requests.get, bind.
  fold (RecreationalIslandsSpec.request self query).
  destruct (service (RecreationalIslandsSpec.request self query)) as [k | a]; cbn.
  { intros _. eexists. reflexivity. }
  unfold Requests.raise_for_status. fold (Mock.error_status a).
  destruct (Mock.error_status a); cbn.
  { intros _. eexists. reflexivity. }
  unfold Requests.json.
  intros [H | [H | [l H]]]; [discriminate | |]; rewrite H; cbn.
  - eexists. reflexivity.
  - destruct l; cbn; eexists; reflexivity.
Qed.

(** C6, where the code departs from it.  A reply with status 200 whose
    body is a JSON object makes [geocode] raise [KeyError], and the run of
    [main] ends there, after one request; a match without the field [lat]
    makes [find_coordinates] raise [KeyError] with the same end; a match
    with a latitude only leaves the island with a latitude and no
    longitude.  islands2.py, which catches every exception, runs to its end
    on the same replies. *)
Theorem malformed_body_aborts_run :
  (let r := RecreationalIslands.geocode Examples.object_body
              RecreationalIslands.NominatimGeocoder_init "A, X, Finland" tt in
   outcome r = Raise (KeyError (KInt 0)))
  /\ (let r := RecreationalIslands.main Examples.object_body in
      outcome r = Raise (KeyError (KInt 0))
      /\ map Mock.query_of (Observe.requests (trace r))
         = ["Sipoonranta, Sipoo, Finland"])
  /\ (let r := RecreationalIslands.main Examples.match_without_coordinate in
      outcome r = Raise (KeyError (KStr "lat"))
      /\ map Mock.query_of (Observe.requests (trace r))
         = ["Sipoonranta, Sipoo, Finland"])
  /\ (let r := RecreationalIslands.find_coordinates Examples.match_without_longitude
                 RecreationalIslands.NominatimGeocoder_init
                 (RecreationalIslands.Island_init "A" "X" "n") in
      outcome r = Raise (KeyError (KStr "lon"))
      /\ RecreationalIslands.latitude (final r) = Some (Examples.number "60.1")
      /\ RecreationalIslands.longitude (final r) = None)
  /\ (let r := Islands2.script Examples.object_body in
      outcome r = Ok tt
      /\ List.length (Observe.requests (trace r)) = 6%nat)
  /\ (let r := Islands2.script Examples.match_without_coordinate in
      outcome r = Ok tt
      /\ List.length (Observe.requests (trace r)) = 6%nat).
Proof. vm_compute. repeat split. Qed.


End WithInterpreter.

End Failures.

(* ===================================================================== *)
(** * Markers and popups *)
(* ===================================================================== *)

Module Markers.

Import Py Obj Eff EffFacts TraceFacts.

(** ** Occurrence of a text in another *)

Lemma prefix_app sub post : String.prefix sub (sub ++ post) = true.
Proof.
  induction sub as [| c sub IH]; cbn.
  - destruct post; reflexivity.
  - destruct (Ascii.ascii_dec c c) as [_ | n]; [exact IH | contradiction].
Qed.

Lemma occursb_complete sub s : Observe.occurs_in sub s -> Observe.occursb sub s = true.
Proof.
  intros [pre [post ->]]. induction pre as [| c pre IH].
  - cbn [String.append]. destruct (sub ++ post) eqn:E; cbn [Observe.occursb];
      rewrite <- E, prefix_app; reflexivity.
  - cbn [String.append Observe.occursb]. rewrite IH. apply orb_true_r.
Qed.

Lemma append_assoc (a b c : string) : (a ++ b) ++ c = a ++ b ++ c.
Proof. induction a as [| ch a IH]; [reflexivity | cbn; rewrite IH; reflexivity]. Qed.

Lemma append_empty (a : string) : a ++ "" = a.
Proof. induction a as [| ch a IH]; [reflexivity | cbn; rewrite IH; reflexivity]. Qed.

Lemma occurs_here pre sub post : Observe.occurs_in sub (pre ++ sub ++ post).
Proof. exists pre, post. reflexivity. Qed.

Lemma occurs_later pre sub s : Observe.occurs_in sub s -> Observe.occurs_in sub (pre ++ s).
Proof.
  intros [a [b ->]]. exists (pre ++ a), b.
  induction pre as [| c pre IH]; [reflexivity |].
  cbn. rewrite IH. reflexivity.
Qed.

Lemma occurs_at_end pre sub : Observe.occurs_in sub (pre ++ sub).
Proof.
  exists pre, "". f_equal. induction sub as [| c sub IH]; [reflexivity |].
  cbn. rewrite <- IH. reflexivity.
Qed.

Ltac occurs :=
  repeat first [ apply occurs_here | apply occurs_at_end | apply occurs_later ].

Section WithInterpreter.

Context {py : Interpreter}.

(** ** The number format of the popup *)

(** [format(x, ".6f")] of a finite number ends in a point and six
    digits. *)
Lemma format_6f_six_decimals x :
  is_finite x = true ->
  exists whole decimals,
    format_6f x = whole ++ "." ++ decimals
    /\ String.length decimals = 6%nat
    /\ forallb is_digit (list_ascii_of_string decimals) = true.
Proof.
  assert (Hd : forall z, is_digit (digit_char z) = true).
  { intros z. unfold digit_char.
    assert (H : (Z.to_nat (z mod 10) < 10)%nat).
    { pose proof (Z.mod_pos_bound z 10 ltac:(lia)). lia. }
    revert H. generalize (Z.to_nat (z mod 10)). intros n Hn.
    do 10 (destruct n as [| n]; [reflexivity |]). lia. }
  assert (Hs : forall z, String.length (six_digits z) = 6%nat
                         /\ forallb is_digit (list_ascii_of_string (six_digits z)) = true).
  { intros z. split; [reflexivity |].
    unfold six_digits. cbn [list_ascii_of_string forallb].
    rewrite !Hd. reflexivity. }
  assert (Happ : forall a b c : string, (a ++ b) ++ c = a ++ b ++ c).
  { intros a b c. induction a as [| ch a IH]; [reflexivity |].
    cbn. rewrite IH. reflexivity. }
  destruct x as [s | s | | s m e]; try discriminate; intros _; unfold format_6f.
  - exists (sign_text s ++ "0"), (six_digits 0). split; [| apply Hs].
    rewrite Happ. reflexivity.
  - destruct (ratio_of m e) as [num den].
    eexists (sign_text s ++ string_of_nonneg _), (six_digits _).
    split; [| apply Hs]. rewrite Happ. reflexivity.
Qed.


(** ** Popups *)

End WithInterpreter.

Section Witness.

Existing Instance Examples.cpython_3_11.

(** C8 as stated fails on islands2.py: the popup shows the two numbers as
    [str] prints them, not with six decimals.  For a place at
    (60.5, 25.5) the popup reads [Lat: 60.5] and [Lon: 25.5]; the
    six-decimal form [60.500000] of the latitude does not occur in it. *)
Lemma islands2_popup_not_six_decimals :
  Islands2.popup_text (Examples.located_at "A" "X" "n" "60.5" "25.5")
  = "A, X<br>n<br>Lat: 60.5<br>Lon: 25.5"
  /\ format_6f (Islands2.lat (Examples.located_at "A" "X" "n" "60.5" "25.5"))
     = "60.500000"
  /\ ~ Observe.occurs_in
         (format_6f (Islands2.lat (Examples.located_at "A" "X" "n" "60.5" "25.5")))
         (Islands2.popup_text (Examples.located_at "A" "X" "n" "60.5" "25.5"))
  /\ map (fun p => map (fun mk => Folium.html (Folium.popup mk))
                     (Folium.markers (snd p)))
       (Observe.saved
          (trace (Islands2.script_on (Examples.everywhere "60.5" "25.5")
                    [ {| Islands2.name := "A"; Islands2.city := "X";
                         Islands2.notes := "n" |} ])))
     = [["A, X<br>n<br>Lat: 60.5<br>Lon: 25.5"]].
Proof.
  split; [vm_compute; reflexivity |].
  split; [vm_compute; reflexivity |].
  split; [| vm_compute; reflexivity].
  intros H. apply occursb_complete in H. vm_compute in H. discriminate.
Qed.

End Witness.

Section WithInterpreter.

Context {py : Interpreter}.

Lemma create_map_popup (i : RecreationalIslands.Island) la lo :
  let text := RecreationalIslandsSpec.popup_text i la lo in
  Observe.occurs_in (RecreationalIslands.name i) text
  /\ Observe.occurs_in (RecreationalIslands.city i) text
  /\ Observe.occurs_in (RecreationalIslands.notes i) text
  /\ Observe.occurs_in (format_6f la) text
  /\ Observe.occurs_in (format_6f lo) text.
Proof.
  cbv zeta. unfold RecreationalIslandsSpec.popup_text.
  repeat split; occurs.
Qed.

(** C8, amended.  In [create_map] the popup of a place contains its name,
    its city, its notes, and its latitude and its longitude in the format
    [.6f], which for a finite number ends in a point and six digits; the
    marker with this popup is added to the map, unless its location holds
    a NaN, which [folium.Marker] refuses with [ValueError].  In islands2.py
    the popup contains the name, the city and the notes, and the two
    numbers as [str] prints them; in showislands.py it contains the text
    of the place and the two numbers as [str] prints them. *)
Theorem popup_contents :
  (forall S i la lo (m : Folium.Map) (s : S),
      RecreationalIslands.latitude i = Some la ->
      RecreationalIslands.longitude i = Some lo ->
      exists mk,
        RecreationalIslands.popup_html i s
        = Build_Run (Ok (Folium.html (Folium.popup mk))) s []
        /\ Folium.location mk = (la, lo)
        /\ (Folium.accepts (la, lo) = true ->
            RecreationalIslands.add_marker i m s
            = Build_Run (Ok (Folium.add_to mk m)) s [])
        /\ (Folium.accepts (la, lo) = false ->
            RecreationalIslands.add_marker i m s
            = Build_Run (Raise ValueError) s [])
        /\ Observe.occurs_in (RecreationalIslands.name i) (Folium.html (Folium.popup mk))
        /\ Observe.occurs_in (RecreationalIslands.city i) (Folium.html (Folium.popup mk))
        /\ Observe.occurs_in (RecreationalIslands.notes i) (Folium.html (Folium.popup mk))
        /\ Observe.occurs_in (format_6f la) (Folium.html (Folium.popup mk))
        /\ Observe.occurs_in (format_6f lo) (Folium.html (Folium.popup mk)))
  /\ (forall x,
         is_finite x = true ->
         exists whole decimals,
           format_6f x = whole ++ "." ++ decimals
           /\ String.length decimals = 6%nat
           /\ forallb is_digit (list_ascii_of_string decimals) = true)
  /\ (forall item,
         Observe.occurs_in (Islands2.name (Islands2.island item))
           (Folium.html (Folium.popup (Islands2.marker item)))
         /\ Observe.occurs_in (Islands2.city (Islands2.island item))
              (Folium.html (Folium.popup (Islands2.marker item)))
         /\ Observe.occurs_in (Islands2.notes (Islands2.island item))
              (Folium.html (Folium.popup (Islands2.marker item)))
         /\ Observe.occurs_in ("Lat: " ++ float_repr (Islands2.lat item))
              (Folium.html (Folium.popup (Islands2.marker item)))
         /\ Observe.occurs_in ("Lon: " ++ float_repr (Islands2.lon item))
              (Folium.html (Folium.popup (Islands2.marker item))))
  /\ (forall place la lo,
         Observe.occurs_in place
           (Folium.html (Folium.popup (ShowIslands.marker (place, (la, lo)))))
         /\ Observe.occurs_in ("Lat: " ++ float_repr la)
              (Folium.html (Folium.popup (ShowIslands.marker (place, (la, lo)))))
         /\ Observe.occurs_in ("Lon: " ++ float_repr lo)
              (Folium.html (Folium.popup (ShowIslands.marker (place, (la, lo)))))).
Proof.
  split; [| split; [| split]].
  - intros S i la lo m s Hla Hlo.
    exists (RecreationalIslandsSpec.marker_at i la lo).
    split; [apply (RecreationalIslandsFacts.popup_html_kept i la lo s Hla Hlo) |].
    split; [reflexivity |].
    rewrite (RecreationalIslandsFacts.add_marker_run i la lo m s Hla Hlo).
    unfold Folium.new_Marker.
    cbn [RecreationalIslandsSpec.marker_at Folium.location].
    split; [intros ->; reflexivity |].
    split; [intros ->; reflexivity |].
    apply create_map_popup.
  - apply format_6f_six_decimals.
  - intros item. cbn [Islands2.marker Folium.popup Folium.text_popup Folium.html].
    unfold Islands2.popup_text.
    split; [exists "", (", " ++ Islands2.city (Islands2.island item) ++ "<br>"
                        ++ Islands2.notes (Islands2.island item) ++ "<br>Lat: "
                        ++ float_repr (Islands2.lat item) ++ "<br>Lon: "
                        ++ float_repr (Islands2.lon item)); reflexivity |].
    split; [occurs |]. split; [occurs |].
    split.
    + exists (Islands2.name (Islands2.island item) ++ ", "
              ++ Islands2.city (Islands2.island item) ++ "<br>"
              ++ Islands2.notes (Islands2.island item) ++ "<br>"),
             ("<br>Lon: " ++ float_repr (Islands2.lon item)).
      rewrite !append_assoc. reflexivity.
    + exists (Islands2.name (Islands2.island item) ++ ", "
              ++ Islands2.city (Islands2.island item) ++ "<br>"
              ++ Islands2.notes (Islands2.island item) ++ "<br>Lat: "
              ++ float_repr (Islands2.lat item) ++ "<br>"),
             "".
      rewrite !append_assoc, append_empty. reflexivity.
  - intros place la lo.
    cbn [ShowIslands.marker Folium.popup Folium.text_popup Folium.html].
    split; [exists "", ("<br>Lat: " ++ float_repr la ++ "<br>Lon: " ++ float_repr lo);
            reflexivity |].
    split.
    + exists (place ++ "<br>"), ("<br>Lon: " ++ float_repr lo).
      rewrite !append_assoc. reflexivity.
    + exists (place ++ "<br>Lat: " ++ float_repr la ++ "<br>"), "".
      rewrite !append_assoc, append_empty. reflexivity.
Qed.

End WithInterpreter.

Section Witness.

Existing Instance Examples.cpython_3_11.

(** The popup of a place at (60.2, 25.4), added to the map of that place
    alone, and the format of 60.2. *)
Lemma popup_contents_witness :
  (exists mk,
      RecreationalIslands.add_marker (Examples.island_at "A" "X" "n" "60.2" "25.4")
        {| Folium.map_location := (Examples.number "60.2", Examples.number "25.4");
           Folium.zoom_start := 10;
           Folium.tiles := "OpenStreetMap";
           Folium.markers := [] |}
        tt
      = Build_Run
          (Ok (Folium.add_to mk
                 {| Folium.map_location :=
                      (Examples.number "60.2", Examples.number "25.4");
                    Folium.zoom_start := 10;
                    Folium.tiles := "OpenStreetMap";
                    Folium.markers := [] |}))
          tt []
      /\ Observe.occurs_in "A" (Folium.html (Folium.popup mk))
      /\ Observe.occurs_in "X" (Folium.html (Folium.popup mk))
      /\ Observe.occurs_in "n" (Folium.html (Folium.popup mk))
      /\ Observe.occurs_in (format_6f (Examples.number "60.2"))
           (Folium.html (Folium.popup mk))
      /\ Observe.occurs_in (format_6f (Examples.number "25.4"))
           (Folium.html (Folium.popup mk)))
  /\ (exists whole decimals,
         format_6f (Examples.number "60.2") = whole ++ "." ++ decimals
         /\ String.length decimals = 6%nat
         /\ forallb is_digit (list_ascii_of_string decimals) = true).
Proof.
  split.
  - destruct (proj1 popup_contents unit
                (Examples.island_at "A" "X" "n" "60.2" "25.4")
                (Examples.number "60.2") (Examples.number "25.4")
                {| Folium.map_location :=
                     (Examples.number "60.2", Examples.number "25.4");
                   Folium.zoom_start := 10;
                   Folium.tiles := "OpenStreetMap";
                   Folium.markers := [] |}
                tt eq_refl eq_refl)
      as [mk [_ [_ [Hadd [_ Hocc]]]]].
    exists mk. split; [apply Hadd; vm_compute; reflexivity | exact Hocc].
  - apply (proj1 (proj2 popup_contents) (Examples.number "60.2")).
    vm_compute. reflexivity.
Defined.

End Witness.

Section WithInterpreter.

Context {py : Interpreter}.

(** ** Markers *)



End WithInterpreter.

Section Witness.

Existing Instance Examples.cpython_3_11.


End Witness.

Section WithInterpreter.

Context {py : Interpreter}.


End WithInterpreter.

Section Witness.

Existing Instance Examples.cpython_3_11.


End Witness.

End Markers.

(* ===================================================================== *)
(** * Further properties of the geocoder *)
(* ===================================================================== *)

Module Geocoder.

Import Py Obj Eff EffFacts TraceFacts.
Import RecreationalIslands RecreationalIslandsSpec RecreationalIslandsFacts.

Section WithInterpreter.

Context {py : Interpreter}.

Lemma requests_quiet t : Observe.quiet t = true -> Observe.requests t = [].
Proof.
  induction t as [| ev t IH]; intros H; [reflexivity |].
  cbn in H. apply andb_prop in H as [Hev Ht].
  destruct ev; try discriminate; cbn; apply IH, Ht.
Qed.

Lemma requests_store result i : Observe.requests (trace (store result i)) = [].
Proof.
  unfold store. destruct (float_field result "lat"); [reflexivity |].
  destruct (float_field result "lon"); reflexivity.
Qed.

Lemma try_queries_requests service self qs (i : Island) :
  exists n,
    Observe.requests (trace (try_queries service self qs i))
    = firstn n (map (request self) qs).
Proof.
  induction qs as [| q rest IH]; [exists 0%nat; reflexivity |].
  destruct (geocode_run service self q) as [o [t [Hq Hg]]].
  rewrite (try_queries_step _ _ _ _ _ _ _ Hg).
  destruct o as [result | e].
  - destruct (truthy result).
    + exists 1%nat. cbn [trace Observe.requests outcome final].
      rewrite requests_app, (requests_quiet _ Hq), requests_store. reflexivity.
    + destruct IH as [n IH]. exists (S n).
      cbn [trace Observe.requests outcome final].
      rewrite requests_app, (requests_quiet _ Hq). cbn [app Observe.requests].
      rewrite IH. reflexivity.
  - exists 1%nat. cbn [trace Observe.requests].
    rewrite (requests_quiet _ Hq). reflexivity.
Qed.

(** X1.  Whatever the service does, a call of [find_coordinates] sends its
    requests for the query variants in their order, starting with the
    first and leaving none out: the requests are the first [n] of the three
    variant requests, each to the search address with the query, the JSON
    format, one result at most, the country code [fi], the user agent of
    the geocoder and a timeout of ten seconds. *)
Theorem find_coordinates_requests service self island :
  exists n,
    (n <= 3)%nat
    /\ Observe.requests (trace (find_coordinates service self island))
       = firstn n
           [ request self (name island ++ ", " ++ city island ++ ", Finland");
             request self (name island ++ ", " ++ city island);
             request self (name island ++ " Finland") ]
    /\ Forall (fun rq =>
                 Wire.url rq = "https://nominatim.openstreetmap.org/search"
                 /\ Wire.user_agent rq = user_agent self
                 /\ Wire.timeout rq = 10
                 /\ exists q,
                      Wire.params rq
                      = [("q", q); ("format", "json"); ("limit", "1");
                         ("countrycodes", "fi")])
         (Observe.requests (trace (find_coordinates service self island))).
Proof.
  rewrite find_coordinates_unfold.
  destruct (try_queries_requests service self (queries island) island) as [n Hn].
  exists (Nat.min n 3). split; [apply Nat.le_min_r |].
  assert (E : firstn n (map (request self) (queries island))
              = firstn (Nat.min n 3) (map (request self) (queries island))).
  { unfold queries. cbn [map].
    do 4 (destruct n as [| n]; [reflexivity |]). cbn. destruct n; reflexivity. }
  rewrite Hn, E. split; [reflexivity |].
  apply Forall_forall. intros rq Hin.
  assert (Hin' : In rq (map (request self) (queries island))).
  { rewrite <- (firstn_skipn (Nat.min n 3)). apply in_or_app. left. exact Hin. }
  apply in_map_iff in Hin' as [q [<- _]].
  repeat split. exists q. reflexivity.
Qed.

(** X2.  Inside one call of [find_coordinates] the requests are paced,
    whatever the service does: every request after the first comes after a
    sleep of one second. *)
Theorem find_coordinates_paced service self island :
  Observe.paced 1 (trace (find_coordinates service self island)) = true.
Proof.
  rewrite find_coordinates_unfold. unfold Observe.paced.
  assert (H : forall e, match e with None => True | Some z => 1 <= z end ->
                        Observe.paced_since 1 e
                          (trace (try_queries service self (queries island) island))
                        = true).
  { apply (try_queries_runs
             (fun _ r => forall e, match e with None => True | Some z => 1 <= z end ->
                                   Observe.paced_since 1 e (trace r) = true)).
    - reflexivity.
    - intros i rq text t e Hq e' He'. cbn [trace Observe.paced_since].
      rewrite (paced_since_no_requests _ _ _ (requests_quiet _ Hq)), andb_true_r.
      destruct e' as [z |]; [apply Z.leb_le, He' | reflexivity].
    - intros i rq text t result Hq _ e' He'. cbn [trace Observe.paced_since].
      rewrite paced_since_no_requests
        by (rewrite requests_app, (requests_quiet _ Hq), requests_store; reflexivity).
      rewrite andb_true_r.
      destruct e' as [z |]; [apply Z.leb_le, He' | reflexivity].
    - intros i rq text t r Hq IH e' He'. cbn [trace Observe.paced_since].
      rewrite (paced_since_quiet _ _ _ _ Hq). cbn [Observe.paced_since option_map].
      rewrite IH by (cbn; lia). rewrite andb_true_r.
      destruct e' as [z |]; [apply Z.leb_le, He' | reflexivity]. }
  apply H. exact I.
Qed.


(** X3.  [geocode] sends exactly one request and touches no state,
    whatever the reply.  For a transport failure, an error status or a
    body that is not JSON it prints the error and returns [None].  For a
    body that is false as a condition, which an empty list, [null], an
    empty object, zero and an empty string all are, it returns [None] and
    prints nothing.  For any other body it prints nothing and goes on to
    [results[0]]: the first element of a list that is not empty, which it
    returns; for an object or a number, an exception that is no
    [RequestException] and leaves [geocode]. *)
Theorem geocode_results :
  (forall S service self query (s : S),
      final (geocode service self query s) = s
      /\ Observe.requests (trace (geocode service self query s))
         = [request self query]
      /\ Observe.sleeps (trace (geocode service self query s)) = [])
  /\ (forall S service self query (s : S),
         Mock.no_match (service (request self query)) = true ->
         outcome (geocode service self query s) = Ok VNone
         /\ trace (geocode service self query s)
            = HttpGet (request self query)
                :: report query (service (request self query)))
  /\ (forall S service self query (s : S) m,
         Mock.first_match (service (request self query)) = Some m ->
         outcome (geocode service self query s) = Ok m
         /\ trace (geocode service self query s) = [HttpGet (request self query)])
  /\ (forall S service self query (s : S) a v,
         service (request self query) = Wire.Answers a ->
         Mock.error_status a = false ->
         Wire.body a = Some v ->
         trace (geocode service self query s) = [HttpGet (request self query)]
         /\ (truthy v = false -> outcome (geocode service self query s) = Ok VNone)
         /\ (truthy v = true ->
             match getitem_0 v with
             | inr x => outcome (geocode service self query s) = Ok x
             | inl e => outcome (geocode service self query s) = Raise e
                        /\ is_RequestException e = false
             end)).
Proof.
  split; [| split; [| split]].
  - intros S service self query s.
    destruct (geocode_run service self query) as [o [t [Hq Hg]]].
    rewrite Hg. cbn [final trace Observe.requests Observe.sleeps].
    rewrite (requests_quiet _ Hq). repeat split.
    clear Hg. induction t as [| ev t IH]; [reflexivity |].
    cbn in Hq. apply andb_prop in Hq as [Hev Ht].
    destruct ev; try discriminate; cbn; apply IH, Ht.
  - intros S service self query s H.
    rewrite (geocode_no_match _ _ _ _ H). split; reflexivity.
  - intros S service self query s m H.
    rewrite (geocode_first_match _ _ _ _ _ H). split; reflexivity.
  - intros S service self query s a v Hrq Hst Hbody.
    unfold geocode, try_except, Requests.get, bind.
    fold (request self query). rewrite Hrq. cbn.
    unfold Requests.raise_for_status. fold (Mock.error_status a).
    rewrite Hst. cbn. unfold Requests.json. rewrite Hbody. cbn.
    destruct (truthy v) eqn:Hv; cbn.
    + destruct (getitem_0 v) as [e | x] eqn:Hg; cbn.
      * assert (He : is_RequestException e = false).
        { destruct v as [ | | | | str | l | d ]; cbn in Hg;
            try (injection Hg as <-; reflexivity).
          - destruct str; [injection Hg as <-; reflexivity | discriminate].
          - destruct l; [injection Hg as <-; reflexivity | discriminate]. }
        rewrite He. cbn. split; [reflexivity |].
        split; [discriminate | intros _; split; reflexivity].
      * split; [reflexivity |]. split; [discriminate | intros _; reflexivity].
    + split; [reflexivity |]. split; [intros _; reflexivity | discriminate].
Qed.

End WithInterpreter.

Section Witness.

Existing Instance Examples.cpython_3_11.

(** A timeout; a reply with one match; and the bodies [null] and [{}],
    which bring [None] like an empty list. *)
Lemma geocode_results_witness :
  (outcome (geocode (fun _ => Wire.Fails Timeout) NominatimGeocoder_init "A, X" tt)
   = Ok VNone
   /\ trace (geocode (fun _ => Wire.Fails Timeout) NominatimGeocoder_init "A, X" tt)
      = HttpGet (request NominatimGeocoder_init "A, X")
          :: report "A, X" (Wire.Fails Timeout))
  /\ (outcome (geocode (Examples.everywhere "60.2" "25.4")
                 NominatimGeocoder_init "A, X" tt)
      = Ok (VDict [("lat", VStr "60.2"); ("lon", VStr "25.4")])
      /\ trace (geocode (Examples.everywhere "60.2" "25.4")
                  NominatimGeocoder_init "A, X" tt)
         = [HttpGet (request NominatimGeocoder_init "A, X")])
  /\ outcome (geocode (fun _ => Mock.ok_reply VNone)
                NominatimGeocoder_init "A, X" tt)
     = Ok VNone
  /\ outcome (geocode (fun _ => Mock.ok_reply (VDict []))
                NominatimGeocoder_init "A, X" tt)
     = Ok VNone.
Proof.
  split; [| split; [| split]].
  - apply (proj1 (proj2 geocode_results) unit (fun _ => Wire.Fails Timeout)
             NominatimGeocoder_init "A, X" tt).
    reflexivity.
  - apply (proj1 (proj2 (proj2 geocode_results)) unit
             (Examples.everywhere "60.2" "25.4")
             NominatimGeocoder_init "A, X" tt).
    reflexivity.
  - apply (proj2 (proj2 (proj2 geocode_results)) unit
             (fun _ => Mock.ok_reply VNone) NominatimGeocoder_init "A, X" tt
             {| Wire.status_code := 200; Wire.body := Some VNone |} VNone
             eq_refl eq_refl eq_refl).
    reflexivity.
  - apply (proj2 (proj2 (proj2 geocode_results)) unit
             (fun _ => Mock.ok_reply (VDict [])) NominatimGeocoder_init "A, X" tt
             {| Wire.status_code := 200; Wire.body := Some (VDict []) |} (VDict [])
             eq_refl eq_refl eq_refl).
    reflexivity.
Defined.

End Witness.

End Geocoder.

(* ===================================================================== *)
(** * Further properties of [main] and [create_map] *)
(* ===================================================================== *)

Module MainProgram.

Import Py Obj Eff EffFacts TraceFacts.
Import RecreationalIslands RecreationalIslandsSpec RecreationalIslandsFacts.

Section WithInterpreter.

Context {py : Interpreter}.

(** ** [Island.__str__] *)


End WithInterpreter.

Section Witness.

Existing Instance Examples.cpython_3_11.


End Witness.

Section WithInterpreter.

Context {py : Interpreter}.

(** ** [create_map] *)



(** ** The loop of [main] *)

Lemma store_identity result i : identity (final (store result i)) = identity i.
Proof.
  unfold store. destruct (float_field result "lat"); [reflexivity |].
  destruct (float_field result "lon"); reflexivity.
Qed.

Lemma find_coordinates_identity service self i :
  identity (final (find_coordinates service self i)) = identity i.
Proof.
  rewrite find_coordinates_unfold.
  apply (try_queries_runs (fun i r => identity (final r) = identity i)).
  - reflexivity.
  - reflexivity.
  - intros. cbn [final]. apply store_identity.
  - intros. cbn [final]. assumption.
Qed.

Lemma find_all_identity service self total :
  forall islands n found,
    map identity (final (find_all service self total n found islands))
    = map identity islands.
Proof.
  induction islands as [| i rest IH]; intros n found; [reflexivity |].
  cbn [find_all]. rewrite visit_run. cbn [outcome final trace].
  destruct (outcome (find_coordinates service self i)) as [b | e];
    cbn [final map]; rewrite find_coordinates_identity, ?IH; reflexivity.
Qed.

Lemma find_all_length service self total islands n found :
  List.length (final (find_all service self total n found islands))
  = List.length islands.
Proof.
  rewrite <- (length_map identity), find_all_identity, length_map. reflexivity.
Qed.

(** X6.  No run of [main], finished or cut short by an exception, adds,
    removes or reorders islands or changes a name, a city or the notes:
    only latitudes and longitudes change. *)
Theorem main_keeps_the_catalog service islands :
  List.length (final (main_on service islands)) = List.length islands
  /\ map name (final (main_on service islands)) = map name islands
  /\ map city (final (main_on service islands)) = map city islands
  /\ map notes (final (main_on service islands)) = map notes islands.
Proof.
  rewrite final_main_on.
  pose proof (find_all_identity service NominatimGeocoder_init
                (List.length islands) islands 1%nat 0%nat) as H.
  set (f := final _) in *. clearbody f.
  revert islands H. induction f as [| a f IH]; intros [| b islands] H;
    try discriminate; [repeat split |].
  cbn [map] in H. injection H as Hn Hc Ht H.
  destruct (IH islands H) as [IH1 [IH2 [IH3 IH4]]].
  cbn [map List.length]. rewrite IH1, IH2, IH3, IH4, Hn, Hc, Ht.
  repeat split.
Qed.


(** ** The count of [main] *)

Lemma fresh_has_no_latitude i : fresh i = true -> has_latitude i = false.
Proof.
  unfold fresh, has_latitude. destruct (latitude i); [discriminate | reflexivity].
Qed.

Lemma find_coordinates_fresh service self i :
  fresh i = true ->
  forall b,
    outcome (find_coordinates service self i) = Ok b ->
    has_latitude (final (find_coordinates service self i)) = b.
Proof.
  intros Hf b Ho. pose proof (find_coordinates_returns service self i) as H.
  rewrite Ho in H. destruct b.
  - destruct H as [la [lo H]]. rewrite H. reflexivity.
  - rewrite H. apply fresh_has_no_latitude, Hf.
Qed.

Lemma find_all_count service self total :
  forall islands n found count,
    forallb fresh islands = true ->
    outcome (find_all service self total n found islands) = Ok count ->
    count
    = (found
       + List.length
           (filter has_latitude
              (final (find_all service self total n found islands))))%nat.
Proof.
  induction islands as [| i rest IH]; intros n found count Hf Ho.
  - cbn in Ho. injection Ho as <-. cbn. lia.
  - cbn in Hf. apply andb_prop in Hf as [Hi Hrest].
    revert Ho. cbn [find_all]. rewrite visit_run. cbn [outcome final trace].
    pose proof (find_coordinates_fresh service self i Hi) as Hb.
    destruct (outcome (find_coordinates service self i)) as [b | e];
      cbn [outcome final]; [| discriminate].
    intros Ho. rewrite (IH _ _ _ Hrest Ho). cbn [filter].
    rewrite (Hb b eq_refl). destruct b; cbn [List.length]; lia.
Qed.

Lemma markers_at_most_latitudes islands :
  (List.length (flat_map marker_of islands)
   <= List.length (filter has_latitude islands))%nat.
Proof.
  induction islands as [| i rest IH]; [reflexivity |].
  cbn [flat_map filter]. rewrite length_app.
  unfold marker_of at 1. unfold has_latitude at 1.
  destruct (latitude i) as [la |]; [| exact IH].
  destruct (longitude i) as [lo |]; [| cbn; lia].
  destruct (float_truthy la && float_truthy lo); cbn; lia.
Qed.

(** X7.  In a run of [main] that ends normally, over islands that had no
    coordinate at the start, the count printed in the last line of the
    results is the number of islands whose latitude is set at the end; it
    is at most the number of islands, and the map never has more markers
    than this count says (it has fewer when a coordinate is zero). *)
Theorem main_count service islands :
  forallb fresh islands = true ->
  outcome (main_on service islands) = Ok tt ->
  exists count,
    In (Print (tally count (List.length islands))) (trace (main_on service islands))
    /\ count = List.length (filter has_latitude (final (main_on service islands)))
    /\ (count <= List.length islands)%nat
    /\ (List.length (flat_map marker_of (final (main_on service islands)))
        <= count)%nat.
Proof.
  intros Hf.
  pose proof (find_all_length service NominatimGeocoder_init
                (List.length islands) islands 1%nat 0%nat) as Hlen.
  revert Hlen. rewrite (main_on_run service islands). cbv zeta.
  pose proof (find_all_count service NominatimGeocoder_init
                (List.length islands) islands 1%nat 0%nat) as Hc.
  destruct (find_all service NominatimGeocoder_init (List.length islands) 1 0 islands)
    as [[found | e] f t]; cbn [outcome final trace] in *; [| discriminate].
  intros Hlen _. exists found.
  specialize (Hc found Hf eq_refl). cbn in Hc.
  split; [| split; [exact Hc | split]].
  - apply in_or_app. right. apply in_or_app. right. apply in_or_app. left.
    unfold results. apply in_or_app. right. apply in_or_app. right.
    left. unfold tally. rewrite Hlen. reflexivity.
  - rewrite Hc, <- Hlen. apply filter_length_le.
  - rewrite Hc. apply markers_at_most_latitudes.
Qed.

End WithInterpreter.

Section Witness.

Existing Instance Examples.cpython_3_11.

(** A run over two islands of which one is found. *)
Lemma main_count_witness :
  exists count,
    In (Print (tally count 2))
      (trace (main_on (Examples.table_service [("A, X", Mock.found "61.0" "24.0")])
                [Island_init "A" "X" "a"; Island_init "B" "Y" "b"]))
    /\ count
       = List.length
           (filter has_latitude
              (final (main_on
                        (Examples.table_service [("A, X", Mock.found "61.0" "24.0")])
                        [Island_init "A" "X" "a"; Island_init "B" "Y" "b"])))
    /\ (count <= 2)%nat
    /\ (List.length
          (flat_map marker_of
             (final (main_on
                       (Examples.table_service [("A, X", Mock.found "61.0" "24.0")])
                       [Island_init "A" "X" "a"; Island_init "B" "Y" "b"])))
        <= count)%nat.
Proof.
  apply (main_count (Examples.table_service [("A, X", Mock.found "61.0" "24.0")])
           [Island_init "A" "X" "a"; Island_init "B" "Y" "b"]).
  - reflexivity.
  - vm_compute. reflexivity.
Defined.

End Witness.

Section WithInterpreter.

Context {py : Interpreter}.

(** ** The file [main] writes *)

(** X8.  A run of [main] writes at most one file,
    [recreational_islands_map.html], and only when its loop over the
    islands ran to the end and counted at least one island found; a run
    cut short by an exception writes nothing.  The map written is the map
    of the islands as the loop left them. *)
Theorem main_writes_one_map service islands :
  (Observe.saved (trace (main_on service islands)) = []
   \/ Observe.saved (trace (main_on service islands))
      = [("recreational_islands_map.html", the_map (final (main_on service islands)))]
      /\ outcome (main_on service islands) = Ok tt
      /\ exists count,
           outcome (find_all service NominatimGeocoder_init
                      (List.length islands) 1 0 islands) = Ok (S count))
  /\ (forall e, outcome (main_on service islands) = Raise e ->
                Observe.saved (trace (main_on service islands)) = []).
Proof.
  rewrite (main_on_run service islands). cbv zeta.
  pose proof (saved_find_all service NominatimGeocoder_init
                (List.length islands) islands 1%nat 0%nat) as Hs.
  destruct (find_all service NominatimGeocoder_init (List.length islands) 1 0 islands)
    as [[found | e] f t]; cbn [outcome final trace] in *.
  - rewrite !saved_app, Hs, MapBuild.saved_results. cbn [app].
    unfold map_part, map_outcome.
    destruct found as [| found]; [split; [left; reflexivity | discriminate] |].
    cbn [Nat.ltb Nat.leb]. rewrite saved_app. cbn [Observe.saved app].
    unfold create_trace, create_outcome.
    destruct (filter has_coordinates f);
      [split; [left; reflexivity | discriminate] |].
    destruct (Folium.accepts (centre f)).
    + split; [| discriminate].
      right. split; [reflexivity |]. split; [reflexivity |].
      exists found. reflexivity.
    + split; [left; reflexivity | intros e' _; reflexivity].
  - split; [left | intros e' _]; rewrite saved_app, Hs; reflexivity.
Qed.

End WithInterpreter.

Section Witness.

Existing Instance Examples.cpython_3_11.

(** A run that a match without coordinate cuts short writes no map. *)
Lemma main_writes_one_map_witness :
  Observe.saved
    (trace (main_on Examples.match_without_coordinate [Island_init "A" "X" "a"]))
  = [].
Proof.
  eapply (proj2 (main_writes_one_map Examples.match_without_coordinate
                   [Island_init "A" "X" "a"])).
  vm_compute. reflexivity.
Defined.

End Witness.

Section WithInterpreter.

Context {py : Interpreter}.

(** ** How [main] ends *)

(** X14.  A run of [main] ends in one of three ways.  An exception of the
    loop over the islands ends the run as it is.  When the loop runs to
    its end the results are printed, with the count of the islands found,
    and then the run ends normally, or by the [ValueError] of
    [folium.Map]: this happens exactly when the count is not zero, an
    island has both coordinates set and other than zero, and a mean of
    the coordinates kept is a NaN, as after a reply whose latitude is the
    text [nan]; no file is written then. *)
Theorem main_outcomes service islands :
  let loop := find_all service NominatimGeocoder_init (List.length islands) 1 0
                islands in
  let r := main_on service islands in
  (forall e, outcome loop = Raise e -> outcome r = Raise e)
  /\ (forall found,
         outcome loop = Ok found ->
         In (Print (tally found (List.length islands))) (trace r)
         /\ (outcome r = Ok tt \/ outcome r = Raise ValueError)
         /\ (outcome r = Raise ValueError
             <-> (0 < found)%nat
                 /\ located (final r) <> []
                 /\ Folium.accepts (centre (final r)) = false)
         /\ (outcome r = Raise ValueError ->
             Observe.saved (trace r) = []
             /\ In (Print "CREATING MAP") (trace r))).
Proof.
  intros loop r. subst loop r.
  pose proof (find_all_length service NominatimGeocoder_init
                (List.length islands) islands 1%nat 0%nat) as Hlen.
  pose proof (saved_find_all service NominatimGeocoder_init
                (List.length islands) islands 1%nat 0%nat) as Hs.
  rewrite (main_on_run service islands). cbv zeta.
  destruct (find_all service NominatimGeocoder_init (List.length islands) 1 0 islands)
    as [[found | e] f t]; cbn [outcome final trace] in *.
  - split; [discriminate |]. intros found' H. injection H as <-.
    split.
    { apply in_or_app. right. apply in_or_app. right. apply in_or_app. left.
      unfold results. apply in_or_app. right. apply in_or_app. right.
      left. unfold tally. rewrite Hlen. reflexivity. }
    rewrite !saved_app, Hs, MapBuild.saved_results. cbn [app].
    unfold map_outcome, map_part.
    destruct found as [| found]; cbn [Nat.ltb Nat.leb].
    { split; [left; reflexivity |].
      split; [split; [discriminate | intros [H _]; inversion H] | discriminate]. }
    pose proof (MapBuild.located_nil_iff f) as Hnil.
    unfold create_outcome, create_trace.
    destruct (filter has_coordinates f) as [| i kept].
    { split; [left; reflexivity |].
      split; [| discriminate].
      split; [discriminate |].
      intros [_ [H _]]. contradiction H. apply Hnil. reflexivity. }
    assert (Hne : located f <> []).
    { intros H. apply Hnil in H. discriminate H. }
    destruct (Folium.accepts (centre f)).
    + split; [left; reflexivity |].
      split; [split; [discriminate | intros [_ [_ H]]; discriminate H] |].
      discriminate.
    + split; [right; reflexivity |].
      split; [split; [intros _; repeat split; [lia | exact Hne] | reflexivity] |].
      intros _. split; [reflexivity |].
      apply in_or_app. right. apply in_or_app. right. apply in_or_app. right.
      right. left. reflexivity.
  - split; [intros e' H; injection H as <-; reflexivity | discriminate].
Qed.

End WithInterpreter.

Section Witness.

Existing Instance Examples.cpython_3_11.

(** A service that gives the text [nan] as latitude: the island is found,
    the count is one, and [main] ends by [ValueError] without a map. *)
Lemma main_outcomes_witness :
  outcome (main_on (Examples.everywhere "nan" "25.0") [Island_init "A" "X" "a"])
  = Raise ValueError
  /\ Observe.saved
       (trace (main_on (Examples.everywhere "nan" "25.0") [Island_init "A" "X" "a"]))
     = [].
Proof.
  destruct (proj2 (main_outcomes (Examples.everywhere "nan" "25.0")
                     [Island_init "A" "X" "a"]) 1%nat
              ltac:(vm_compute; reflexivity))
    as [_ [_ [Hiff Hsaved]]].
  assert (H : outcome (main_on (Examples.everywhere "nan" "25.0")
                         [Island_init "A" "X" "a"]) = Raise ValueError).
  { apply Hiff. split; [lia |]. split; [vm_compute; discriminate |].
    vm_compute. reflexivity. }
  split; [exact H | apply Hsaved, H].
Defined.

End Witness.

End MainProgram.

(* ===================================================================== *)
(** * Further properties of islands2.py and showislands.py *)
(* ===================================================================== *)

Module Scripts.

Import Py Obj Eff EffFacts TraceFacts.

Section WithInterpreter.

Context {py : Interpreter}.

(** ** islands2.py *)

(** X9.  [get_coordinates] of islands2.py never raises: whatever the
    reply, it sends one request, and returns either both numbers or
    [(None, None)], never one number alone. *)
Theorem islands2_get_coordinates_total :
  forall S service (i : Islands2.Island) (s : S),
    let r := Islands2.get_coordinates service (Islands2.name i) (Islands2.city i) s in
    exists a b,
      outcome r = Ok (a, b)
      /\ (a = None <-> b = None)
      /\ final r = s
      /\ Observe.requests (trace r) = [Islands2Spec.request i]
      /\ Observe.sleeps (trace r) = [].
Proof.
  intros S service i s r. subst r.
  destruct (Islands2Facts.islands2_get_coordinates_run service i s) as [t [-> Ht]].
  cbn [outcome final trace]. unfold Mock.answer_of.
  assert (Hq : Observe.requests (HttpGet (Islands2Spec.request i) :: t)
               = [Islands2Spec.request i]
               /\ Observe.sleeps (HttpGet (Islands2Spec.request i) :: t) = []).
  { destruct Ht as [-> | [text [e ->]]]; split; reflexivity. }
  destruct (Mock.coordinate_of (service (Islands2Spec.request i))) as [[la lo] |].
  - exists (Some la), (Some lo). split; [reflexivity |].
    split; [split; discriminate |]. split; [reflexivity | exact Hq].
  - exists None, None. split; [reflexivity |].
    split; [split; reflexivity |]. split; [reflexivity | exact Hq].
Qed.


Lemma sleeps_app t u :
  Observe.sleeps (t ++ u) = (Observe.sleeps t ++ Observe.sleeps u)%list.
Proof.
  induction t as [| ev t IH]; [reflexivity |].
  destruct ev; cbn; rewrite ?IH; reflexivity.
Qed.


(** ** showislands.py *)

(** X11.  [get_coordinates] of showislands.py sends one request and
    leaves the dictionary alone.  When it returns, it returns both
    numbers or [(None, None)].  A [RequestException] met while the reply
    is read is printed and turned into [(None, None)].  When the call
    raises, the exception is what reading the reply raised, and it is not
    a [RequestException]. *)
Theorem showislands_get_coordinates_outcomes :
  forall S service place (s : S),
    let r := ShowIslands.get_coordinates service place s in
    final r = s
    /\ Observe.requests (trace r) = [ShowIslandsSpec.request place]
    /\ Observe.sleeps (trace r) = []
    /\ (forall a b, outcome r = Ok (a, b) -> (a = None <-> b = None))
    /\ (forall e,
           Mock.parse (service (ShowIslandsSpec.request place)) = Raise e ->
           is_RequestException e = true ->
           outcome r = Ok (None, None)
           /\ In (PrintError ("Error fetching coordinates for " ++ place ++ ": ") e)
                (trace r))
    /\ (forall e,
           outcome r = Raise e ->
           is_RequestException e = false
           /\ Mock.parse (service (ShowIslandsSpec.request place)) = Raise e).
Proof.
  intros S service place s r. subst r.
  rewrite ShowIslandsFacts.showislands_get_coordinates_run.
  pose proof (ShowIslandsFacts.parse_answer (service (ShowIslandsSpec.request place)))
    as Hp.
  destruct (Mock.parse (service (ShowIslandsSpec.request place))) as [v | e].
  - cbn [outcome final trace]. do 3 (split; [reflexivity |]).
    subst v. unfold Mock.answer_of.
    split; [| split; intros e; discriminate].
    intros a b H.
    destruct (Mock.coordinate_of (service (ShowIslandsSpec.request place)))
      as [[la lo] |]; injection H as Ea Eb; subst a b; split;
      first [discriminate | reflexivity].
  - destruct (is_RequestException e) eqn:He; cbn [outcome final trace].
    + do 3 (split; [reflexivity |]).
      split; [intros a b H; injection H as Ea Eb; subst a b; split; reflexivity |].
      split; [| intros e'; discriminate].
      intros e' H _. injection H as E. rewrite <- E.
      split; [reflexivity | right; left; reflexivity].
    + do 3 (split; [reflexivity |]).
      split; [intros a b; discriminate |].
      split.
      * intros e' H H'. injection H as E. rewrite <- E in H'. congruence.
      * intros e' H. injection H as E. rewrite <- E. split; [exact He | reflexivity].
Qed.

End WithInterpreter.

Section Witness.

Existing Instance Examples.cpython_3_11.

(** A timeout is reported and gives [(None, None)]. *)
Lemma showislands_get_coordinates_outcomes_witness :
  outcome (ShowIslands.get_coordinates (fun _ => Wire.Fails Timeout) "A" tt)
  = Ok (None, None)
  /\ In (PrintError "Error fetching coordinates for A: " (RequestException Timeout))
       (trace (ShowIslands.get_coordinates (fun _ => Wire.Fails Timeout) "A" tt)).
Proof.
  apply (proj1 (proj2 (proj2 (proj2 (proj2
           (showislands_get_coordinates_outcomes unit
              (fun _ => Wire.Fails Timeout) "A" tt)))))
           (RequestException Timeout));
    reflexivity.
Defined.

End Witness.

Section WithInterpreter.

Context {py : Interpreter}.

Lemma requests_turn rq u rest :
  Observe.quiet u = true ->
  Observe.requests (HttpGet rq :: u ++ Sleep 1 :: rest) = rq :: Observe.requests rest.
Proof.
  intros Hu. cbn [Observe.requests]. rewrite requests_app.
  rewrite (Geocoder.requests_quiet _ Hu). reflexivity.
Qed.

(** The requests of the loop are those of the first places, one each; all
    of them when the loop ends normally. *)
Lemma resolve_requests service todo d :
  let r := ShowIslands.resolve service todo d in
  exists n,
    (n <= List.length todo)%nat
    /\ Observe.requests (trace r) = map ShowIslandsSpec.request (firstn n todo)
    /\ (outcome r = Ok tt -> n = List.length todo)
    /\ (forall e, outcome r = Raise e -> (0 < n)%nat /\ is_RequestException e = false).
Proof.
  cbv zeta.
  apply (ShowIslandsFacts.resolve_runs_over service
           (fun todo _ r =>
              exists n,
                (n <= List.length todo)%nat
                /\ Observe.requests (trace r)
                   = map ShowIslandsSpec.request (firstn n todo)
                /\ (outcome r = Ok tt -> n = List.length todo)
                /\ (forall e, outcome r = Raise e
                              -> (0 < n)%nat /\ is_RequestException e = false))).
  - intros d0. exists 0%nat. cbn. repeat split; try lia; discriminate.
  - intros place rest d0 e He. exists 1%nat. cbn [List.length firstn map trace outcome].
    split; [lia |]. split; [reflexivity |]. split; [discriminate |].
    intros e' H. injection H as <-. split; [lia | exact He].
  - intros place rest d0 c u r Hu _ [n [Hn [Hr [Hok Hex]]]].
    exists (S n). cbn [List.length firstn map trace outcome].
    split; [lia |]. split; [rewrite (requests_turn _ _ _ Hu), Hr; reflexivity |].
    split; [intros H; rewrite (Hok H); reflexivity |].
    intros e H. split; [lia | apply (Hex e H)].
  - intros place rest d0 u r Hu _ [n [Hn [Hr [Hok Hex]]]].
    exists (S n). cbn [List.length firstn map trace outcome].
    split; [lia |]. split; [rewrite (requests_turn _ _ _ Hu), Hr; reflexivity |].
    split; [intros H; rewrite (Hok H); reflexivity |].
    intros e H. split; [lia | apply (Hex e H)].
Qed.

(** The loop is paced whatever came before it, also when it is cut
    short. *)
Lemma resolve_paced service todo d :
  forall e, match e with None => True | Some z => 1 <= z end ->
    Observe.paced_since 1 e (trace (ShowIslands.resolve service todo d)) = true.
Proof.
  apply (ShowIslandsFacts.resolve_runs service
           (fun _ r =>
              forall e, match e with None => True | Some z => 1 <= z end ->
                Observe.paced_since 1 e (trace r) = true)).
  - reflexivity.
  - intros d0 rq e0 e He. cbn. destruct e as [z |]; [| reflexivity].
    rewrite andb_true_r. apply Z.leb_le, He.
  - intros d0 place c rq u r Hu _ IH e He. cbn [trace Observe.paced_since].
    rewrite (paced_since_quiet _ _ _ _ Hu). cbn [Observe.paced_since option_map].
    rewrite (IH (Some (1 + 0)) ltac:(cbn; lia)).
    destruct e as [z |]; [| reflexivity].
    rewrite andb_true_r. apply Z.leb_le, He.
  - intros d0 rq u r Hu IH e He. cbn [trace Observe.paced_since].
    rewrite (paced_since_quiet _ _ _ _ Hu). cbn [Observe.paced_since option_map].
    rewrite (IH (Some (1 + 0)) ltac:(cbn; lia)).
    destruct e as [z |]; [| reflexivity].
    rewrite andb_true_r. apply Z.leb_le, He.
Qed.

Lemma dict_set_in place c d : In (place, c) (ShowIslands.dict_set place c d).
Proof.
  induction d as [| [k' v'] d IH]; cbn; [left; reflexivity |].
  destruct (String.eqb k' place); [left; reflexivity | right; exact IH].
Qed.

Lemma dict_set_keeps k v place c d :
  In (k, v) d -> In (k, v) (ShowIslands.dict_set place c d) \/ k = place.
Proof.
  induction d as [| [k' v'] d IH]; cbn; [intros [] |].
  destruct (String.eqb k' place) eqn:E.
  - intros [H | H].
    + right. injection H as <- _. apply String.eqb_eq, E.
    + left. right. exact H.
  - intros [H | H]; [left; left; exact H |].
    destruct (IH H) as [Hin | Hk]; [left; right; exact Hin | right; exact Hk].
Qed.

(** The dictionary a completed loop leaves: what it held, and every place
    of the list that resolves, under the coordinate kept for it. *)
Lemma resolve_complete service todo d :
  let r := ShowIslands.resolve service todo d in
  outcome r = Ok tt ->
  (forall k v, In (k, v) d -> ShowIslandsSpec.lookup service k = Some v) ->
  forall k v,
    In (k, v) d \/ (In k todo /\ ShowIslandsSpec.lookup service k = Some v) ->
    In (k, v) (final r).
Proof.
  cbv zeta.
  apply (ShowIslandsFacts.resolve_runs_over service
           (fun todo d r =>
              outcome r = Ok tt ->
              (forall k v, In (k, v) d -> ShowIslandsSpec.lookup service k = Some v) ->
              forall k v,
                In (k, v) d
                \/ (In k todo /\ ShowIslandsSpec.lookup service k = Some v) ->
                In (k, v) (final r))).
  - intros d0 _ _ k v [H | [[] _]]. exact H.
  - intros place rest d0 e _ H. discriminate H.
  - intros place rest d0 c u r _ Hl IH Hok Hinv k v H. cbn [outcome final] in *.
    assert (Hinv' : forall k v, In (k, v) (ShowIslands.dict_set place c d0) ->
                                ShowIslandsSpec.lookup service k = Some v).
    { intros k0 v0 H0.
      destruct (ShowIslandsFacts.in_dict_set _ _ _ _ _ H0) as [E | Hd];
        [injection E as -> ->; exact Hl | apply Hinv, Hd]. }
    assert (Hhere : forall v0, ShowIslandsSpec.lookup service place = Some v0 ->
                               In (place, v0) (ShowIslands.dict_set place c d0)).
    { intros v0 H0. rewrite Hl in H0. injection H0 as <-. apply dict_set_in. }
    apply (IH Hok Hinv').
    destruct H as [Hd | [[<- | Hin] Hk]].
    + destruct (dict_set_keeps _ _ place c _ Hd) as [Hin | ->];
        [left; exact Hin |].
      left. apply Hhere, Hinv, Hd.
    + left. apply Hhere, Hk.
    + right. split; assumption.
  - intros place rest d0 u r _ Hl IH Hok Hinv k v H. cbn [outcome final] in *.
    apply (IH Hok Hinv).
    destruct H as [Hd | [[<- | Hin] Hk]].
    + left. exact Hd.
    + rewrite Hl in Hk. discriminate Hk.
    + right. split; assumption.
Qed.

(** The keys of the dictionary come from the list of places. *)
Lemma resolve_keys service todo d :
  forall k, In k (map fst (final (ShowIslands.resolve service todo d))) ->
            In k (map fst d) \/ In k todo.
Proof.
  apply (ShowIslandsFacts.resolve_runs_over service
           (fun todo d r =>
              forall k, In k (map fst (final r)) -> In k (map fst d) \/ In k todo)).
  - intros d0 k H. left. exact H.
  - intros place rest d0 e _ k H. left. exact H.
  - intros place rest d0 c u r _ _ IH k H. cbn [final] in H.
    destruct (IH k H) as [Hd | Hr]; [| right; right; exact Hr].
    rewrite ShowIslandsFacts.keys_dict_set in Hd.
    destruct (existsb (String.eqb place) (map fst d0)); [left; exact Hd |].
    apply in_app_or in Hd as [Hd | [<- | []]]; [left; exact Hd | right; left; reflexivity].
  - intros place rest d0 u r _ _ IH k H. cbn [final] in H.
    destruct (IH k H) as [Hd | Hr]; [left; exact Hd | right; right; exact Hr].
Qed.

(** X12.  showislands.py, for every service and every list of places.  The
    run is paced, also when it is cut short.  The requests are those of
    the first places of the list, one each and in order; all of them when
    the script completes.  A run that is cut short ends with an exception
    that is not a [RequestException], after at least one request, and
    writes no map.  The keys of the dictionary are places of the list, and
    when the script completes the dictionary holds exactly the places of
    the list that resolve, each under the coordinate kept for it. *)
Theorem showislands_script_runs :
  forall service catalog,
    let r := ShowIslands.script_on service catalog in
    Observe.paced 1 (trace r) = true
    /\ (exists n,
           (n <= List.length catalog)%nat
           /\ Observe.requests (trace r)
              = map ShowIslandsSpec.request (firstn n catalog)
           /\ (outcome r = Ok tt -> n = List.length catalog)
           /\ (forall e, outcome r = Raise e -> (0 < n)%nat))
    /\ (forall e, outcome r = Raise e ->
                  is_RequestException e = false /\ Observe.saved (trace r) = [])
    /\ (forall k, In k (map fst (final r)) -> In k catalog)
    /\ (outcome r = Ok tt ->
        forall k v,
          In (k, v) (final r)
          <-> In k catalog /\ ShowIslandsSpec.lookup service k = Some v).
Proof.
  intros service catalog r. subst r.
  rewrite ShowIslandsFacts.showislands_script_on_run. cbv zeta.
  pose proof (resolve_requests service catalog []) as Hrq.
  pose proof (resolve_paced service catalog [] None I) as Hp.
  pose proof (resolve_keys service catalog []) as Hk.
  pose proof (resolve_complete service catalog []) as Hc.
  pose proof (ShowIslandsFacts.resolve_entries service catalog []) as He.
  pose proof (ShowIslandsFacts.resolve_saved service catalog []) as Hs.
  cbv zeta in Hrq, Hc.
  destruct Hrq as [n [Hn [Hr [Hok Hex]]]].
  pose proof ShowIslandsFacts.showislands_build_requests as Hb.
  destruct (outcome (ShowIslands.resolve service catalog [])) as [[] | e] eqn:Ho;
    cbn [outcome final trace].
  - assert (Hn0 : final (ShowIslands.resolve service catalog []) <> [] ->
                  (0 < n)%nat).
    { intros Hne. rewrite (Hok eq_refl).
      destruct (final (ShowIslands.resolve service catalog [])) as [| [k v] f];
        [contradiction Hne; reflexivity |].
      destruct (Hk k (or_introl eq_refl)) as [[] | Hin].
      destruct catalog; [destruct Hin | cbn; lia]. }
    split; [unfold Observe.paced; rewrite (paced_since_app _ _ _ (Hb _)); exact Hp |].
    split.
    { exists n. split; [exact Hn |].
      split; [rewrite requests_app, Hb, app_nil_r; exact Hr |].
      split; [intros _; apply Hok; reflexivity |].
      intros e. unfold ShowIslandsSpec.build_outcome.
      destruct (final (ShowIslands.resolve service catalog [])) as [| c f];
        [discriminate |].
      intros _. apply Hn0. discriminate. }
    split.
    { intros e. rewrite saved_app, Hs. cbn [app].
      unfold ShowIslandsSpec.build_outcome, ShowIslandsSpec.build_trace.
      destruct (final (ShowIslands.resolve service catalog [])) as [| c f];
        [discriminate |].
      destruct (Folium.accepts (ShowIslandsSpec.centre (c :: f)));
        [discriminate |].
      intros H. injection H as <-. split; reflexivity. }
    split; [intros k H; destruct (Hk k H) as [[] | H']; exact H' |].
    intros _ k v. split.
    + intros H. split.
      * destruct (Hk k (in_map fst _ _ H)) as [[] | H']. exact H'.
      * destruct (He k v H) as [[] | H']. exact H'.
    + intros [Hin Hl]. apply (Hc eq_refl); [intros k0 v0 [] |].
      right. split; assumption.
  - split; [exact Hp |].
    split.
    { exists n. split; [exact Hn |]. split; [exact Hr |].
      split; [discriminate |].
      intros e' H. apply (Hex e). reflexivity. }
    split.
    { intros e' H. injection H as <-. split; [apply (Hex e eq_refl) | exact Hs]. }
    split; [intros k H; destruct (Hk k H) as [[] | H']; exact H' |].
    discriminate.
Qed.

End WithInterpreter.

Section Witness.

Existing Instance Examples.cpython_3_11.

(** Of two places, the one that resolves is in the dictionary. *)
Lemma showislands_script_runs_witness :
  In ("A", (Examples.number "61.0", Examples.number "24.0"))
    (final (ShowIslands.script_on
              (Examples.table_service [("A", Mock.found "61.0" "24.0")])
              ["A"; "B"])).
Proof.
  assert (Hok : outcome (ShowIslands.script_on
                           (Examples.table_service [("A", Mock.found "61.0" "24.0")])
                           ["A"; "B"]) = Ok tt)
    by (vm_compute; reflexivity).
  assert (Hl : ShowIslandsSpec.lookup
                 (Examples.table_service [("A", Mock.found "61.0" "24.0")]) "A"
               = Some (Examples.number "61.0", Examples.number "24.0"))
    by (vm_compute; reflexivity).
  exact (proj2 (proj2 (proj2 (proj2 (proj2
                  (showislands_script_runs
                     (Examples.table_service [("A", Mock.found "61.0" "24.0")])
                     ["A"; "B"])))) Hok "A"
                  (Examples.number "61.0", Examples.number "24.0"))
           (conj (or_introl eq_refl) Hl)).
Defined.

End Witness.

End Scripts.

(* ===================================================================== *)
(** * The cost of a resolution *)
(* ===================================================================== *)

Module Variants.

Import Py Obj Eff EffFacts TraceFacts.
Import RecreationalIslands RecreationalIslandsSpec RecreationalIslandsFacts.

Section WithInterpreter.

Context {py : Interpreter}.

Lemma sleeps_quiet u : Observe.quiet u = true -> Observe.sleeps u = [].
Proof.
  induction u as [| ev u IH]; intros H; [reflexivity |].
  cbn in H. apply andb_prop in H as [Hev Hu].
  destruct ev; try discriminate; cbn; apply IH, Hu.
Qed.

Lemma sleeps_store result i : Observe.sleeps (trace (store result i)) = [].
Proof.
  unfold store. destruct (float_field result "lat"); [reflexivity |].
  destruct (float_field result "lon"); reflexivity.
Qed.

Lemma store_not_false result i : outcome (store result i) <> Ok false.
Proof.
  unfold store. destruct (float_field result "lat"); [discriminate |].
  destruct (float_field result "lon"); discriminate.
Qed.

(** The requests and the sleeps of the loop over the variants. *)
Lemma try_queries_cost service self qs (i : Island) :
  let r := try_queries service self qs i in
  exists n,
    (n <= List.length qs)%nat
    /\ Observe.requests (trace r) = map (request self) (firstn n qs)
    /\ (outcome r = Ok false ->
        n = List.length qs /\ Observe.sleeps (trace r) = repeat 1 n)
    /\ (outcome r <> Ok false ->
        exists k, n = S k /\ Observe.sleeps (trace r) = repeat 1 k).
Proof.
  cbv zeta. induction qs as [| q rest IH].
  - exists 0%nat. cbn. split; [lia |]. split; [reflexivity |].
    split; [intros _; split; reflexivity | intros H; contradiction H; reflexivity].
  - destruct (geocode_run service self q) as [o [t [Hq Hg]]].
    rewrite (try_queries_step _ _ _ _ _ _ _ Hg).
    destruct o as [result | e].
    + destruct (truthy result).
      * exists 1%nat. cbv zeta. cbn [trace outcome final List.length firstn map].
        split; [lia |].
        split.
        { cbn [Observe.requests]. rewrite requests_app, (Geocoder.requests_quiet _ Hq).
          rewrite Geocoder.requests_store. reflexivity. }
        split; [intros H; destruct (store_not_false _ _ H) |].
        intros _. exists 0%nat. split; [reflexivity |].
        cbn [Observe.sleeps]. rewrite Scripts.sleeps_app, (sleeps_quiet _ Hq).
        rewrite sleeps_store. reflexivity.
      * destruct IH as [n [Hn [Hr [Hf Ho]]]].
        exists (S n). cbv zeta. cbn [trace outcome final List.length firstn map].
        split; [lia |].
        split.
        { cbn [Observe.requests]. rewrite requests_app, (Geocoder.requests_quiet _ Hq).
          cbn [app Observe.requests]. rewrite Hr. reflexivity. }
        assert (Hs : forall rest0,
                   Observe.sleeps
                     (Print ("Searching for: " ++ q) :: HttpGet (request self q)
                        :: t ++ Sleep 1 :: rest0)
                   = 1 :: Observe.sleeps rest0).
        { intros rest0. cbn [Observe.sleeps].
          rewrite Scripts.sleeps_app, (sleeps_quiet _ Hq). reflexivity. }
        split.
        { intros H. destruct (Hf H) as [-> Hsl]. split; [reflexivity |].
          rewrite Hs, Hsl. reflexivity. }
        intros H. destruct (Ho H) as [k [-> Hsl]].
        exists (S k). split; [reflexivity |]. rewrite Hs, Hsl. reflexivity.
    + exists 1%nat. cbn [trace outcome final List.length firstn map].
      split; [lia |].
      split; [cbn [Observe.requests]; rewrite (Geocoder.requests_quiet _ Hq); reflexivity |].
      split; [discriminate |].
      intros _. exists 0%nat. split; [reflexivity |].
      cbn [Observe.sleeps]. apply (sleeps_quiet _ Hq).
Qed.

(** X13.  [find_coordinates] sleeps one second after each variant that
    brings nothing, and at no other time.  A call that returns [False] has
    sent the three requests and slept three times, the last time after
    the last request.  A call that returns [True] or raises has sent
    between one and three requests and slept once less often: there is no
    sleep after its last request. *)
Theorem find_coordinates_cost :
  forall service self island,
    let r := find_coordinates service self island in
    (outcome r = Ok false ->
     Observe.requests (trace r) = map (request self) (queries island)
     /\ Observe.sleeps (trace r) = [1; 1; 1])
    /\ (outcome r <> Ok false ->
        exists k,
          (k < 3)%nat
          /\ Observe.requests (trace r)
             = map (request self) (firstn (S k) (queries island))
          /\ Observe.sleeps (trace r) = repeat 1 k).
Proof.
  intros service self island r. subst r.
  rewrite find_coordinates_unfold.
  destruct (try_queries_cost service self (queries island) island)
    as [n [Hn [Hr [Hf Ho]]]].
  cbv zeta in *. split.
  - intros H. destruct (Hf H) as [En Hs]. subst n. split; [exact Hr | exact Hs].
  - intros H. destruct (Ho H) as [k [En Hs]]. subst n.
    exists k. split; [cbn in Hn; lia |]. split; [exact Hr | exact Hs].
Qed.

End WithInterpreter.

Section Witness.

Existing Instance Examples.cpython_3_11.

(** A place found nowhere costs three requests and three sleeps. *)
Lemma find_coordinates_cost_witness :
  Observe.requests
    (trace (find_coordinates Examples.nowhere NominatimGeocoder_init
              (Island_init "A" "X" "a")))
  = map (request NominatimGeocoder_init) (queries (Island_init "A" "X" "a"))
  /\ Observe.sleeps
       (trace (find_coordinates Examples.nowhere NominatimGeocoder_init
                 (Island_init "A" "X" "a")))
     = [1; 1; 1].
Proof.
  apply (proj1 (find_coordinates_cost Examples.nowhere NominatimGeocoder_init
                  (Island_init "A" "X" "a"))).
  vm_compute. reflexivity.
Defined.

End Witness.

End Variants.
